(** * Maximo automation tool: the orchestration engine, embedded and checked

    A shallow embedding of [Maximo_Automation_Tool_01.py]: the step pipeline
    of [run_automation], the stage methods of [StreamlitAutomation], the
    Excel write-back and the pause/stop flags.  The browser, the Excel file
    and the interactive thread are outside the program; they appear here as
    a scripted environment ([env]) whose answers the worker consumes, and
    the worker leaves a call log ([event]) behind. *)

From Stdlib Require Import ZArith QArith NArith List Bool Ascii String DecimalString.
From stdpp Require Import base option list gmap.

Open Scope Z_scope.

(** ** Python values and strings *)

Module Py.

(** A Python [str] is a sequence of Unicode code points. *)
Abbreviation pystr := (list N).

(** Literals of the source that are plain ASCII are written with [str]. *)
Definition str (s : string) : pystr :=
  List.map N_of_ascii (list_ascii_of_string s).

(** [c.isspace()], the characters [str.strip()] removes. *)
Definition isspace (c : N) : bool :=
  ((9 <=? c) && (c <=? 13) || (28 <=? c) && (c <=? 32)
   || (c =? 133) || (c =? 160) || (c =? 5760)
   || (8192 <=? c) && (c <=? 8202)
   || (c =? 8232) || (c =? 8233) || (c =? 8239) || (c =? 8287)
   || (c =? 12288))%N.

Fixpoint lstrip (s : pystr) : pystr :=
  match s with
  | c :: s' => if isspace c then lstrip s' else s
  | [] => []
  end.

Definition rstrip (s : pystr) : pystr := rev (lstrip (rev s)).

(** [s.strip()] *)
Definition strip (s : pystr) : pystr := rstrip (lstrip s).

Fixpoint startswith (p s : pystr) : bool :=
  match p, s with
  | [], _ => true
  | a :: p', b :: s' => (a =? b)%N && startswith p' s'
  | _ :: _, [] => false
  end.

(** [p in s] on strings: [p] occurs as a contiguous run of [s]. *)
Fixpoint contains (p s : pystr) : bool :=
  startswith p s ||
  match s with
  | [] => false
  | _ :: s' => contains p s'
  end.

(** [s.lower()], on the letters A-Z.  The only place that lowers a string
    looks for the ASCII word [login] in it afterwards, and no character
    outside A-Z lowers to a run that can complete that word, so the other
    case mappings of Unicode are left out. *)
Definition lower_char (c : N) : N :=
  if ((65 <=? c) && (c <=? 90))%N then (c + 32)%N else c.
Definition lower (s : pystr) : pystr := List.map lower_char s.

(** Decimal text of an integer, as [str(int)] prints it. *)
Definition str_of_Z (z : Z) : pystr := str (NilZero.string_of_int (Z.to_int z)).

(** The objects pandas hands out for a cell: an empty cell is [NaN]. *)
Inductive pyval : Type :=
  | VNone
  | VNaN
  | VInt (z : Z)
  | VFloat (q : Q)
  | VStr (s : pystr).

(** Python's text conversions of a float: [repr] is the shortest-digits
    algorithm and [float(text)] its parser; both stay abstract. *)
Class FloatText := {
  float_repr : Q -> pystr;
  float_parse : pystr -> option Q
}.

(** [bool(v)] *)
Definition truthy (v : pyval) : bool :=
  match v with
  | VNone => false
  | VNaN => true
  | VInt z => negb (z =? 0)
  | VFloat q => negb (Qeq_bool q 0)
  | VStr s => negb (bool_decide (s = []))
  end.

(** [v == k] for an integer literal [k] *)
Definition eq_int (v : pyval) (k : Z) : bool :=
  match v with
  | VInt z => z =? k
  | VFloat q => Qeq_bool q (inject_Z k)
  | _ => false
  end.

(** [pd.isna(v)], also [not pd.notna(v)] *)
Definition isna (v : pyval) : bool :=
  match v with
  | VNone | VNaN => true
  | _ => false
  end.

(** [str(v)] *)
Definition py_str `{FloatText} (v : pyval) : pystr :=
  match v with
  | VNone => str "None"
  | VNaN => str "nan"
  | VInt z => str_of_Z z
  | VFloat q => float_repr q
  | VStr s => s
  end.

(** Truth value of an attribute that holds [None] or a string. *)
Definition truthy_attr (a : option pystr) : bool :=
  match a with
  | Some (_ :: _) => true
  | _ => false
  end.

End Py.
Import Py.

(** ** Bill name (create_customer_bill, lines 1951-1965) *)

Inductive month := Jan | Feb | Mar | Apr | May | Jun | Jul | Aug | Sep | Oct | Nov | Dec.

(** [strftime("%b")] in the C/English locale, then [.upper()]. *)
Definition month_abbr (m : month) : pystr :=
  str match m with
      | Jan => "JAN" | Feb => "FEB" | Mar => "MAR" | Apr => "APR"
      | May => "MAY" | Jun => "JUN" | Jul => "JUL" | Aug => "AUG"
      | Sep => "SEP" | Oct => "OCT" | Nov => "NOV" | Dec => "DEC"
      end.

(** [strftime("%y")]: the year within the century, two digits. *)
Definition year_short (year : Z) : pystr :=
  let y := year mod 100 in
  str_of_Z (y / 10) ++ str_of_Z (y mod 10).

Definition placeholder_en : pystr := str "To be stored".
Definition placeholder_ar : pystr :=
  [1587; 1610; 1578; 1605; 32; 1575; 1604; 1578; 1582; 1586; 1610; 1606]%N.

(** The test of line 1959 on [description_for_bill]. *)
Definition needs_fallback (d : option pystr) : bool :=
  match d with
  | None => true
  | Some s =>
      bool_decide (s = []) || bool_decide (strip s = [])
      || contains placeholder_en s || contains placeholder_ar s
  end.

Definition description_for_bill
    (wo_description excel_original_description : option pystr)
    (wo_number : pystr) : pystr :=
  if needs_fallback wo_description then
    if truthy_attr excel_original_description
    then default [] excel_original_description
    else str "WO-" ++ wo_number
  else default [] wo_description.

Definition bill_name
    (wo_description excel_original_description : option pystr)
    (wo_number : pystr) (m : month) (year : Z) : pystr :=
  description_for_bill wo_description excel_original_description wo_number
  ++ str "-" ++ wo_number ++ str "-M" ++ month_abbr m ++ year_short year.

(** ** The spreadsheet as pandas presents it (run_automation, lines 2351-2398) *)

(** One row of [services_data].  A field is [None] when the frame has no
    such column, which is when [service.get] falls back to its default. *)
Record service_row := {
  Service_Item : option pyval;
  Description : option pyval;
  Quantity : option pyval;
  Unit_Price : option pyval;
  Total_Price : option pyval
}.

(** What [pd.read_excel] and the frame surgery of lines 2362-2395 yield for
    one sheet.  [header_cells] are the cells B2, B3, ... that exist in the
    frame (fewer than five when the sheet is short: the next [df.iloc]
    raises and the remaining header attributes are left as they were).
    [services] is [None] when the services part raises. *)
Inductive sheet_frame :=
  | Read_error
  | Frame (header_cells : list pyval) (services : option (list service_row)).

(** ** The Excel working copy as openpyxl sees it *)

Record workbook := {
  sheetnames : list pystr;
  active : pystr;
  cells : gmap (pystr * pystr) pystr   (* (sheet title, address) to value *)
}.

Record excel_file := {
  book : option workbook;   (* [None]: [load_workbook] raises *)
  writable : bool           (* [false]: [wb.save] raises *)
}.

(** ** The scripted browser *)

(** The four pipeline methods, for the call log. *)
Inductive method :=
  | M_add_services_to_wo
  | M_route_wo_to_comp
  | M_create_customer_bill
  | M_process_customer_bill.

(** Answers of the page while one service line is added.  An attempt of a
    retry loop stands for its whole body (selector ladder, typing, result
    probe): [true] when the attempt ends in the loop's [break]. *)
Record line_script := {
  timed_out : nat -> bool;          (* k-th [check_timeout]: over 120 s *)
  select_service_ok : bool;
  filter_ok : bool;
  search_ok : nat -> bool;
  checkbox_ok : nat -> bool;
  ok_button_ok : nat -> bool;
  quantity_field_found : bool;
  quantity_echo_ok : nat -> bool;
  save_ok : bool
}.

(** Answers during [route_wo_to_comp]: each flag tells whether the
    fallback ladder of that step clicked something. *)
Record route_script := {
  route_click1 : bool;
  route_ok1 : bool;
  route_click2 : bool;
  route_ok2 : bool;
  route_click3 : bool;
  route_complete : bool
}.

(** Where [route_wo_to_comp] is called from. *)
Inductive route_site := From_add_services | From_pipeline.

Record bill_script := {
  bill_page_ready : bool;
  action_input_visible : bool;
  action_dropdown_visible : bool;
  create_option_visible : nat -> bool;
  batch_field_visible : bool;
  batch_input_value : pystr;
  batch_js_value : pystr;
  name_field_visible : bool;
  bill_ok_clicked : bool
}.

(** A row of the services table of a bill, as the in-page query sees it
    before its own [filter]. *)
Record price_row := {
  serviceCode : option pystr;
  inputId : option pystr
}.

(** What ends the pagination on the last page. *)
Inductive next_state :=
  | Next_off            (* absent, invisible, or the off.gif image *)
  | Next_click_fails.   (* the click or the wait after it raises *)

(** The result pages of one bill, in the order the next-page control
    leads through them; [rows = None] when the in-page query raises. *)
Inductive site :=
  | Last_page (rows : option (list price_row)) (next : next_state)
  | Next_page (rows : option (list price_row)) (rest : site).

(** Outcome of a [page.evaluate] that sets a field. *)
Inductive eval_result :=
  | Returned (b : bool)
  | Threw.

(** Where [save_bill_changes] is called from. *)
Inductive save_site := Save_in_process_customer_bill | Save_in_run_automation.

Record prices_script := {
  services_tab_ok : bool;
  pages : site;
  set_price_result : pystr -> pystr -> eval_result;   (* input id, value *)
  set_zero_result : pystr -> eval_result;
  save_clicked : save_site -> bool
}.

Record job_script := {
  search_wo_ok : bool;
  tabs_ok : bool;
  lines : nat -> line_script;     (* by Excel row number *)
  routes : route_site -> route_script;
  bill : bill_script;
  prices : prices_script
}.

Record verify_script := {
  url_first : pystr;
  body_text : option pystr;      (* [None]: the in-page query raises *)
  url_second : pystr
}.

Record login_script := {
  login_page_loads : bool;
  form_present : nat -> option bool;       (* [None]: the query raises *)
  credentials_ok : nat -> bool;            (* no unguarded call raises *)
  verify : nat -> nat -> verify_script;    (* login attempt, check *)
  url_after : nat -> pystr;                (* [page.url] at line 887 *)
  error_text : nat -> pystr                (* [''] when it cannot be read *)
}.

(** ** The interactive thread *)

Inductive ui_action := On_pause | On_stop.

(** ** Environment of one run *)

Record env := {
  ui_schedule : nat -> list ui_action;  (* handlers run before the n-th read
                                           of a shared flag by the worker *)
  pause_fuel : nat;                     (* sleeps of [wait_if_paused] seen *)
  browser_starts : bool;
  today : month * Z;
  login : login_script;
  excel_readable : bool;
  sheet_names : list pystr;
  frames : pystr -> sheet_frame;
  jobs : pystr -> job_script
}.

(** ** Call log *)

(** The dict built at lines 1142-1148: [service.get(key)] is [None] for a
    missing column. *)
Record service_dict := {
  d_item : pyval;
  d_description : pyval;
  d_quantity : pyval;
  d_unit_price : pyval;
  d_total_price : pyval
}.

Inductive exn := Exception (msg : pystr).

Inductive status :=
  | Initializing
  | Missing_run_parameters
  | Select_an_excel_file
  | Stopped_before_browser
  | Failed_to_start_browser
  | Login_successful
  | Failed_reading_excel
  | Stopped_between_sheets
  | Processing_sheet (idx total : nat) (sheet : pystr)
  | Stop_exiting_sheet
  | Excel_updated
  | Failed_to_update_excel
  | Automation_complete
  | Automation_error (e : exn).

(** A set-value script, by what it does to its input element. *)
Inductive dom_op :=
  | Assign_value (v : pystr)          (* input.value = v *)
  | Native_set_value (v : pystr)      (* the prototype's value setter *)
  | Dispatch (ev : pystr)             (* dispatchEvent(new Event(ev)) *)
  | Return_value_equals (v : pystr).  (* return input.value === v *)

Inductive browser_call :=
  | Goto (url : pystr)
  | Submit_credentials (attempt : nat)
  | Search_work_order (wo : pystr)
  | Open_tabs
  | Select_internal_service (row : nat)
  | Open_filter (row : nat)
  | Search_item (row : nat) (attempt : nat) (item : pystr)
  | Select_result (row : nat) (attempt : nat)
  | Confirm_result (row : nat) (attempt : nat)
  | Fill_quantity (row : nat) (attempt : nat)
  | Save_line (row : nat)
  | Route_click (n : nat)
  | Route_ok (n : nat)
  | Route_complete
  | Open_action_menu
  | Click_create_bill (attempt : nat)
  | Fill_bill_name (name : pystr)
  | Confirm_bill
  | Open_services_tab
  | Query_rows (page_number : nat)
  | Set_value (code input : pystr) (script : list dom_op) (res : eval_result)
  | Next_page_click
  | Save_bill (site : save_site)
  | Close_browser.

Inductive event :=
  | Status (s : status)
  | Progress (done total : nat)
  | Progress_hint (done total : nat)
  | Login_retry
  | Stop_while_adding
  | Skipped_zero_quantity (row : nat)
  | Skipped_empty_item (row : nat)
  | Missing_wo (sheet : pystr)
  | Sheet_processed (sheet : pystr)
  | Price_error (code : pystr)
  | Enter (m : method)
  | Call_add_single_service (row : nat) (service : service_dict)
  | Returned_add_single_service (row : nat) (res : bool)
  | Browser (c : browser_call)
  | Excel_saved (title status : pystr)   (* the sheet saved, and its B5 *)
  | Controls_enabled.

(** ** State of the worker and of what it shares *)

(** The attributes of [StreamlitAutomation] that the pipeline reads. *)
Record automation := {
  paused : bool;
  url_var : pystr;
  working_excel_path : option pystr;
  current_sheet : option pystr;
  wo_number : option pystr;
  wo_description : option pystr;
  excel_original_description : option pystr;
  bill_batch : option pystr;
  bill_status : option pystr;
  reviewed_by : option pystr;
  services_data : option (list service_row)
}.

Record world := {
  auto : automation;
  stop_event : bool;        (* the [threading.Event] of on_start *)
  session_paused : bool;    (* [st.session_state["paused"]] *)
  ticks : nat;
  excel : excel_file;
  log : list event
}.

Definition set_auto (f : automation -> automation) (w : world) : world :=
  {| auto := f (auto w); stop_event := stop_event w;
     session_paused := session_paused w; ticks := ticks w;
     excel := excel w; log := log w |}.

Definition set_excel (x : excel_file) (w : world) : world :=
  {| auto := auto w; stop_event := stop_event w;
     session_paused := session_paused w; ticks := ticks w;
     excel := x; log := log w |}.

Definition add_log (e : event) (w : world) : world :=
  {| auto := auto w; stop_event := stop_event w;
     session_paused := session_paused w; ticks := ticks w;
     excel := excel w; log := log w ++ [e] |}.

(** [on_pause] (line 2506) flips the session flag; [on_stop] (line 2513)
    sets the event.  Neither touches the worker's [automation] object. *)
Definition ui_step (w : world) (a : ui_action) : world :=
  match a with
  | On_pause =>
      {| auto := auto w; stop_event := stop_event w;
         session_paused := negb (session_paused w); ticks := ticks w;
         excel := excel w; log := log w |}
  | On_stop =>
      {| auto := auto w; stop_event := true;
         session_paused := session_paused w; ticks := ticks w;
         excel := excel w; log := log w |}
  end.

Definition tick (w : world) : world :=
  {| auto := auto w; stop_event := stop_event w;
     session_paused := session_paused w; ticks := S (ticks w);
     excel := excel w; log := log w |}.

(** ** Computations of the worker: state, exceptions, blocking *)

Inductive result (A : Type) :=
  | Done (a : A)
  | Raised (e : exn)
  | Blocked.        (* still asleep in [wait_if_paused] when the fuel ends *)
Arguments Done {A} a.
Arguments Raised {A} e.
Arguments Blocked {A}.

Definition M (A : Type) : Type := world -> result A * world.

Definition ret {A} (a : A) : M A := fun w => (Done a, w).

Definition bind {A B} (m : M A) (k : A -> M B) : M B :=
  fun w =>
    match m w with
    | (Done a, w') => k a w'
    | (Raised e, w') => (Raised e, w')
    | (Blocked, w') => (Blocked, w')
    end.

Notation "'let*' x ':=' m 'in' k" := (bind m (fun x => k))
  (at level 10, x pattern, m at level 99, k at level 200).
Notation "m ';;;' k" := (bind m (fun _ => k))
  (at level 100, k at level 200, right associativity).

Definition raise {A} (msg : pystr) : M A := fun w => (Raised (Exception msg), w).

(** [try: m except Exception as e: h e] *)
Definition try_except {A} (m : M A) (h : exn -> M A) : M A :=
  fun w =>
    match m w with
    | (Raised e, w') => h e w'
    | r => r
    end.

(** [try: m finally: f] *)
Definition try_finally {A} (m : M A) (f : M unit) : M A :=
  fun w =>
    match m w with
    | (Blocked, w') => (Blocked, w')
    | (r, w') =>
        match f w' with
        | (Done _, w'') => (r, w'')
        | (Raised e, w'') => (Raised e, w'')
        | (Blocked, w'') => (Blocked, w'')
        end
    end.

Definition emit (e : event) : M unit := fun w => (Done tt, add_log e w).
Definition call (c : browser_call) : M unit := emit (Browser c).
Definition get {A} (f : automation -> A) : M A := fun w => (Done (f (auto w)), w).
Definition modify (f : automation -> automation) : M unit :=
  fun w => (Done tt, set_auto f w).

(** A browser call that raises when the page does not cooperate. *)
Definition must (ok : bool) (msg : string) : M unit :=
  if ok then ret tt else raise (str msg).

(** First attempt below [budget], counted from [i], that succeeds. *)
Fixpoint first_success (attempt : nat -> bool) (budget i : nat) : option nat :=
  match budget with
  | O => None
  | S b => if attempt i then Some i else first_success attempt b (S i)
  end.

Section Worker.
Context `{FloatText} (E : env).

(** *** Pause and stop (lines 409-415) *)

(** The worker is about to read a flag it shares with the interactive
    thread: the handlers scheduled before this read have run. *)
Definition yield : M unit :=
  fun w => (Done tt, tick (foldl ui_step w (ui_schedule E (ticks w)))).

(** [self.stop_event.is_set()] *)
Definition stop_is_set : M bool :=
  yield ;;; fun w => (Done (stop_event w), w).

Fixpoint wait_if_paused (fuel : nat) : M unit :=
  match fuel with
  | O => fun w => (Blocked, w)
  | S fuel' =>
      yield ;;;
      let* p := get paused in
      if p then
        let* s := stop_is_set in
        if s then ret tt else wait_if_paused fuel'   (* time.sleep(0.5) *)
      else ret tt
  end.

Definition check_pause : M unit :=
  yield ;;;
  let* p := get paused in
  if p then wait_if_paused (pause_fuel E) else ret tt.

(** *** update_excel_file (lines 418-461) *)

Definition write_cell (title addr : pystr) (v : option pystr)
    (c : gmap (pystr * pystr) pystr) : gmap (pystr * pystr) pystr :=
  if truthy_attr v then <[(title, addr) := default [] v]> c else c.

(** The sheet picked at lines 430-433. *)
Definition target_sheet (a : automation) (wb : workbook) : pystr :=
  match current_sheet a with
  | Some s => if bool_decide (s ∈ sheetnames wb) then s else active wb
  | None => active wb
  end.

(** Lines 442-445: what goes into B5. *)
Definition status_cell (a : automation) : pystr :=
  if truthy_attr (bill_status a) then default [] (bill_status a)
  else str "CREATED".

(** Lines 436-447: B5 always receives a value, the other cells only when
    the attribute is set. *)
Definition write_header (a : automation) (wb : workbook) : workbook :=
  let t := target_sheet a wb in
  let c := write_cell t (str "B2") (wo_number a) (cells wb) in
  let c := write_cell t (str "B3") (wo_description a) c in
  let c := write_cell t (str "B4") (bill_batch a) c in
  let c := <[(t, str "B5") := status_cell a]> c in
  let c := write_cell t (str "B6") (reviewed_by a) c in
  {| sheetnames := sheetnames wb; active := active wb; cells := c |}.

Definition update_excel_file : M bool :=
  fun w =>
    let a := auto w in
    if negb (truthy_attr (working_excel_path a)) then (Done false, w)
    else
      match book (excel w) with
      | None => (Done false, add_log (Status Failed_to_update_excel) w)
      | Some wb =>
          if writable (excel w) then
            let wb' := write_header a wb in
            (Done true,
             add_log (Status Excel_updated)
               (add_log (Excel_saved (target_sheet a wb) (status_cell a))
                  (set_excel {| book := Some wb'; writable := true |} w)))
          else (Done false, add_log (Status Failed_to_update_excel) w)
      end.

(** The script of the sheet in hand. *)
Definition job : M job_script :=
  get (fun a => jobs E (default [] (current_sheet a))).

(** *** enter_services_prices (lines 463-589) *)

(** Lines 523-540 and 548-555, as scripts. *)
Definition set_price_script (value : pystr) : list dom_op :=
  [Assign_value value; Dispatch (str "change"); Dispatch (str "blur");
   Native_set_value value; Dispatch (str "input"); Dispatch (str "keyup");
   Return_value_equals value].

Definition zero_price_script : list dom_op :=
  [Assign_value (str "0.00"); Dispatch (str "change");
   Dispatch (str "input"); Dispatch (str "blur")].

(** Lines 478-484.  [None] is the [KeyError] of a frame without the column.
    The dict is only ever read with a [str] key (the title attribute of a
    page element), which no key of another type equals, so only its [str]
    keys are kept. *)
Fixpoint build_price_map (rows : list service_row) (m : gmap pystr pyval)
    : option (gmap pystr pyval) :=
  match rows with
  | [] => Some m
  | r :: rows' =>
      match Service_Item r, Total_Price r with
      | Some item, Some total =>
          build_price_map rows'
            match item, total with
            | _, VNone => m
            | VStr (c :: s), _ => <[c :: s := total]> m
            | _, _ => m
            end
      | _, _ => None
      end
  end.

Definition excel_services_map (a : automation) : option (gmap pystr pyval) :=
  match services_data a with
  | None | Some [] => Some ∅
  | Some rows => build_price_map rows ∅
  end.

(** The [filter] that ends the in-page query of lines 488-500. *)
Definition service_elements (rows : list price_row) : list (pystr * pystr) :=
  omap (fun r =>
          match serviceCode r, inputId r with
          | Some (c :: cs), Some (i :: ids) => Some (c :: cs, i :: ids)
          | _, _ => None
          end) rows.

(** Body of the loop of lines 509-563 for one element. *)
Definition price_element (ps : prices_script) (m : gmap pystr pyval)
    (processed : gset pystr) (el : pystr * pystr) : M (gset pystr) :=
  let '(service_code, input_id) := el in
  check_pause ;;;
  if bool_decide (service_code = []) || bool_decide (service_code ∈ processed)
  then ret processed
  else
    match m !! service_code with
    | Some VNone | None =>           (* [excel_price is None] *)
        let res := set_zero_result ps input_id in
        call (Set_value service_code input_id zero_price_script res) ;;;
        match res with
        | Returned _ => ret ({[service_code]} ∪ processed)
        | Threw => emit (Price_error service_code) ;;; ret processed
        end
    | Some excel_price =>
        let new_value := py_str excel_price in
        let res := set_price_result ps input_id new_value in
        call (Set_value service_code input_id (set_price_script new_value) res) ;;;
        match res with
        | Returned _ => ret ({[service_code]} ∪ processed)
        | Threw => emit (Price_error service_code) ;;; ret processed
        end
    end.

Fixpoint price_elements (ps : prices_script) (m : gmap pystr pyval)
    (processed : gset pystr) (els : list (pystr * pystr)) : M (gset pystr) :=
  match els with
  | [] => ret processed
  | el :: els' =>
      let* processed' := price_element ps m processed el in
      price_elements ps m processed' els'
  end.

Definition rows_of (s : site) : option (list price_row) :=
  match s with
  | Last_page rows _ | Next_page rows _ => rows
  end.

(** The [while True] of lines 486-577, along the pages of the site. *)
Fixpoint price_pages (ps : prices_script) (m : gmap pystr pyval)
    (s : site) (page_number : nat) (processed : gset pystr) : M (gset pystr) :=
  check_pause ;;;
  call (Query_rows page_number) ;;;
  match rows_of s with
  | None => raise (str "page.evaluate failed")
  | Some rows =>
      match service_elements rows with
      | [] => ret processed
      | els =>
          let* processed' := price_elements ps m processed els in
          match s with
          | Last_page _ Next_off => ret processed'
          | Last_page _ Next_click_fails =>
              check_pause ;;; call Next_page_click ;;; ret processed'
          | Next_page _ rest =>
              check_pause ;;; call Next_page_click ;;;
              price_pages ps m rest (S page_number) processed'
          end
      end
  end.

Definition enter_services_prices : M (gset pystr) :=
  check_pause ;;;
  let* j := job in
  let ps := prices j in
  call Open_services_tab ;;;
  must (services_tab_ok ps) "Services tab click failed" ;;;
  let* m := get excel_services_map in
  match m with
  | None => raise (str "KeyError")
  | Some m => price_pages ps m (pages ps) 1 ∅
  end.

(** *** save_bill_changes (lines 591-671) *)

Definition save_bill_changes (site : save_site) : M unit :=
  check_pause ;;;
  let* j := job in
  call (Save_bill site) ;;;
  must (save_clicked (prices j) site)
       "Could not find or click save button after all attempts".

(** *** process_customer_bill (lines 1023-1034) *)

Definition process_customer_bill : M unit :=
  emit (Enter M_process_customer_bill) ;;;
  check_pause ;;;
  enter_services_prices ;;;
  save_bill_changes Save_in_process_customer_bill.
(** *** verify_login_success (lines 673-709) *)

Definition success_indicators : list pystr :=
  [str "Welcome"; str "Logout"; str "Sign Out"; str "Main Menu"].

(** One pass of the loop body: [true] when it reaches a [return True]. *)
Definition verify_once (v : verify_script) : bool :=
  if negb (contains (str "login") (lower (url_first v))) then true
  else
    match body_text v with
    | None => false        (* the except branch: on to the next attempt *)
    | Some all_text =>
        if existsb (fun text => contains text all_text) success_indicators
        then true
        else negb (contains (str "login") (lower (url_second v)))
    end.

Definition verify_login_success (login_attempt : nat) : bool :=
  let max_attempts := 2%nat in
  match first_success (fun k => verify_once (verify (login E) login_attempt k))
                      max_attempts 0 with
  | Some _ => true
  | None => false
  end.

(** *** perform_login (lines 730-901) *)

(** [s.split("?")[0]] *)
Fixpoint before_question_mark (s : pystr) : pystr :=
  match s with
  | [] => []
  | c :: s' => if (c =? 63)%N then [] else c :: before_question_mark s'
  end.

(** The [for attempt in range(max_login_attempts)] of lines 775-898.  When
    the budget is used up the loop simply ends: the method returns. *)
Fixpoint login_attempts (budget attempt : nat) : M unit :=
  match budget with
  | O => ret tt
  | S budget' =>
      call (Submit_credentials attempt) ;;;
      must (credentials_ok (login E) attempt) "browser call failed" ;;;
      if verify_login_success attempt then emit (Status Login_successful)
      else
        let* url := get url_var in
        (if contains (before_question_mark (strip url)) (url_after (login E) attempt)
            && negb (bool_decide (error_text (login E) attempt = []))
         then raise (str "Login failed: " ++ error_text (login E) attempt)
         else ret tt) ;;;
        (if (attempt <? 2)%nat then emit Login_retry else ret tt) ;;;
        login_attempts budget' (S attempt)
  end.

Definition perform_login : M unit :=
  must (login_page_loads (login E)) "page load timed out" ;;;
  match first_success
          (fun k => bool_decide (form_present (login E) k = Some true)) 3 0 with
  | None => raise (str "Could not detect login form after multiple attempts")
  | Some _ => login_attempts 3 0
  end.

(** *** search_work_order (lines 903-1021) *)

Definition search_work_order (wo : option pystr) : M unit :=
  let* j := job in
  call (Search_work_order (default (str "None") wo)) ;;;
  must (search_wo_ok j) "Search failed".

(** *** route_wo_to_comp (lines 1701-1868) *)

(** Steps 1 to 5 raise when their ladder clicks nothing.  Step 6 and the
    final OK sit inside a handler that returns [True] whatever happens. *)
Definition route_wo_to_comp (site : route_site) : M bool :=
  emit (Enter M_route_wo_to_comp) ;;;
  let* j := job in
  let r := routes j site in
  call (Route_click 1) ;;;
  must (route_click1 r) "Failed to click first Route button" ;;;
  call (Route_ok 1) ;;;
  must (route_ok1 r) "Could not click first OK button" ;;;
  call (Route_click 2) ;;;
  must (route_click2 r) "Failed to click second Route button" ;;;
  call (Route_ok 2) ;;;
  must (route_ok2 r) "Could not click second OK button with any method" ;;;
  call (Route_click 3) ;;;
  must (route_click3 r) "Failed to click third Route button" ;;;
  call Route_complete ;;;
  ret true.

(** *** add_single_service (lines 1163-1641) *)

(** [s.upper()] on the letters a-z; item codes are of the form IS00000082. *)
Definition upper_char (c : N) : N :=
  if ((97 <=? c) && (c <=? 122))%N then (c - 32)%N else c.
Definition upper (s : pystr) : pystr := List.map upper_char s.

(** [float(v)]: outer [None] when it raises, inner [None] for NaN. *)
Definition py_float (v : pyval) : option (option Q) :=
  match v with
  | VNone => None
  | VNaN => Some None
  | VInt z => Some (Some (inject_Z z))
  | VFloat q => Some (Some q)
  | VStr s => Some <$> float_parse s
  end.

(** The test shared by lines 1133 and 1170. *)
Definition item_is_empty (service_item : pyval) : bool :=
  negb (truthy service_item) || bool_decide (strip (py_str service_item) = []).

(** A bounded retry loop (lines 1230, 1361, 1472, 1593): [check_pause],
    then the attempt; the first success leaves the loop, and the failure of
    the last attempt raises. *)
Fixpoint attempts (budget i : nat) (body : nat -> M bool) (msg : string) : M unit :=
  match budget with
  | O => raise (str msg)
  | S budget' =>
      check_pause ;;;
      let* ok := body i in
      if ok then ret tt else attempts budget' (S i) body msg
  end.

Definition check_timeout (l : line_script) (k : nat) : M unit :=
  check_pause ;;;
  (if timed_out l k then raise (str "Service addition timeout after 120 seconds")
   else ret tt) ;;;
  let* s := stop_is_set in
  if s then raise (str "Operation was stopped by user") else ret tt.

Definition add_single_service_body (service : service_dict) (excel_row : nat)
    : M bool :=
  let service_item := d_item service in
  (if item_is_empty service_item
   then raise (str "Service Item is empty or invalid") else ret tt) ;;;
  let* s := stop_is_set in
  (if s then raise (str "Operation was stopped by user") else ret tt) ;;;
  let* j := job in
  let l := lines j excel_row in
  check_timeout l 0 ;;;
  call (Select_internal_service excel_row) ;;;
  must (select_service_ok l) "Failed to click Select Internal Service button" ;;;
  check_timeout l 1 ;;;
  check_timeout l 2 ;;;
  call (Open_filter excel_row) ;;;
  must (filter_ok l) "Failed to click Filter button" ;;;
  check_timeout l 3 ;;;
  let clean_service_item := upper (strip (py_str service_item)) in
  attempts 3 0
    (fun k => call (Search_item excel_row k clean_service_item) ;;;
              ret (search_ok l k))
    "Failed to search for service" ;;;
  attempts 5 0
    (fun k => call (Select_result excel_row k) ;;; ret (checkbox_ok l k))
    "Failed to select service checkbox" ;;;
  attempts 5 0
    (fun k => call (Confirm_result excel_row k) ;;; ret (ok_button_ok l k))
    "Failed to click OK button" ;;;
  match py_float (d_quantity service) with
  | None => raise (str "could not convert quantity to float")
  | Some quantity =>
      (if match quantity with Some q => Qeq_bool q 1 | None => false end
       then ret tt
       else
         must (quantity_field_found l)
              "Could not find quantity field with any known selector" ;;;
         attempts 3 0
           (fun k => call (Fill_quantity excel_row k) ;;;
                     ret (quantity_echo_ok l k))
           "Failed to update quantity") ;;;
      call (Save_line excel_row) ;;;
      must (save_ok l) "Failed to save" ;;;
      ret true
  end.

(** The handler of lines 1639-1641 turns every exception into [False]. *)
Definition add_single_service (service : service_dict) (excel_row : nat)
    : M bool :=
  let* res := try_except (add_single_service_body service excel_row)
                         (fun _ => ret false) in
  emit (Returned_add_single_service excel_row res) ;;;
  ret res.
(** *** add_services_to_wo (lines 1095-1161) *)

Definition to_dict (service : service_row) : service_dict :=
  {| d_item := default VNone (Service_Item service);
     d_description := default VNone (Description service);
     d_quantity := default VNone (Quantity service);
     d_unit_price := default VNone (Unit_Price service);
     d_total_price := default VNone (Total_Price service) |}.

(** The [for idx, (_, service) in enumerate(...)] of lines 1120-1156. *)
Fixpoint service_loop (total_services : nat) (rows : list service_row)
    (idx processed_services : nat) : M unit :=
  match rows with
  | [] => ret tt
  | service :: rows' =>
      let* s := stop_is_set in
      if s then emit Stop_while_adding
      else
        let row_num := (idx + 8)%nat in
        let quantity := default (VInt 0) (Quantity service) in
        let service_item := default (VStr []) (Service_Item service) in
        if eq_int quantity 0 || isna quantity then
          emit (Skipped_zero_quantity row_num) ;;;
          service_loop total_services rows' (S idx) processed_services
        else if item_is_empty service_item then
          emit (Skipped_empty_item row_num) ;;;
          service_loop total_services rows' (S idx) processed_services
        else
          emit (Call_add_single_service row_num (to_dict service)) ;;;
          add_single_service (to_dict service) row_num ;;;
          emit (Progress_hint (S processed_services) total_services) ;;;
          service_loop total_services rows' (S idx) (S processed_services)
  end.

Definition add_services_to_wo : M unit :=
  emit (Enter M_add_services_to_wo) ;;;
  let* j := job in
  call Open_tabs ;;;
  must (tabs_ok j) "tab click failed" ;;;
  let* data := get services_data in
  match data with
  | None | Some [] => ret tt       (* "No services data found to process" *)
  | Some rows =>
      service_loop (length rows) rows 0 0 ;;;
      route_wo_to_comp From_add_services ;;;
      ret tt
  end.

(** *** save_bill_info (lines 1870-1886) *)

Definition save_bill_info : M unit :=
  let* batch := get bill_batch in
  if negb (truthy_attr batch) then ret tt
  else
    let* d := get wo_description in
    let* o := get excel_original_description in
    (if (negb (truthy_attr d)
         || contains placeholder_en (default [] d)
         || contains placeholder_ar (default [] d))
        && truthy_attr o
     then modify (fun a =>
            {| paused := paused a; url_var := url_var a;
               working_excel_path := working_excel_path a;
               current_sheet := current_sheet a; wo_number := wo_number a;
               wo_description := o;
               excel_original_description := excel_original_description a;
               bill_batch := bill_batch a; bill_status := bill_status a;
               reviewed_by := reviewed_by a;
               services_data := services_data a |})
     else ret tt) ;;;
    update_excel_file ;;;
    ret tt.

(** *** create_customer_bill (lines 1888-1996) *)

Definition set_bill_batch (v : pystr) (a : automation) : automation :=
  {| paused := paused a; url_var := url_var a;
     working_excel_path := working_excel_path a;
     current_sheet := current_sheet a; wo_number := wo_number a;
     wo_description := wo_description a;
     excel_original_description := excel_original_description a;
     bill_batch := Some v; bill_status := bill_status a;
     reviewed_by := reviewed_by a; services_data := services_data a |}.

Definition create_customer_bill : M unit :=
  emit (Enter M_create_customer_bill) ;;;
  let* j := job in
  let b := bill j in
  must (bill_page_ready b) "page load timed out" ;;;
  call Open_action_menu ;;;
  must (action_input_visible b || action_dropdown_visible b)
       "Could not find Select Action dropdown" ;;;
  match first_success (create_option_visible b) 5 0 with
  | None => raise (str "Could not find Create Customer Bill option")
  | Some k =>
      call (Click_create_bill k) ;;;
      (if batch_field_visible b then
         if negb (bool_decide (batch_input_value b = []))
            && negb (bool_decide (strip (batch_input_value b) = []))
         then modify (set_bill_batch (strip (batch_input_value b)))
         else if negb (bool_decide (batch_js_value b = []))
         then modify (set_bill_batch (strip (batch_js_value b)))
         else raise (str "Bill batch field is empty")
       else raise (str "Bill batch input field not found or not visible")) ;;;
      let* d := get wo_description in
      let* o := get excel_original_description in
      let* n := get wo_number in
      let name := bill_name d o (default (str "None") n)
                            (fst (today E)) (snd (today E)) in
      if name_field_visible b then
        call (Fill_bill_name name) ;;;
        call Confirm_bill ;;;
        must (bill_ok_clicked b)
             "Could not find or click OK button with any method"
      else raise (str "Bill description input field not found or not visible")
  end.
(** *** run_automation (lines 2264-2467) *)

(** The parameters as [on_start] captures them (lines 2490-2500); the stop
    event is the one of the [world]. *)
Record params := {
  excel_path : option pystr;
  url : pystr;
  selected_steps : list pystr;
  start_at : pystr
}.

Definition canonical : list pystr :=
  [str "add_services"; str "route_to_comp"; str "create_bill"; str "put_prices"].

(** [l.index(x)], [None] for the [ValueError]. *)
Fixpoint index (x : pystr) (l : list pystr) : option nat :=
  match l with
  | [] => None
  | y :: l' => if bool_decide (y = x) then Some 0%nat else S <$> index x l'
  end.

(** Lines 2413-2418. *)
Definition ordered (start_at : pystr) (selected_steps : list pystr) : list pystr :=
  let start_idx := default 0%nat (index start_at canonical) in
  List.filter (fun s => bool_decide (s ∈ selected_steps)) (drop start_idx canonical).

(** The object made at lines 2292-2303. *)
Definition new_automation (p : params) : automation :=
  {| paused := false; url_var := url p;
     working_excel_path := excel_path p;
     current_sheet := None; wo_number := None; wo_description := None;
     excel_original_description := None; bill_batch := None;
     bill_status := None; reviewed_by := None; services_data := None |}.

(** Lines 2354-2358: [str(cell).strip()], or [None] for an empty cell. *)
Definition header_field (v : pyval) : option pystr :=
  if isna v then None else Some (strip (py_str v)).

Definition parse_sheet (sheet : pystr) (a : automation) : automation :=
  let keep (old : option pystr) (c : option pyval) :=
    match c with Some v => header_field v | None => old end in
  match frames E sheet with
  | Read_error =>
      {| paused := paused a; url_var := url_var a;
         working_excel_path := working_excel_path a;
         current_sheet := Some sheet; wo_number := wo_number a;
         wo_description := wo_description a;
         excel_original_description := excel_original_description a;
         bill_batch := bill_batch a; bill_status := bill_status a;
         reviewed_by := reviewed_by a; services_data := Some [] |}
  | Frame cells services =>
      {| paused := paused a; url_var := url_var a;
         working_excel_path := working_excel_path a;
         current_sheet := Some sheet;
         wo_number := keep (wo_number a) (cells !! 0%nat);
         wo_description := keep (wo_description a) (cells !! 1%nat);
         excel_original_description := excel_original_description a;
         bill_batch := keep (bill_batch a) (cells !! 2%nat);
         bill_status := keep (bill_status a) (cells !! 3%nat);
         reviewed_by := keep (reviewed_by a) (cells !! 4%nat);
         services_data := Some (default [] services) |}
  end.

(** The dispatch of lines 2427-2447. *)
Definition run_step (step : pystr) : M unit :=
  if bool_decide (step = str "add_services") then add_services_to_wo
  else if bool_decide (step = str "route_to_comp") then
    route_wo_to_comp From_pipeline ;;; ret tt
  else if bool_decide (step = str "create_bill") then
    create_customer_bill ;;;
    try_except save_bill_info (fun _ => ret tt)
  else if bool_decide (step = str "put_prices") then
    process_customer_bill ;;;
    try_except (save_bill_changes Save_in_run_automation) (fun _ => ret tt)
  else ret tt.

(** The [for step in ordered] of lines 2423-2447. *)
Fixpoint run_steps (steps : list pystr) : M unit :=
  match steps with
  | [] => ret tt
  | step :: steps' =>
      let* s := stop_is_set in
      if s then emit (Status Stop_exiting_sheet)
      else run_step step ;;; run_steps steps'
  end.

(** Lines 2340-2455: one sheet, after the stop check of the loop head. *)
Definition process_sheet (p : params) (page : bool) (idx total : nat)
    (sheet : pystr) : M unit :=
  modify (parse_sheet sheet) ;;;
  emit (Status (Processing_sheet idx total sheet)) ;;;
  let* wo := get wo_number in
  if negb (truthy_attr wo) then
    emit (Missing_wo sheet) ;;; emit (Progress idx total)
  else
    (if page then
       search_work_order wo ;;;
       run_steps (ordered (start_at p) (selected_steps p)) ;;;
       update_excel_file
     else update_excel_file) ;;;
    emit (Sheet_processed sheet) ;;;
    emit (Progress idx total).

(** The [for idx, sheet in enumerate(sheet_names, 1)] of line 2335. *)
Fixpoint sheet_loop (p : params) (page : bool) (total : nat)
    (sheets : list pystr) (idx : nat) : M unit :=
  match sheets with
  | [] => ret tt
  | sheet :: sheets' =>
      let* s := stop_is_set in
      if s then emit (Status Stopped_between_sheets)
      else
        process_sheet p page idx total sheet ;;;
        sheet_loop p page total sheets' (S idx)
  end.

Definition enable_controls : M unit := emit Controls_enabled.
Definition close_browser : M unit := call Close_browser.

(** The body of the outer [try] (lines 2267-2458). *)
Definition run_body (p : params) : M unit :=
  emit (Progress 0 1) ;;;
  emit (Status Initializing) ;;;
  if negb (truthy_attr (excel_path p)) then
    emit (Status Select_an_excel_file) ;;; enable_controls
  else
    modify (fun _ => new_automation p) ;;;
    let* s := stop_is_set in
    if s then emit (Status Stopped_before_browser) ;;; enable_controls
    else
      let page := browser_starts E in
      (if page then call (Goto (url p)) ;;; perform_login
       else emit (Status Failed_to_start_browser)) ;;;
      if negb (excel_readable E) then
        emit (Status Failed_reading_excel) ;;; enable_controls
      else
        sheet_loop p page (length (sheet_names E)) (sheet_names E) 1 ;;;
        emit (Status Automation_complete).

(** Its handler and its [finally] (lines 2459-2467). *)
Definition run_automation (p : params) : M unit :=
  try_finally
    (try_except (run_body p) (fun e => emit (Status (Automation_error e))))
    (close_browser ;;; enable_controls).

End Worker.

(** The shared state at the moment [on_start] launches the worker
    (lines 2480-2481): a fresh event, the session not paused. *)
Definition start_world (x : excel_file) : world :=
  {| auto := {| paused := false; url_var := []; working_excel_path := None;
                current_sheet := None; wo_number := None;
                wo_description := None; excel_original_description := None;
                bill_batch := None; bill_status := None; reviewed_by := None;
                services_data := None |};
     stop_event := false; session_paused := false; ticks := 0;
     excel := x; log := [] |}.

(** * Vocabulary of the specification *)

(** A blank text: nothing in it but white space (the empty text included). *)
Definition blank (s : pystr) : Prop := forall c, c ∈ s -> isspace c = true.


(** An attribute that was never given a text. *)
Definition absent (o : option pystr) : Prop := o = None \/ o = Some [].

(** A header attribute as the ingestion of a sheet leaves it. *)
Definition ingested `{FloatText} (a : option pystr) : Prop :=
  a = None \/ exists v, a = header_field v.

(** * A small logic of the worker's computations *)

(** [m], run from a world that meets [I], only appends to the log; every
    event it appends meets [P]; [I] holds afterwards; and a worker that is
    not paused stays so and does not block. *)
Definition spec {A} (I : world -> Prop) (P : event -> Prop) (m : M A) : Prop :=
  forall w, I w ->
    exists evs,
      log (snd (m w)) = log w ++ evs /\ Forall P evs /\ I (snd (m w))
      /\ (paused (auto w) = false ->
          paused (auto (snd (m w))) = false /\ fst (m w) <> Blocked).

(** An update of the attributes that leaves the bill status as sheet
    ingestion makes it. *)
Definition ingesting `{FloatText} (f : automation -> automation) : Prop :=
  forall a, ingested (bill_status a) -> ingested (bill_status (f a)).

(** What [I] must not depend on: the log, the Excel file, the attributes
    of the worker other than the bill status, and whatever the interactive
    thread does between two reads of the worker. *)
Record stable `{FloatText} (E : env) (I : world -> Prop) : Prop := {
  stable_log : forall e w, I w -> I (add_log e w);
  stable_excel : forall x w, I w -> I (set_excel x w);
  stable_auto : forall f w, ingesting f -> I w -> I (set_auto f w);
  stable_yield : forall w, I w -> I (tick (foldl ui_step w (ui_schedule E (ticks w))))
}.

(** The interactive thread never presses Stop during the run. *)
Definition no_stop (E : env) : Prop :=
  forall n, On_stop ∉ ui_schedule E n.

(** ** Service lines *)

(** The Excel row an event submits to the external system, or calls
    [add_single_service] for. *)
Definition submission_of (e : event) : option nat :=
  match e with
  | Call_add_single_service r _ | Returned_add_single_service r _ => Some r
  | Browser (Select_internal_service r) | Browser (Open_filter r)
  | Browser (Search_item r _ _) | Browser (Select_result r _)
  | Browser (Confirm_result r _) | Browser (Fill_quantity r _)
  | Browser (Save_line r) => Some r
  | _ => None
  end.

(** A quantity of 0, or none at all (no column, [None], NaN). *)
Definition quantity_zero_or_missing (service : service_row) : Prop :=
  match Quantity service with
  | None | Some VNone | Some VNaN => True
  | Some (VInt z) => z = 0
  | Some (VFloat q) => (q == 0)%Q
  | Some (VStr _) => False
  end.

(** An item code that is empty or blank, or not there: no such column,
    [None], an empty cell (which pandas hands out as NaN), or a text of
    white space only. *)
Definition item_empty_or_blank (service : service_row) : Prop :=
  match Service_Item service with
  | None | Some VNone | Some VNaN => True
  | Some (VStr s) => blank s
  | Some _ => False
  end.

(** A line the specification wants skipped. *)
Definition skippable (service : service_row) : Prop :=
  quantity_zero_or_missing service \/ item_empty_or_blank service.

(** The two tests of lines 1129 and 1133 together. *)
Definition skips `{FloatText} (service : service_row) : bool :=
  let quantity := default (VInt 0) (Quantity service) in
  let service_item := default (VStr []) (Service_Item service) in
  eq_int quantity 0 || isna quantity || item_is_empty service_item.

(** What the loop over [rows], started at index [idx], may log about a
    row: only rows of the frame that the two tests let through. *)
Definition row_event_of `{FloatText} (rows : list service_row) (idx : nat)
    (e : event) : Prop :=
  forall r, submission_of e = Some r ->
    exists i service,
      rows !! i = Some service /\ r = (idx + i + 8)%nat /\ skips service = false.

(** ** Reading the call log *)

(** The stage methods entered, in order. *)
Definition stages_entered (l : list event) : list method :=
  omap (fun e => match e with Enter m => Some m | _ => None end) l.

(** The sheets whose processing was started, in order. *)
Definition sheets_started (l : list event) : list pystr :=
  omap (fun e => match e with
                 | Status (Processing_sheet _ _ sheet) => Some sheet
                 | _ => None
                 end) l.

(** The sheets written back by [update_excel_file], in order. *)
Definition checkpoints (l : list event) : list pystr :=
  omap (fun e => match e with Excel_saved title _ => Some title | _ => None end) l.

(** An event other than a save of the Excel file. *)
Definition not_a_save (e : event) : Prop :=
  match e with Excel_saved _ _ => False | _ => True end.

(** A save that put a text other than white space into B5. *)
Definition saved_status_not_blank (e : event) : Prop :=
  match e with Excel_saved _ status => ~ blank status | _ => True end.

(** The rows the loop over the lines reported as skipped, in order. *)
Definition lines_skipped (l : list event) : list nat :=
  omap (fun e => match e with
                 | Skipped_zero_quantity r | Skipped_empty_item r => Some r
                 | _ => None
                 end) l.

(** The texts typed into the item search field, as (row, text), in
    order. *)
Definition items_searched (l : list event) : list (nat * pystr) :=
  omap (fun e => match e with
                 | Browser (Search_item r _ item) => Some (r, item)
                 | _ => None
                 end) l.

(** The rows whose line was saved on the page, in order. *)
Definition lines_saved (l : list event) : list nat :=
  omap (fun e => match e with
                 | Browser (Save_line r) => Some r
                 | _ => None
                 end) l.

(** The rows for which [add_single_service] was called, in order. *)
Definition lines_called (l : list event) : list nat :=
  omap (fun e => match e with
                 | Call_add_single_service r _ => Some r
                 | _ => None
                 end) l.

(** The item codes whose price field a set-value script wrote, in order:
    the calls that returned. *)
Definition completed_writes (l : list event) : list pystr :=
  omap (fun e => match e with
                 | Browser (Set_value code _ _ (Returned _)) => Some code
                 | _ => None
                 end) l.


(** What [add_single_service] returned, row by row. *)
Definition line_results (l : list event) : list (nat * bool) :=
  omap (fun e => match e with
                 | Returned_add_single_service r b => Some (r, b)
                 | _ => None
                 end) l.

(** The search attempts made, as (row, attempt). *)
Definition searches (l : list event) : list (nat * nat) :=
  omap (fun e => match e with
                 | Browser (Search_item r k _) => Some (r, k)
                 | _ => None
                 end) l.

(** The status lines, in order. *)
Definition statuses (l : list event) : list status :=
  omap (fun e => match e with Status s => Some s | _ => None end) l.

(** The login attempts submitted. *)
Definition logins (l : list event) : list nat :=
  omap (fun e => match e with
                 | Browser (Submit_credentials k) => Some k
                 | _ => None
                 end) l.

(** An event that is not a completed write of a price field. *)
Definition no_write (e : event) : Prop :=
  match e with
  | Browser (Set_value _ _ _ (Returned _)) => False
  | _ => True
  end.

(** The writes logged in [evs], by a loop that started with the set
    [processed] and ended with result [r]: each code at most once, none of
    them processed before, and all of them processed afterwards. *)
Definition written_once (processed : gset pystr) (evs : list event)
    (r : result (gset pystr)) : Prop :=
  NoDup (completed_writes evs)
  /\ (forall c, c ∈ completed_writes evs -> c ∉ processed)
  /\ (forall processed', r = Done processed' ->
        forall c, c ∈ processed' <-> c ∈ processed \/ c ∈ completed_writes evs).

(** ** Further vocabulary *)

(** The cells of a sheet that the write-back may touch. *)
Definition header_addresses : list pystr :=
  [str "B2"; str "B3"; str "B4"; str "B5"; str "B6"].


(** An event other than an input into the quantity field of a line. *)
Definition not_a_quantity_input (e : event) : Prop :=
  match e with
  | Browser (Fill_quantity _ _) => False
  | _ => True
  end.


(** An event that involves neither a pipeline method nor the page: what a
    run without a browser may log (the release of the browser resources at
    its end included). *)
Definition offline (e : event) : Prop :=
  match e with
  | Enter _ | Call_add_single_service _ _ | Returned_add_single_service _ _ => False
  | Browser Close_browser => True
  | Browser _ => False
  | _ => True
  end.

(** The state in which a sheet can be written back: nobody has asked to
    stop, the working copy is the file of the run, it opens with the sheets
    [names] and it can be saved. *)
Definition writable_book (p : params) (names : list pystr) (w : world) : Prop :=
  stop_event w = false
  /\ working_excel_path (auto w) = excel_path p
  /\ writable (excel w) = true
  /\ exists wb, book (excel w) = Some wb /\ sheetnames wb = names.



(** ** The lines of a run *)

(** What the processing of one sheet may log.  The lines of the run
    itself are not among them: its opening, the login, the stop between two
    sheets, its closing status, the release of the browser and of the
    controls. *)
Definition sheet_event (e : event) : Prop :=
  match e with
  | Status (Processing_sheet _ _ _) | Status Stop_exiting_sheet
  | Status Excel_updated | Status Failed_to_update_excel => True
  | Status _ => False
  | Login_retry | Controls_enabled => False
  | Browser (Goto _) | Browser (Submit_credentials _)
  | Browser Close_browser => False
  | _ => True
  end.

(** An event other than the report of a stop between two sheets. *)
Definition not_a_stop_between_sheets (e : event) : Prop :=
  match e with
  | Status Stopped_between_sheets => False
  | _ => True
  end.

(** [m] logs events that meet [P]; or it logs such events, then [tail],
    and returns. *)
Definition ends_with {A} (P : event -> Prop) (tail : list event) (m : M A)
    : Prop :=
  forall w, exists evs,
    log (snd (m w)) = log w ++ evs
    /\ (Forall P evs
        \/ exists evs', evs = evs' ++ tail /\ Forall P evs'
                        /\ exists a, fst (m w) = Done a).

(** The clicks on the save button of a bill, by the place of the call. *)
Definition saves (l : list event) : list save_site :=
  omap (fun e => match e with
                 | Browser (Save_bill site) => Some site
                 | _ => None
                 end) l.

(** An event other than a click on the save button of a bill. *)
Definition not_a_bill_save (e : event) : Prop :=
  match e with
  | Browser (Save_bill _) => False
  | _ => True
  end.

(** * Scripted runs *)

Module Demo.

(** Float texts good enough for whole numbers. *)
Definition whole_float_text : FloatText :=
  {| float_repr := fun q => str_of_Z (Qnum q / Zpos (Qden q)) ++ str ".0";
     float_parse := fun _ => None |}.

Definition line_ok : line_script :=
  {| timed_out := fun _ => false; select_service_ok := true; filter_ok := true;
     search_ok := fun _ => true; checkbox_ok := fun _ => true;
     ok_button_ok := fun _ => true; quantity_field_found := true;
     quantity_echo_ok := fun _ => true; save_ok := true |}.

(** The item is never found by the search. *)
Definition line_not_found : line_script :=
  {| timed_out := fun _ => false; select_service_ok := true; filter_ok := true;
     search_ok := fun _ => false; checkbox_ok := fun _ => true;
     ok_button_ok := fun _ => true; quantity_field_found := true;
     quantity_echo_ok := fun _ => true; save_ok := true |}.

Definition route_ok : route_script :=
  {| route_click1 := true; route_ok1 := true; route_click2 := true;
     route_ok2 := true; route_click3 := true; route_complete := true |}.

Definition bill_ok : bill_script :=
  {| bill_page_ready := true; action_input_visible := true;
     action_dropdown_visible := false; create_option_visible := fun _ => true;
     batch_field_visible := true; batch_input_value := str "7001";
     batch_js_value := []; name_field_visible := true; bill_ok_clicked := true |}.

(** The batch identifier never appears. *)
Definition bill_without_batch : bill_script :=
  {| bill_page_ready := true; action_input_visible := true;
     action_dropdown_visible := false; create_option_visible := fun _ => true;
     batch_field_visible := false; batch_input_value := [];
     batch_js_value := []; name_field_visible := true; bill_ok_clicked := true |}.

Definition price_row_of (code input : string) : price_row :=
  {| serviceCode := Some (str code); inputId := Some (str input) |}.

(** Two result pages; IS1 shows up on both. *)
Definition prices_two_pages : prices_script :=
  {| services_tab_ok := true;
     pages := Next_page (Some [price_row_of "IS1" "in1"; price_row_of "IS9" "in2"])
                (Last_page (Some [price_row_of "IS1" "in3"; price_row_of "IS2" "in4"])
                           Next_off);
     set_price_result := fun _ _ => Returned true;
     set_zero_result := fun _ => Returned true;
     save_clicked := fun _ => true |}.

Definition job_ok : job_script :=
  {| search_wo_ok := true; tabs_ok := true; lines := fun _ => line_ok;
     routes := fun _ => route_ok; bill := bill_ok; prices := prices_two_pages |}.

Definition job_without_batch : job_script :=
  {| search_wo_ok := true; tabs_ok := true; lines := fun _ => line_ok;
     routes := fun _ => route_ok; bill := bill_without_batch;
     prices := prices_two_pages |}.

(** Row 8 is never found, the other rows are. *)
Definition job_first_line_fails : job_script :=
  {| search_wo_ok := true; tabs_ok := true;
     lines := fun row => if (row =? 8)%nat then line_not_found else line_ok;
     routes := fun _ => route_ok; bill := bill_ok; prices := prices_two_pages |}.

Definition login_ok : login_script :=
  {| login_page_loads := true; form_present := fun _ => Some true;
     credentials_ok := fun _ => true;
     verify := fun _ _ => {| url_first := str "https://host/maximo/ui/";
                             body_text := Some []; url_second := [] |};
     url_after := fun _ => []; error_text := fun _ => [] |}.

(** The login page stays, shows none of the markers and no error text. *)
Definition login_stuck : login_script :=
  {| login_page_loads := true; form_present := fun _ => Some true;
     credentials_ok := fun _ => true;
     verify := fun _ _ =>
       {| url_first := str "https://host/maximo/webclient/login/login.jsp";
          body_text := Some (str "User Name Password");
          url_second := str "https://host/maximo/webclient/login/login.jsp" |};
     url_after := fun _ => str "https://host/maximo/webclient/login/login.jsp";
     error_text := fun _ => [] |}.

Definition line (item : string) (quantity : Z) (total : Z) : service_row :=
  {| Service_Item := Some (VStr (str item)); Description := Some VNaN;
     Quantity := Some (VInt quantity); Unit_Price := Some VNaN;
     Total_Price := Some (VInt total) |}.

Definition two_lines : list service_row := [line "IS1" 2 10; line "IS2" 1 7].

(** A line whose item cell is empty: pandas reads it as NaN. *)
Definition line_without_item (quantity : Z) (total : Z) : service_row :=
  {| Service_Item := Some VNaN; Description := Some VNaN;
     Quantity := Some (VInt quantity); Unit_Price := Some VNaN;
     Total_Price := Some (VInt total) |}.

(** An IS1 line, a line of quantity 0, a line with a blank item code, a
    line with an empty item cell, and an IS2 line. *)
Definition five_lines : list service_row :=
  [line "IS1" 2 10; line "IS3" 0 0; line "  " 1 5; line_without_item 2 8;
   line "IS2" 1 7].

Definition frame_of (wo : Z) (rows : list service_row) : sheet_frame :=
  Frame [VInt wo; VNaN; VNaN; VNaN; VNaN] (Some rows).

Definition quiet : nat -> list ui_action := fun _ => [].

(** Pause is pressed once, before the [k]-th read of a shared flag. *)
Definition pause_at (k : nat) : nat -> list ui_action :=
  fun n => if (n =? k)%nat then [On_pause] else [].

Definition one_sheet (ui : nat -> list ui_action) (l : login_script)
    (j : job_script) (rows : list service_row) : env :=
  {| ui_schedule := ui; pause_fuel := 100; browser_starts := true;
     today := (Jan, 2025); login := l; excel_readable := true;
     sheet_names := [str "Sheet1"];
     frames := fun _ => frame_of 1001 rows;
     jobs := fun _ => j |}.

(** Two sheets; on the first the bill batch never appears. *)
Definition two_sheets_first_fails : env :=
  {| ui_schedule := quiet; pause_fuel := 100; browser_starts := true;
     today := (Jan, 2025); login := login_ok; excel_readable := true;
     sheet_names := [str "Sheet1"; str "Sheet2"];
     frames := fun sheet =>
       if bool_decide (sheet = str "Sheet1") then frame_of 1001 two_lines
       else frame_of 1002 two_lines;
     jobs := fun sheet =>
       if bool_decide (sheet = str "Sheet1") then job_without_batch else job_ok |}.

Definition all_steps : params :=
  {| excel_path := Some (str "work.xlsx"); url := str "https://host/maximo/webclient/login/login.jsp";
     selected_steps := canonical; start_at := str "add_services" |}.

Definition only_add_services : params :=
  {| excel_path := Some (str "work.xlsx"); url := str "https://host/maximo/webclient/login/login.jsp";
     selected_steps := [str "add_services"]; start_at := str "add_services" |}.

Definition book_two_sheets : excel_file :=
  {| book := Some {| sheetnames := [str "Sheet1"; str "Sheet2"];
                     active := str "Sheet1"; cells := ∅ |};
     writable := true |}.

(** A run of the worker as [on_start] launches it. *)
Definition run (E : env) (p : params) : result unit * world :=
  @run_automation whole_float_text E p (start_world book_two_sheets).

(** The world in which the first stage of Sheet1 starts. *)
Definition at_sheet1 (rows : list service_row) : world :=
  set_auto (fun a =>
    {| paused := false; url_var := url_var a;
       working_excel_path := Some (str "work.xlsx");
       current_sheet := Some (str "Sheet1"); wo_number := Some (str "1001");
       wo_description := None; excel_original_description := None;
       bill_batch := None; bill_status := None; reviewed_by := None;
       services_data := Some rows |})
    (start_world book_two_sheets).

End Demo.

(** * Further scripted cases *)

Module Cases.

(** The batch field of the bill form holds two blanks. *)
Definition bill_blank_batch : bill_script :=
  {| bill_page_ready := true; action_input_visible := true;
     action_dropdown_visible := false; create_option_visible := fun _ => true;
     batch_field_visible := true; batch_input_value := str "  ";
     batch_js_value := str "  "; name_field_visible := true;
     bill_ok_clicked := true |}.

Definition job_blank_batch : job_script :=
  {| search_wo_ok := true; tabs_ok := true; lines := fun _ => Demo.line_ok;
     routes := fun _ => Demo.route_ok; bill := bill_blank_batch;
     prices := Demo.prices_two_pages |}.

(** One sheet whose header cells are all empty. *)
Definition sheet_without_wo : env :=
  {| ui_schedule := Demo.quiet; pause_fuel := 100; browser_starts := true;
     today := (Jan, 2025); login := Demo.login_ok; excel_readable := true;
     sheet_names := [str "Sheet1"];
     frames := fun _ => Frame [VNaN; VNaN; VNaN; VNaN; VNaN]
                          (Some Demo.two_lines);
     jobs := fun _ => Demo.job_ok |}.

(** Two sheets; the second cannot be read. *)
Definition second_sheet_unreadable : env :=
  {| ui_schedule := Demo.quiet; pause_fuel := 100; browser_starts := true;
     today := (Jan, 2025); login := Demo.login_ok; excel_readable := true;
     sheet_names := [str "Sheet1"; str "Sheet2"];
     frames := fun sheet =>
       if bool_decide (sheet = str "Sheet1")
       then Demo.frame_of 1001 Demo.two_lines else Read_error;
     jobs := fun _ => Demo.job_ok |}.

(** Two good sheets, but the browser cannot be started. *)
Definition no_browser : env :=
  {| ui_schedule := Demo.quiet; pause_fuel := 100; browser_starts := false;
     today := (Jan, 2025); login := Demo.login_ok; excel_readable := true;
     sheet_names := [str "Sheet1"; str "Sheet2"];
     frames := fun sheet =>
       if bool_decide (sheet = str "Sheet1")
       then Demo.frame_of 1001 Demo.two_lines
       else Demo.frame_of 1002 Demo.two_lines;
     jobs := fun _ => Demo.job_ok |}.

(** Stop is pressed once, before the [k]-th read of a shared flag. *)
Definition stop_at (k : nat) : nat -> list ui_action :=
  fun n => if (n =? k)%nat then [On_stop] else [].

(** Two good sheets; Stop is pressed when the first sheet is done, before
    the read that heads the second turn of the loop over the sheets. *)
Definition stop_between_sheets : env :=
  {| ui_schedule := stop_at 44; pause_fuel := 100; browser_starts := true;
     today := (Jan, 2025); login := Demo.login_ok; excel_readable := true;
     sheet_names := [str "Sheet1"; str "Sheet2"];
     frames := fun sheet =>
       if bool_decide (sheet = str "Sheet1")
       then Demo.frame_of 1001 Demo.two_lines
       else Demo.frame_of 1002 Demo.two_lines;
     jobs := fun _ => Demo.job_ok |}.

(** The save button is found by [process_customer_bill], but not by the
    second call that follows it. *)
Definition prices_second_save_fails : prices_script :=
  {| services_tab_ok := true; pages := pages Demo.prices_two_pages;
     set_price_result := fun _ _ => Returned true;
     set_zero_result := fun _ => Returned true;
     save_clicked := fun site =>
       match site with
       | Save_in_process_customer_bill => true
       | Save_in_run_automation => false
       end |}.

Definition job_second_save_fails : job_script :=
  {| search_wo_ok := true; tabs_ok := true; lines := fun _ => Demo.line_ok;
     routes := fun _ => Demo.route_ok; bill := Demo.bill_ok;
     prices := prices_second_save_fails |}.

End Cases.

(** * Properties *)

(** ** Texts *)

Lemma lstrip_blank (s : pystr) : blank s -> lstrip s = [].
Proof.
  induction s as [|c s IH]; intros Hb; [reflexivity|].
  simpl. rewrite (Hb c) by (left).
  apply IH. intros c' Hc'. apply Hb. now right.
Qed.

Lemma lstrip_nil_blank (s : pystr) : lstrip s = [] -> blank s.
Proof.
  induction s as [|c s IH]; intros Hs c' Hc'.
  - inversion Hc'.
  - simpl in Hs. destruct (isspace c) eqn:Hc; [|discriminate].
    inversion Hc'; subst; [assumption|]. now apply IH.
Qed.

Lemma lstrip_head (s : pystr) c t : lstrip s = c :: t -> isspace c = false.
Proof.
  induction s as [|a s IH]; simpl; [discriminate|].
  destruct (isspace a) eqn:Ha; [exact IH|].
  intros [= -> _]. exact Ha.
Qed.

Lemma lstrip_keeps_last (l : pystr) c :
  isspace c = false -> c ∈ lstrip (l ++ [c]).
Proof.
  intros Hc. induction l as [|a l IH]; simpl.
  - rewrite Hc. left.
  - destruct (isspace a); [exact IH|]. right. apply elem_of_app. right. left.
Qed.

Lemma blank_rev (s : pystr) : blank (rev s) <-> blank s.
Proof.
  unfold blank. split; intros Hb c Hc; apply Hb.
  - apply list_elem_of_In, (proj1 (in_rev s c)), list_elem_of_In, Hc.
  - apply list_elem_of_In, (proj2 (in_rev s c)), list_elem_of_In, Hc.
Qed.

Lemma rstrip_nil_iff (s : pystr) : rstrip s = [] <-> blank s.
Proof.
  unfold rstrip. split.
  - intros Hs. apply blank_rev, lstrip_nil_blank.
    destruct (lstrip (rev s)) as [|a l]; [reflexivity|].
    simpl in Hs. now destruct (rev l).
  - intros Hb. now rewrite lstrip_blank by (now apply blank_rev).
Qed.

Lemma strip_nil_iff (s : pystr) : strip s = [] <-> blank s.
Proof.
  unfold strip. rewrite rstrip_nil_iff. split.
  - intros Hb. apply lstrip_nil_blank.
    destruct (lstrip s) as [|c t] eqn:Hs; [reflexivity|].
    apply lstrip_head in Hs. rewrite (Hb c) in Hs by left. discriminate.
  - intros Hb. rewrite lstrip_blank by assumption. intros c Hc. inversion Hc.
Qed.

(** What [strip] leaves is empty or holds a character that is not white
    space. *)
Lemma strip_not_blank (s : pystr) : strip s <> [] -> ~ blank (strip s).
Proof.
  intros Hne Hb. unfold strip in *.
  destruct (lstrip s) as [|c t] eqn:Hs; [now apply Hne|].
  pose proof (lstrip_head _ _ _ Hs) as Hc.
  assert (Hin : c ∈ rstrip (c :: t)).
  { unfold rstrip. simpl rev.
    apply list_elem_of_In, (proj1 (in_rev _ c)), list_elem_of_In.
    now apply lstrip_keeps_last. }
  rewrite (Hb c Hin) in Hc. discriminate.
Qed.




(** ** The bill name *)



(** ** Rules of the logic *)

Section Rules.
Context `{FloatText} (E : env) (I : world -> Prop) (P : event -> Prop).
Hypothesis HI : stable E I.

Lemma spec_ret {A} (a : A) : spec I P (ret a).
Proof. intros w Hw. exists []. simpl. rewrite app_nil_r. auto. Qed.

Lemma spec_raise {A} msg : spec I P (@raise A msg).
Proof. intros w Hw. exists []. simpl. rewrite app_nil_r. auto. Qed.

Lemma spec_get {A} (f : automation -> A) : spec I P (get f).
Proof. intros w Hw. exists []. simpl. rewrite app_nil_r. auto. Qed.

Lemma spec_must ok msg : spec I P (must ok msg).
Proof. destruct ok; [apply spec_ret | apply spec_raise]. Qed.

Lemma spec_emit e : P e -> spec I P (emit e).
Proof.
  intros He w Hw. exists [e]. simpl. repeat split; auto.
  now apply (stable_log _ _ HI).
Qed.

Lemma spec_call c : P (Browser c) -> spec I P (call c).
Proof. apply spec_emit. Qed.

Lemma post_seq {A B} (w w1 w2 : world) (r1 : result A) (r2 : result B) evs evs' :
  log w1 = log w ++ evs -> Forall P evs ->
  (paused (auto w) = false -> paused (auto w1) = false /\ r1 <> Blocked) ->
  log w2 = log w1 ++ evs' -> Forall P evs' -> I w2 ->
  (paused (auto w1) = false -> paused (auto w2) = false /\ r2 <> Blocked) ->
  exists evs0,
    log w2 = log w ++ evs0 /\ Forall P evs0 /\ I w2
    /\ (paused (auto w) = false -> paused (auto w2) = false /\ r2 <> Blocked).
Proof.
  intros Hl Hev Hp Hl' Hev' Hi' Hp'. exists (evs ++ evs').
  split; [now rewrite Hl', Hl, app_assoc|].
  split; [now apply Forall_app|].
  split; [assumption|].
  intros Hw0. apply Hp'. now apply Hp.
Qed.

Lemma spec_bind {A B} (m : M A) (k : A -> M B) :
  spec I P m -> (forall a, spec I P (k a)) -> spec I P (bind m k).
Proof.
  intros Hm Hk w Hw. unfold bind.
  destruct (Hm w Hw) as (evs & Hl & Hev & Hi & Hp).
  destruct (m w) as [[a | e |] w1]; simpl in *.
  - destruct (Hk a w1 Hi) as (evs' & Hl' & Hev' & Hi' & Hp').
    eapply post_seq; eauto.
  - exists evs. split; [|split; [|split]]; auto.
    intros Hw0. destruct (Hp Hw0). split; [assumption | discriminate].
  - exists evs. split; [|split; [|split]]; auto.
    intros Hw0. now destruct (Hp Hw0) as [_ []].
Qed.

Lemma spec_try_except {A} (m : M A) (h : exn -> M A) :
  spec I P m -> (forall e, spec I P (h e)) -> spec I P (try_except m h).
Proof.
  intros Hm Hh w Hw. unfold try_except.
  destruct (Hm w Hw) as (evs & Hl & Hev & Hi & Hp).
  destruct (m w) as [[a | e |] w1]; simpl in *.
  - exists evs. auto.
  - destruct (Hh e w1 Hi) as (evs' & Hl' & Hev' & Hi' & Hp').
    eapply post_seq; eauto.
  - exists evs. auto.
Qed.

Lemma spec_try_finally {A} (m : M A) (f : M unit) :
  spec I P m -> spec I P f -> spec I P (try_finally m f).
Proof.
  intros Hm Hf w Hw. unfold try_finally.
  destruct (Hm w Hw) as (evs & Hl & Hev & Hi & Hp).
  destruct (m w) as [[a | e |] w1]; simpl in *.
  1,2: destruct (Hf w1 Hi) as (evs' & Hl' & Hev' & Hi' & Hp');
       destruct (f w1) as [[[] | e' |] w2]; simpl in *;
       eapply post_seq; eauto;
       intros Hw1; destruct (Hp' Hw1); (split; [assumption | try discriminate; auto]).
  exists evs. auto.
Qed.

Lemma yield_same w :
  auto (snd (yield E w)) = auto w /\ log (snd (yield E w)) = log w.
Proof.
  unfold yield. simpl.
  assert (Hsame : forall l w0,
            auto (foldl ui_step w0 l) = auto w0 /\ log (foldl ui_step w0 l) = log w0).
  { induction l as [|a l IH]; intros w0; [auto|].
    simpl. destruct (IH (ui_step w0 a)) as [-> ->]. now destruct a. }
  apply Hsame.
Qed.

Lemma spec_yield : spec I P (yield E).
Proof.
  intros w Hw. exists []. destruct (yield_same w) as [Ha Hl].
  rewrite Ha, Hl, app_nil_r. repeat split; auto.
  now apply (stable_yield _ _ HI).
Qed.

Lemma spec_stop_is_set : spec I P (stop_is_set E).
Proof.
  apply spec_bind; [apply spec_yield|]. intros _ w Hw. exists [].
  simpl. rewrite app_nil_r. auto.
Qed.

Lemma bind_done {A B} (m : M A) (k : A -> M B) w a w1 :
  m w = (Done a, w1) -> bind m k w = k a w1.
Proof. intros Hm. unfold bind. now rewrite Hm. Qed.

Lemma stop_is_set_eq w :
  stop_is_set E w = (Done (stop_event (snd (yield E w))), snd (yield E w)).
Proof. reflexivity. Qed.

Lemma wait_if_paused_same fuel w :
  I w ->
  let w' := snd (wait_if_paused E fuel w) in
  I w' /\ auto w' = auto w /\ log w' = log w.
Proof.
  revert w. induction fuel as [|fuel IH]; intros w Hw; [simpl; auto|].
  cbn [wait_if_paused].
  rewrite (bind_done _ _ w tt (snd (yield E w))) by reflexivity.
  destruct (yield_same w) as [Ha Hl].
  assert (I (snd (yield E w))) as Hw1 by (now apply (stable_yield _ _ HI)).
  revert Ha Hl Hw1. generalize (snd (yield E w)). intros w1 Ha Hl Hw1.
  rewrite (bind_done _ _ w1 (paused (auto w1)) w1) by reflexivity.
  destruct (paused (auto w1)); [|simpl; auto].
  rewrite (bind_done _ _ w1 _ _ (stop_is_set_eq w1)).
  destruct (yield_same w1) as [Ha' Hl'].
  assert (I (snd (yield E w1))) as Hw2 by (now apply (stable_yield _ _ HI)).
  revert Ha' Hl' Hw2. generalize (snd (yield E w1)). intros w2 Ha' Hl' Hw2.
  destruct (stop_event w2).
  - simpl. rewrite Ha', Hl', Ha, Hl. auto.
  - destruct (IH w2 Hw2) as (? & Ha2 & Hl2).
    cbv zeta. rewrite Ha2, Hl2, Ha', Hl', Ha, Hl. auto.
Qed.

Lemma spec_check_pause : spec I P (check_pause E).
Proof.
  intros w Hw. exists []. rewrite app_nil_r. unfold check_pause.
  rewrite (bind_done _ _ w tt (snd (yield E w))) by reflexivity.
  destruct (yield_same w) as [Ha Hl].
  assert (I (snd (yield E w))) as Hw1 by (now apply (stable_yield _ _ HI)).
  revert Ha Hl Hw1. generalize (snd (yield E w)). intros w1 Ha Hl Hw1.
  rewrite (bind_done _ _ w1 (paused (auto w1)) w1) by reflexivity.
  destruct (paused (auto w1)) eqn:Hp.
  - destruct (wait_if_paused_same (pause_fuel E) w1 Hw1) as (? & Ha' & Hl').
    rewrite Hl', Hl. split; [|split; [|split]]; auto. intros Hw0. congruence.
  - simpl. rewrite Hl, Ha.
    split; [|split; [|split]]; auto;
      intros Hw0; split; (congruence || discriminate).
Qed.

Lemma spec_modify (f : automation -> automation) :
  ingesting f ->
  (forall a, paused a = false -> paused (f a) = false) ->
  spec I P (modify f).
Proof.
  intros Hing Hp w Hw. exists []. simpl. rewrite app_nil_r.
  pose proof (stable_auto _ _ HI f w Hing Hw) as Hf.
  split; [|split; [|split]]; auto; intros Hw0; split; (discriminate || auto).
Qed.

Lemma spec_attempts budget i (body : nat -> M bool) msg :
  (forall k, spec I P (body k)) -> spec I P (attempts E budget i body msg).
Proof.
  intros Hb. revert i. induction budget as [|budget IH]; intros i; simpl.
  - apply spec_raise.
  - apply spec_bind; [apply spec_check_pause|]. intros _.
    apply spec_bind; [apply Hb|]. intros [|]; [apply spec_ret | apply IH].
Qed.

Lemma spec_weaken {A} (Q : event -> Prop) (m : M A) :
  (forall e, Q e -> P e) -> spec I Q m -> spec I P m.
Proof.
  intros HQ Hm w Hw. destruct (Hm w Hw) as (evs & ? & ? & ?).
  exists evs. split; [|split]; try tauto. eapply Forall_impl; eauto.
Qed.

End Rules.

(** One step of a proof in the logic. *)
Ltac spec_step :=
  lazymatch goal with
  | |- spec _ _ (bind _ _) => eapply spec_bind; [| intros ?]
  | |- spec _ _ (ret _) => eapply spec_ret
  | |- spec _ _ (raise _) => eapply spec_raise
  | |- spec _ _ (must _ _) => eapply spec_must
  | |- spec _ _ (get _) => eapply spec_get
  | |- spec _ _ (job _) => eapply spec_get
  | |- spec _ _ (emit _) => eapply spec_emit; [eassumption | try (simpl; tauto)]
  | |- spec _ _ (call _) => eapply spec_call; [eassumption | try (simpl; tauto)]
  | |- spec _ _ (check_pause _) => eapply spec_check_pause; eassumption
  | |- spec _ _ (stop_is_set _) => eapply spec_stop_is_set; eassumption
  | |- spec _ _ (try_except _ _) => eapply spec_try_except; [| intros ?]
  | |- spec _ _ (attempts _ _ _ _ _) => eapply spec_attempts; [eassumption | intros ?]
  | |- spec _ _ (if ?b then _ else _) => destruct b
  | |- spec _ _ (match ?x with _ => _ end) => destruct x
  end.

(** ** Adding one service line *)

Section Lines.
Context `{FloatText} (E : env) (I : world -> Prop).
Hypothesis HI : stable E I.

Lemma spec_check_timeout P l k : spec I P (check_timeout E l k).
Proof. unfold check_timeout. repeat spec_step. Qed.

(** Everything [add_single_service] logs is about its own row. *)
Lemma spec_add_single_service d row :
  spec I (fun e => submission_of e = Some row) (add_single_service E d row).
Proof.
  unfold add_single_service, add_single_service_body.
  repeat first [apply spec_check_timeout | spec_step].
Qed.

(** It never lets an exception out. *)
Lemma add_single_service_catches d row w e :
  fst (add_single_service E d row w) <> Raised e.
Proof.
  unfold add_single_service, bind, try_except.
  destruct (add_single_service_body E d row w) as [[b | e' |] w1];
    simpl; discriminate.
Qed.

End Lines.

(** ** The loop over the service lines *)

Section Service_loop.
Context `{FloatText} (E : env).

Lemma row_event_of_tail service rows idx e :
  row_event_of rows (S idx) e -> row_event_of (service :: rows) idx e.
Proof.
  intros He r Hr. destruct (He r Hr) as (i & s & Hi & -> & Hs).
  exists (S i), s. repeat split; auto; lia.
Qed.

Lemma row_event_of_head service rows idx e :
  skips service = false ->
  submission_of e = Some (idx + 8)%nat ->
  row_event_of (service :: rows) idx e.
Proof.
  intros Hs He r Hr. exists 0%nat, service.
  rewrite He in Hr. injection Hr as <-. repeat split; auto; lia.
Qed.

Lemma row_event_of_none rows idx e :
  submission_of e = None -> row_event_of rows idx e.
Proof. intros He r Hr. congruence. Qed.

Lemma spec_service_loop I (HI : stable E I) total rows idx n :
  spec I (row_event_of rows idx) (service_loop E total rows idx n).
Proof.
  revert idx n. induction rows as [|service rows IH]; intros idx n; simpl.
  - eapply spec_ret.
  - eapply spec_bind; [eapply spec_stop_is_set; eassumption|]. intros [|].
    { eapply spec_emit; [eassumption|]. now apply row_event_of_none. }
    destruct (eq_int (default (VInt 0) (Quantity service)) 0
              || isna (default (VInt 0) (Quantity service))) eqn:Hq.
    { eapply spec_bind; [|intros _].
      - eapply spec_emit; [eassumption|]. now apply row_event_of_none.
      - eapply spec_weaken; [|apply IH]. apply row_event_of_tail. }
    destruct (item_is_empty (default (VStr []) (Service_Item service))) eqn:Hi.
    { eapply spec_bind; [|intros _].
      - eapply spec_emit; [eassumption|]. now apply row_event_of_none.
      - eapply spec_weaken; [|apply IH]. apply row_event_of_tail. }
    assert (skips service = false) as Hs.
    { unfold skips. cbv zeta. now rewrite Hq, Hi. }
    eapply spec_bind; [|intros _].
    { eapply spec_emit; [eassumption|]. now apply row_event_of_head. }
    eapply spec_bind; [|intros _].
    { eapply spec_weaken; [|now apply spec_add_single_service].
      intros e He. now apply row_event_of_head. }
    eapply spec_bind; [|intros _].
    { eapply spec_emit; [eassumption|]. now apply row_event_of_none. }
    eapply spec_weaken; [|apply IH]. apply row_event_of_tail.
Qed.

Lemma float_is_zero q : eq_int (VFloat q) 0 = true <-> (q == 0)%Q.
Proof. apply Qeq_bool_iff. Qed.

(** What the specification calls a line to skip is skipped by the tests,
    unless it is its item cell that is empty. *)
Lemma skippable_skips service :
  skippable service -> Service_Item service <> Some VNaN ->
  skips service = true.
Proof.
  unfold skippable, quantity_zero_or_missing, item_empty_or_blank, skips.
  intros [Hq | Hi] Hnan.
  - destruct (Quantity service) as [[| |z|q|s]|]; cbn [default from_option id];
      try reflexivity.
    + subst z. reflexivity.
    + apply float_is_zero in Hq. now rewrite Hq.
    + contradiction.
  - destruct (Service_Item service) as [[| |z|q|s]|]; cbn [default from_option id];
      try contradiction.
    + apply orb_true_r.
    + unfold item_is_empty. cbn [truthy py_str].
      apply strip_nil_iff in Hi. rewrite (bool_decide_eq_true_2 _ Hi).
      rewrite !orb_true_r. reflexivity.
    + apply orb_true_r.
Qed.

(** An item cell that pandas read as NaN is neither false nor blank as a
    text: with a quantity to enter, the two tests let the line through. *)
Lemma nan_item_passes_tests service z :
  Service_Item service = Some VNaN -> Quantity service = Some (VInt z) ->
  z <> 0 -> skips service = false.
Proof.
  intros Hi Hq Hz. unfold skips. rewrite Hi, Hq.
  cbn [default from_option id eq_int isna]. apply Z.eqb_neq in Hz.
  rewrite Hz. reflexivity.
Qed.

(** Stepping through a sequence. *)
Lemma bind_emit {B} e (k : unit -> M B) w :
  bind (emit e) k w = k tt (add_log e w).
Proof. reflexivity. Qed.

Lemma bind_get {A B} (f : automation -> A) (k : A -> M B) w :
  bind (get f) k w = k (f (auto w)) w.
Proof. reflexivity. Qed.

Lemma bind_stop_is_set {B} (k : bool -> M B) w :
  bind (stop_is_set E) k w = k (stop_event (snd (yield E w))) (snd (yield E w)).
Proof. reflexivity. Qed.

Lemma stable_no_stop : no_stop E -> stable E (fun w => stop_event w = false).
Proof.
  intros Hns. split; [auto | auto | auto |].
  intros w Hw. simpl.
  assert (Hl : forall l w0, On_stop ∉ l -> stop_event w0 = false ->
             stop_event (foldl ui_step w0 l) = false).
  { induction l as [|a l IH]; intros w0 Hn H0; [exact H0|].
    simpl. apply IH.
    - intros Hin. apply Hn. now right.
    - destruct a; [exact H0|]. exfalso. apply Hn. left. }
  apply Hl; [apply Hns | exact Hw].
Qed.

Lemma stable_any : stable E (fun _ => True).
Proof. split; auto. Qed.

(** With nobody stopping and the worker not paused the loop visits every
    row: a skipped row leaves its log entry, any other row its call. *)
Lemma service_loop_runs (Hns : no_stop E) total rows idx n w :
  stop_event w = false -> paused (auto w) = false ->
  exists evs w',
    service_loop E total rows idx n w = (Done tt, w')
    /\ log w' = log w ++ evs
    /\ stop_event w' = false /\ paused (auto w') = false
    /\ forall i service, rows !! i = Some service ->
         if skips service
         then Skipped_zero_quantity (idx + i + 8) ∈ evs
              \/ Skipped_empty_item (idx + i + 8) ∈ evs
         else Call_add_single_service (idx + i + 8) (to_dict service) ∈ evs.
Proof.
  revert idx n w. induction rows as [|service rows IH]; intros idx n w Hs Hp.
  { exists [], w. simpl. rewrite app_nil_r. repeat split; auto.
    intros i service Hi. inversion Hi. }
  cbn [service_loop]. rewrite bind_stop_is_set.
  destruct (yield_same E w) as [Ha Hl].
  pose proof (stable_yield _ _ (stable_no_stop Hns) w Hs) as Hs1.
  change (tick _) with (snd (yield E w)) in Hs1.
  revert Ha Hl Hs1. generalize (snd (yield E w)). intros w1 Ha Hl Hs1.
  rewrite Hs1. cbv zeta.
  assert (Hp1 : paused (auto w1) = false) by congruence.
  destruct (eq_int (default (VInt 0) (Quantity service)) 0
            || isna (default (VInt 0) (Quantity service))) eqn:Hq.
  { rewrite bind_emit.
    destruct (IH (S idx) n (add_log (Skipped_zero_quantity (idx + 8)) w1))
      as (evs & w' & Hrun & Hlog & Hs' & Hp' & Hrows); [exact Hs1 | exact Hp1 |].
    exists (Skipped_zero_quantity (idx + 8) :: evs), w'.
    split; [exact Hrun|].
    split; [rewrite Hlog; simpl; rewrite Hl, <- app_assoc; reflexivity|].
    split; [exact Hs'|]. split; [exact Hp'|].
    intros [|i] s Hi.
    - injection Hi as <-. unfold skips. cbv zeta. rewrite Hq. simpl.
      left. rewrite Nat.add_0_r. left.
    - specialize (Hrows i s Hi).
      replace (idx + S i + 8)%nat with (S idx + i + 8)%nat by lia.
      destruct (skips s); [destruct Hrows; [left | right]|]; now right. }
  destruct (item_is_empty (default (VStr []) (Service_Item service))) eqn:Hi0.
  { rewrite bind_emit.
    destruct (IH (S idx) n (add_log (Skipped_empty_item (idx + 8)) w1))
      as (evs & w' & Hrun & Hlog & Hs' & Hp' & Hrows); [exact Hs1 | exact Hp1 |].
    exists (Skipped_empty_item (idx + 8) :: evs), w'.
    split; [exact Hrun|].
    split; [rewrite Hlog; simpl; rewrite Hl, <- app_assoc; reflexivity|].
    split; [exact Hs'|]. split; [exact Hp'|].
    intros [|i] s Hi.
    - injection Hi as <-. unfold skips. cbv zeta. rewrite Hq, Hi0. simpl.
      right. rewrite Nat.add_0_r. left.
    - specialize (Hrows i s Hi).
      replace (idx + S i + 8)%nat with (S idx + i + 8)%nat by lia.
      destruct (skips s); [destruct Hrows; [left | right]|]; now right. }
  rewrite bind_emit.
  set (w2 := add_log (Call_add_single_service (idx + 8) (to_dict service)) w1).
  destruct (spec_add_single_service E _ (stable_no_stop Hns)
              (to_dict service) (idx + 8)%nat w2 Hs1)
    as (evs1 & Hl1 & _ & Hs3 & Hp3).
  destruct (Hp3 Hp1) as [Hp3' Hnb]. clear Hp3.
  pose proof (add_single_service_catches E (to_dict service) (idx + 8)%nat w2) as Hnr.
  destruct (add_single_service E (to_dict service) (idx + 8)%nat w2)
    as [[b | e |] w3] eqn:Hadd; simpl in *;
    [| exfalso; now apply (Hnr e) | exfalso; now apply Hnb].
  rewrite (bind_done _ _ _ _ _ Hadd). rewrite bind_emit.
  destruct (IH (S idx) (S n) (add_log (Progress_hint (S n) total) w3))
    as (evs & w' & Hrun & Hlog & Hs' & Hp' & Hrows); [exact Hs3 | exact Hp3' |].
  exists (Call_add_single_service (idx + 8) (to_dict service)
            :: evs1 ++ Progress_hint (S n) total :: evs), w'.
  split; [exact Hrun|].
  split.
  { rewrite Hlog. simpl. rewrite Hl1. unfold w2. simpl. rewrite Hl.
    rewrite <- !app_assoc. reflexivity. }
  split; [exact Hs'|]. split; [exact Hp'|].
  intros [|i] s Hi.
  - injection Hi as <-. unfold skips. cbv zeta. rewrite Hq, Hi0. simpl.
    rewrite Nat.add_0_r. left.
  - specialize (Hrows i s Hi).
    replace (idx + S i + 8)%nat with (S idx + i + 8)%nat by lia.
    assert (forall e : event, e ∈ evs ->
              e ∈ Call_add_single_service (idx + 8) (to_dict service)
                  :: evs1 ++ Progress_hint (S n) total :: evs) as Hin.
    { intros e He. right. apply elem_of_app. right. now right. }
    destruct (skips s); [destruct Hrows; [left | right]|]; now apply Hin.
Qed.

End Service_loop.

(** ** The AddServices stage *)

Section Add_services.
Context `{FloatText} (E : env).

Lemma spec_route_wo_to_comp I (HI : stable E I) site :
  spec I (fun e => submission_of e = None) (route_wo_to_comp E site).
Proof. unfold route_wo_to_comp. repeat spec_step. Qed.

(** The tail of the stage once the tabs are open. *)
Lemma spec_lines_then_route I (HI : stable E I) rows :
  spec I (row_event_of rows 0)
    (service_loop E (length rows) rows 0 0 ;;;
     route_wo_to_comp E From_add_services ;;; ret tt).
Proof.
  eapply spec_bind; [now apply spec_service_loop|]. intros _.
  eapply spec_bind; [|intros _; eapply spec_ret].
  eapply spec_weaken; [|now apply spec_route_wo_to_comp].
  intros e He. now apply row_event_of_none.
Qed.

(** Whatever happens, the stage logs about a row only if the row passed
    the two tests. *)
Lemma add_services_to_wo_rows w rows :
  services_data (auto w) = Some rows ->
  exists evs,
    log (snd (add_services_to_wo E w)) = log w ++ evs
    /\ Forall (row_event_of rows 0) evs.
Proof.
  intros Hrows. unfold add_services_to_wo.
  rewrite bind_emit. unfold job. rewrite bind_get.
  unfold call. rewrite bind_emit.
  set (w2 := add_log (Browser Open_tabs) (add_log (Enter M_add_services_to_wo) w)).
  assert (Hl2 : log w2 = log w ++ [Enter M_add_services_to_wo; Browser Open_tabs]).
  { unfold w2. simpl. now rewrite <- app_assoc. }
  assert (Hhead : Forall (row_event_of rows 0)
                    [Enter M_add_services_to_wo; Browser Open_tabs]).
  { repeat constructor; now apply row_event_of_none. }
  destruct (tabs_ok _).
  2: { exists [Enter M_add_services_to_wo; Browser Open_tabs]. simpl in *. auto. }
  rewrite (bind_done _ _ w2 tt w2) by reflexivity.
  rewrite bind_get. change (services_data (auto w2)) with (services_data (auto w)).
  rewrite Hrows. destruct rows as [|service rows].
  { exists [Enter M_add_services_to_wo; Browser Open_tabs]. simpl in *. auto. }
  destruct (spec_lines_then_route _ (stable_any E) (service :: rows) w2 Logic.I)
    as (evs & Hl & Hev & _).
  exists ([Enter M_add_services_to_wo; Browser Open_tabs] ++ evs).
  split; [now rewrite Hl, Hl2, <- app_assoc | now apply Forall_app].
Qed.

(** With the tabs open, nobody stopping and the worker not paused, every
    row is visited. *)
Lemma add_services_to_wo_runs (Hns : no_stop E) w rows :
  services_data (auto w) = Some rows ->
  tabs_ok (jobs E (default [] (current_sheet (auto w)))) = true ->
  stop_event w = false -> paused (auto w) = false ->
  exists evs,
    log (snd (add_services_to_wo E w)) = log w ++ evs
    /\ forall i service, rows !! i = Some service ->
         if skips service
         then Skipped_zero_quantity (i + 8) ∈ evs
              \/ Skipped_empty_item (i + 8) ∈ evs
         else Call_add_single_service (i + 8) (to_dict service) ∈ evs.
Proof.
  intros Hrows Htabs Hs Hp. unfold add_services_to_wo.
  rewrite bind_emit. unfold job. rewrite bind_get.
  unfold call. rewrite bind_emit.
  set (w2 := add_log (Browser Open_tabs) (add_log (Enter M_add_services_to_wo) w)).
  assert (Hl2 : log w2 = log w ++ [Enter M_add_services_to_wo; Browser Open_tabs]).
  { unfold w2. simpl. now rewrite <- app_assoc. }
  change (auto (add_log (Enter M_add_services_to_wo) w)) with (auto w).
  rewrite Htabs.
  rewrite (bind_done _ _ w2 tt w2) by reflexivity.
  rewrite bind_get. change (services_data (auto w2)) with (services_data (auto w)).
  rewrite Hrows. destruct rows as [|service rows].
  { exists [Enter M_add_services_to_wo; Browser Open_tabs]. split; [exact Hl2|].
    intros i s Hi. inversion Hi. }
  destruct (service_loop_runs E Hns (length (service :: rows)) (service :: rows)
              0 0 w2 Hs Hp) as (evs & w3 & Hrun & Hl3 & _ & _ & Hall).
  rewrite (bind_done _ _ _ _ _ Hrun).
  destruct (spec_lines_then_route _ (stable_any E) [] w3 Logic.I)
    as (evs' & Hl' & _). simpl in Hl'. unfold bind at 1 in Hl'. simpl in Hl'.
  exists ([Enter M_add_services_to_wo; Browser Open_tabs] ++ evs ++ evs').
  split; [now rewrite Hl', Hl3, Hl2, <- !app_assoc|].
  intros i s Hi. specialize (Hall i s Hi). simpl in Hall.
  assert (forall e : event, e ∈ evs ->
            e ∈ [Enter M_add_services_to_wo; Browser Open_tabs] ++ evs ++ evs')
    as Hin.
  { intros e He. apply elem_of_app. right. apply elem_of_app. now left. }
  destruct (skips s); [destruct Hall; [left | right]|]; now apply Hin.
Qed.

(** The lines the two tests hold back are never submitted: no call of
    [add_single_service] and no browser call is made for their row. *)
Lemma caught_lines_never_submitted (w : world) (rows : list service_row) :
  services_data (auto w) = Some rows ->
  exists evs,
    log (snd (add_services_to_wo E w)) = log w ++ evs
    /\ forall i service e,
         rows !! i = Some service -> skippable service ->
         Service_Item service <> Some VNaN -> e ∈ evs ->
         submission_of e <> Some (i + 8)%nat.
Proof.
  intros Hrows.
  destruct (add_services_to_wo_rows w rows Hrows) as (evs & Hl & Hev).
  exists evs. split; [exact Hl|].
  intros i service e Hi Hskip Hnan He Hsub.
  rewrite Forall_forall in Hev.
  destruct (Hev e He _ Hsub) as (i' & s' & Hi' & Heq & Hs').
  assert (i' = i) as -> by lia.
  rewrite Hi in Hi'. injection Hi' as <-.
  rewrite (skippable_skips _ Hskip Hnan) in Hs'. discriminate.
Qed.

(** A line whose item cell is empty is a line to skip, and yet, with a
    quantity to enter, it gets its call of [add_single_service] whenever
    the loop runs. *)
Lemma empty_item_cell_gets_its_call (Hns : no_stop E) (w : world)
    (rows : list service_row) (i : nat) (service : service_row) (z : Z) :
  services_data (auto w) = Some rows ->
  tabs_ok (jobs E (default [] (current_sheet (auto w)))) = true ->
  stop_event w = false -> paused (auto w) = false ->
  rows !! i = Some service ->
  Service_Item service = Some VNaN -> Quantity service = Some (VInt z) ->
  z <> 0 ->
  skippable service
  /\ exists evs,
       log (snd (add_services_to_wo E w)) = log w ++ evs
       /\ Call_add_single_service (i + 8) (to_dict service) ∈ evs.
Proof.
  intros Hrows Htabs Hs Hp Hi Hitem Hq Hz. split.
  { right. unfold item_empty_or_blank. now rewrite Hitem. }
  destruct (add_services_to_wo_runs Hns w rows Hrows Htabs Hs Hp)
    as (evs & Hl & Hall).
  exists evs. split; [exact Hl|].
  specialize (Hall i service Hi).
  now rewrite (nan_item_passes_tests service z Hitem Hq Hz) in Hall.
Qed.

End Add_services.

(** C4 fails on the code.  Five service lines: IS1, a line of quantity 0,
    a line with a blank item code, a line whose item cell is empty, and
    IS2.  The lines of quantity 0 and of the blank code are skipped with
    their log entry.  The line with the empty item cell is a line to skip
    as well, but pandas hands out NaN for the cell, which is neither false
    nor blank as a text: the test of line 1133 lets the line through, no
    skip is logged for it, [add_single_service] is called for its row, the
    text [NAN] is typed into the item search, and the line is saved. *)
Theorem empty_item_cell_is_submitted :
  let E := Demo.one_sheet Demo.quiet Demo.login_ok Demo.job_ok
             Demo.five_lines in
  let r := @add_services_to_wo Demo.whole_float_text E
             (Demo.at_sheet1 Demo.five_lines) in
  Demo.five_lines !! 3%nat = Some (Demo.line_without_item 2 8)
  /\ skippable (Demo.line_without_item 2 8)
  /\ fst r = Done tt
  /\ lines_skipped (log (snd r)) = [9; 10]%nat
  /\ lines_called (log (snd r)) = [8; 11; 12]%nat
  /\ items_searched (log (snd r))
     = [(8%nat, str "IS1"); (11%nat, str "NAN"); (12%nat, str "IS2")]
  /\ lines_saved (log (snd r)) = [8; 11; 12]%nat
  /\ line_results (log (snd r))
     = [(8%nat, true); (11%nat, true); (12%nat, true)].
Proof.
  intros E r. split; [reflexivity|].
  split; [right; exact Logic.I|].
  vm_compute. auto 7.
Qed.

(** ** A service line that fails *)

Section Failed_line.
Context `{FloatText} (E : env).

Lemma check_pause_not_paused w :
  paused (auto w) = false -> check_pause E w = (Done tt, snd (yield E w)).
Proof.
  intros Hp. unfold check_pause.
  rewrite (bind_done _ _ w tt (snd (yield E w))) by reflexivity.
  rewrite bind_get. destruct (yield_same E w) as [-> _]. now rewrite Hp.
Qed.

(** A retry loop whose attempts all fail raises once the budget is spent. *)
Lemma attempts_exhausted budget i (body : nat -> M bool) msg w :
  paused (auto w) = false ->
  (forall k w0, exists w1, body k w0 = (Done false, w1) /\ auto w1 = auto w0) ->
  fst (attempts E budget i body msg w) = Raised (Exception (str msg)).
Proof.
  intros Hp Hbody. revert i w Hp.
  induction budget as [|budget IH]; intros i w Hp; [reflexivity|].
  cbn [attempts].
  rewrite (bind_done _ _ _ _ _ (check_pause_not_paused w Hp)).
  destruct (Hbody i (snd (yield E w))) as (w1 & Hb & Ha).
  rewrite (bind_done _ _ _ _ _ Hb). apply IH.
  rewrite Ha. destruct (yield_same E w) as [-> _]. exact Hp.
Qed.

(** C5, as the code has it.  A retry loop of [add_single_service] that
    spends its budget raises, but the handler at the end of the method
    catches whatever was raised and makes the method return [False]: the
    method never raises.  [add_services_to_wo] does not look at the result;
    it counts the line and goes on with the next service line, whether the
    line was added or not. *)
Theorem failed_line_is_swallowed :
  (forall budget i body msg w,
     paused (auto w) = false ->
     (forall k w0, exists w1, body k w0 = (Done false, w1) /\ auto w1 = auto w0) ->
     fst (attempts E budget i body msg w) = Raised (Exception (str msg)))
  /\ (forall d row w e w1,
        add_single_service_body E d row w = (Raised e, w1) ->
        add_single_service E d row w
        = (Done false, add_log (Returned_add_single_service row false) w1))
  /\ (forall d row w e, fst (add_single_service E d row w) <> Raised e)
  /\ (forall total service rows idx n w b w',
        stop_event (snd (yield E w)) = false ->
        skips service = false ->
        add_single_service E (to_dict service) (idx + 8)
          (add_log (Call_add_single_service (idx + 8) (to_dict service))
                   (snd (yield E w))) = (Done b, w') ->
        service_loop E total (service :: rows) idx n w
        = service_loop E total rows (S idx) (S n)
            (add_log (Progress_hint (S n) total) w')).
Proof.
  split; [exact attempts_exhausted|].
  split.
  { intros d row w e w1 Hbody. unfold add_single_service, try_except.
    unfold bind at 1. now rewrite Hbody. }
  split; [apply add_single_service_catches|].
  intros total service rows idx n w b w' Hstop Hskip Hadd.
  cbn [service_loop]. rewrite bind_stop_is_set, Hstop. cbv zeta.
  unfold skips in Hskip. cbv zeta in Hskip.
  apply orb_false_iff in Hskip as [Hq Hi]. rewrite Hq, Hi.
  rewrite bind_emit, (bind_done _ _ _ _ _ Hadd), bind_emit. reflexivity.
Qed.

End Failed_line.

Lemma failed_line_is_swallowed_witness :
  let E := Demo.one_sheet Demo.quiet Demo.login_ok Demo.job_first_line_fails
             Demo.two_lines in
  let w := Demo.at_sheet1 Demo.two_lines in
  let d := to_dict (Demo.line "IS1" 2 10) in
  let w1 := add_log (Call_add_single_service 8 d) (snd (yield E w)) in
  exists w',
    @add_single_service Demo.whole_float_text E d 8 w1 = (Done false, w')
    /\ @service_loop Demo.whole_float_text E 2 Demo.two_lines 0 0 w
       = @service_loop Demo.whole_float_text E 2 [Demo.line "IS2" 1 7] 1 1
           (add_log (Progress_hint 1 2) w').
Proof.
  intros E w d w1.
  exists (snd (@add_single_service Demo.whole_float_text E d 8 w1)).
  assert (Hadd : @add_single_service Demo.whole_float_text E d 8 w1
                 = (Done false,
                    snd (@add_single_service Demo.whole_float_text E d 8 w1)))
    by (vm_compute; reflexivity).
  split; [exact Hadd|].
  apply (proj2 (proj2 (proj2 (@failed_line_is_swallowed Demo.whole_float_text E)))
           2%nat (Demo.line "IS1" 2 10) [Demo.line "IS2" 1 7] 0%nat 0%nat w false).
  - reflexivity.
  - reflexivity.
  - exact Hadd.
Defined.

(** C5 as the specification words it fails: the search for the item of
    row 8 spends its three attempts, [add_single_service] returns [False],
    and the stage goes on with row 9 and ends normally. *)
Lemma failed_line_does_not_abort_stage :
  let E := Demo.one_sheet Demo.quiet Demo.login_ok Demo.job_first_line_fails
             Demo.two_lines in
  let r := @add_services_to_wo Demo.whole_float_text E
             (Demo.at_sheet1 Demo.two_lines) in
  fst r = Done tt
  /\ searches (log (snd r)) = [(8, 0); (8, 1); (8, 2); (9, 0)]%nat
  /\ line_results (log (snd r)) = [(8%nat, false); (9%nat, true)]
  /\ lines_called (log (snd r)) = [8; 9]%nat.
Proof. vm_compute. auto. Qed.

(** ** A stage that raises *)

Section Stage_error.
Context `{FloatText} (E : env) (p : params).

(** C1, as the code has it.  Between a stage and the outer handler of
    [run_automation] nothing catches an exception: a stage that raises ends
    the step loop, the sheet and the sheet loop in the very world in which
    it raised, so neither the write-back of line 2449 nor any later sheet is
    run; the outer handler then reports "Automation error", and the
    [finally] closes the browser and enables the controls. *)
Theorem stage_error_ends_run :
  (forall step steps w e w',
     stop_event (snd (yield E w)) = false ->
     run_step E step (snd (yield E w)) = (Raised e, w') ->
     run_steps E (step :: steps) w = (Raised e, w'))
  /\ (forall idx total sheet w e w',
        let w1 := add_log (Status (Processing_sheet idx total sheet))
                    (set_auto (parse_sheet E sheet) w) in
        truthy_attr (wo_number (auto w1)) = true ->
        (search_work_order E (wo_number (auto w1)) ;;;
         run_steps E (ordered (start_at p) (selected_steps p))) w1
        = (Raised e, w') ->
        process_sheet E p true idx total sheet w = (Raised e, w'))
  /\ (forall page total sheet rest idx w e w',
        stop_event (snd (yield E w)) = false ->
        process_sheet E p page idx total sheet (snd (yield E w)) = (Raised e, w') ->
        sheet_loop E p page total (sheet :: rest) idx w = (Raised e, w'))
  /\ (forall w e w',
        run_body E p w = (Raised e, w') ->
        run_automation E p w
        = (Done tt,
           add_log Controls_enabled
             (add_log (Browser Close_browser)
                (add_log (Status (Automation_error e)) w')))).
Proof.
  split.
  { intros step steps w e w' Hs Hstep. cbn [run_steps].
    rewrite bind_stop_is_set, Hs. unfold bind at 1. now rewrite Hstep. }
  split.
  { intros idx total sheet w e w' w1 Hwo Hraise. unfold process_sheet.
    unfold modify at 1. unfold bind at 1. rewrite bind_emit, bind_get.
    fold w1. rewrite Hwo. cbn [negb].
    unfold bind at 1. unfold bind at 1.
    unfold bind in Hraise.
    destruct (search_work_order E (wo_number (auto w1)) w1) as [[[]|e0|] w2];
      [|now injection Hraise as <- <-|discriminate].
    unfold bind at 1. now rewrite Hraise. }
  split.
  { intros page total sheet rest idx w e w' Hs Hsheet. cbn [sheet_loop].
    rewrite bind_stop_is_set, Hs. unfold bind at 1. now rewrite Hsheet. }
  intros w e w' Hbody. unfold run_automation, try_finally, try_except.
  rewrite Hbody. reflexivity.
Qed.

End Stage_error.

Lemma stage_error_ends_run_witness :
  let w0 := start_world Demo.book_two_sheets in
  let body := @run_body Demo.whole_float_text Demo.two_sheets_first_fails
                Demo.all_steps w0 in
  @run_automation Demo.whole_float_text Demo.two_sheets_first_fails
    Demo.all_steps w0
  = (Done tt,
     add_log Controls_enabled
       (add_log (Browser Close_browser)
          (add_log (Status (Automation_error
                      (Exception (str "Bill batch input field not found or not visible"))))
             (snd body)))).
Proof.
  intros w0 body.
  apply (proj2 (proj2 (proj2 (@stage_error_ends_run Demo.whole_float_text
                                Demo.two_sheets_first_fails Demo.all_steps)))).
  vm_compute. reflexivity.
Defined.

(** C1 as the specification words it fails.  Two sheets; on Sheet1 the
    bill batch never appears, so CreateBill raises.  The run ends there with
    "Automation error": Sheet1 is not written back, Sheet2 is never
    started. *)
Lemma stage_error_stops_the_batch :
  let r := Demo.run Demo.two_sheets_first_fails Demo.all_steps in
  fst r = Done tt
  /\ stages_entered (log (snd r))
     = [M_add_services_to_wo; M_route_wo_to_comp; M_route_wo_to_comp;
        M_create_customer_bill]
  /\ statuses (log (snd r))
     = [Initializing; Login_successful;
        Processing_sheet 1 2 (str "Sheet1");
        Automation_error
          (Exception (str "Bill batch input field not found or not visible"))]
  /\ checkpoints (log (snd r)) = []
  /\ sheets_started (log (snd r)) = [str "Sheet1"].
Proof. vm_compute. auto 6. Qed.

(** ** The stages that run *)

(** C2 fails on the code.  With only [add_services] selected the dispatch
    list is [add_services] alone, yet RouteToComplete runs too, because
    [add_services_to_wo] ends by calling [route_wo_to_comp] itself
    (line 1158).  With all four steps selected the routing runs twice. *)
Theorem unselected_route_runs :
  ordered (start_at Demo.only_add_services) (selected_steps Demo.only_add_services)
  = [str "add_services"]
  /\ stages_entered
       (log (snd (Demo.run (Demo.one_sheet Demo.quiet Demo.login_ok Demo.job_ok
                              Demo.two_lines) Demo.only_add_services)))
     = [M_add_services_to_wo; M_route_wo_to_comp]
  /\ ordered (start_at Demo.all_steps) (selected_steps Demo.all_steps) = canonical
  /\ stages_entered
       (log (snd (Demo.run (Demo.one_sheet Demo.quiet Demo.login_ok Demo.job_ok
                              Demo.two_lines) Demo.all_steps)))
     = [M_add_services_to_wo; M_route_wo_to_comp; M_route_wo_to_comp;
        M_create_customer_bill; M_process_customer_bill].
Proof. vm_compute. auto. Qed.

(** The dispatch list itself is the canonical sequence cut at the start
    stage and filtered by the selection. *)
Lemma ordered_is_filtered_suffix (start : pystr) (selected : list pystr) k :
  index start canonical = Some k ->
  ordered start selected
  = List.filter (fun s => bool_decide (s ∈ selected)) (drop k canonical).
Proof. intros Hk. unfold ordered. now rewrite Hk. Qed.

(** ** Login *)

(** When every verification fails and the page shows no error text, the
    login loop just ends: [perform_login] returns. *)
Lemma login_attempts_fall_through `{FloatText} (E : env) budget attempt w :
  (forall k, credentials_ok (login E) k = true) ->
  (forall k, verify_login_success E k = false) ->
  (forall k, error_text (login E) k = []) ->
  fst (login_attempts E budget attempt w) = Done tt.
Proof.
  intros Hc Hv He. revert attempt w.
  induction budget as [|budget IH]; intros attempt w; [reflexivity|].
  cbn [login_attempts]. unfold call. rewrite bind_emit, Hc.
  rewrite (bind_done _ _ _ tt _ eq_refl), Hv, bind_get, He.
  rewrite andb_false_r.
  rewrite (bind_done _ _ _ tt _ eq_refl).
  destruct (attempt <? 2)%nat.
  - rewrite bind_emit. apply IH.
  - rewrite (bind_done _ _ _ tt _ eq_refl). apply IH.
Qed.

(** C3 fails on the code.  The login page stays, none of the markers
    shows, no error text is on the page: after its three attempts
    [perform_login] returns without raising, and the run goes on to process
    the sheet, stage after stage. *)
Theorem exhausted_login_goes_on :
  let E := Demo.one_sheet Demo.quiet Demo.login_stuck Demo.job_ok Demo.two_lines in
  let r := Demo.run E Demo.all_steps in
  (forall k, @verify_login_success E k = false)
  /\ fst (@perform_login E (start_world Demo.book_two_sheets)) = Done tt
  /\ logins (log (snd r)) = [0; 1; 2]%nat
  /\ statuses (log (snd r))
     = [Initializing; Processing_sheet 1 1 (str "Sheet1");
        Excel_updated; Excel_updated; Automation_complete]
  /\ sheets_started (log (snd r)) = [str "Sheet1"]
  /\ stages_entered (log (snd r))
     = [M_add_services_to_wo; M_route_wo_to_comp; M_route_wo_to_comp;
        M_create_customer_bill; M_process_customer_bill].
Proof.
  intros E r. split; [intros k; reflexivity|]. vm_compute. auto 7.
Qed.

(** ** The whole worker in the logic *)

Section Whole_run.
Context `{FloatText} (E : env) (I : world -> Prop) (P : event -> Prop).
Hypothesis HI : stable E I.
Hypothesis HP : forall e, not_a_save e -> P e.
Hypothesis Hsave : spec I P update_excel_file.

Ltac go :=
  repeat first
    [ apply Hsave
    | spec_step; try (apply HP; exact Logic.I) ].

Lemma spec_price_element ps m processed el :
  spec I P (price_element E ps m processed el).
Proof. unfold price_element. go. Qed.

Lemma spec_price_elements ps m els processed :
  spec I P (price_elements E ps m processed els).
Proof.
  revert processed. induction els as [|el els IH]; intros processed; simpl.
  - go.
  - eapply spec_bind; [apply spec_price_element | intros ?; apply IH].
Qed.

Lemma spec_price_pages ps m s page_number processed :
  spec I P (price_pages E ps m s page_number processed).
Proof.
  revert page_number processed.
  induction s as [rows next | rows rest IH]; intros page_number processed;
    cbn [price_pages rows_of].
  - repeat first [apply spec_price_elements | go; fail | spec_step; try (apply HP; exact Logic.I)].
  - repeat first [apply spec_price_elements | apply IH | spec_step; try (apply HP; exact Logic.I)].
Qed.

Lemma spec_enter_services_prices : spec I P (enter_services_prices E).
Proof.
  unfold enter_services_prices.
  repeat first [apply spec_price_pages | spec_step; try (apply HP; exact Logic.I)].
Qed.

Lemma spec_save_bill_changes site : spec I P (save_bill_changes E site).
Proof. unfold save_bill_changes. go. Qed.

Lemma spec_process_customer_bill : spec I P (process_customer_bill E).
Proof.
  unfold process_customer_bill.
  repeat first [apply spec_enter_services_prices | apply spec_save_bill_changes
               | spec_step; try (apply HP; exact Logic.I)].
Qed.

Lemma spec_login_attempts budget attempt :
  spec I P (login_attempts E budget attempt).
Proof.
  revert attempt. induction budget as [|budget IH]; intros attempt;
    cbn [login_attempts];
    repeat first [apply IH | spec_step; try (apply HP; exact Logic.I)].
Qed.

Lemma spec_perform_login : spec I P (perform_login E).
Proof.
  unfold perform_login.
  repeat first [apply spec_login_attempts | spec_step; try (apply HP; exact Logic.I)].
Qed.

Lemma spec_search_work_order wo : spec I P (search_work_order E wo).
Proof. unfold search_work_order. go. Qed.

Lemma spec_check_timeout_run l k : spec I P (check_timeout E l k).
Proof. unfold check_timeout. go. Qed.

Lemma spec_add_single_service_run d row : spec I P (add_single_service E d row).
Proof.
  unfold add_single_service, add_single_service_body.
  repeat first [apply spec_check_timeout_run
               | spec_step; try (apply HP; exact Logic.I)].
Qed.

Lemma spec_service_loop_run total rows idx n :
  spec I P (service_loop E total rows idx n).
Proof.
  revert idx n. induction rows as [|service rows IH]; intros idx n;
    cbn [service_loop];
    repeat first [apply spec_add_single_service_run | apply IH
                 | spec_step; try (apply HP; exact Logic.I)].
Qed.

Lemma spec_route_run site : spec I P (route_wo_to_comp E site).
Proof. unfold route_wo_to_comp. go. Qed.

Lemma spec_add_services_to_wo : spec I P (add_services_to_wo E).
Proof.
  unfold add_services_to_wo.
  repeat first [apply spec_service_loop_run | apply spec_route_run
               | spec_step; try (apply HP; exact Logic.I)].
Qed.

Lemma spec_save_bill_info : spec I P save_bill_info.
Proof.
  unfold save_bill_info.
  repeat first
    [ apply Hsave
    | eapply spec_modify; [eassumption | intros ? Hing; exact Hing | intros ? ?; assumption]
    | spec_step; try (apply HP; exact Logic.I) ].
Qed.

Lemma spec_create_customer_bill : spec I P (create_customer_bill E).
Proof.
  unfold create_customer_bill.
  repeat first
    [ eapply spec_modify; [eassumption | intros ? Hing; exact Hing | intros ? ?; assumption]
    | spec_step; try (apply HP; exact Logic.I) ].
Qed.

Lemma spec_run_step step : spec I P (run_step E step).
Proof.
  unfold run_step.
  repeat first
    [ apply spec_add_services_to_wo | apply spec_route_run
    | apply spec_create_customer_bill | apply spec_save_bill_info
    | apply spec_process_customer_bill | apply spec_save_bill_changes
    | spec_step; try (apply HP; exact Logic.I) ].
Qed.

Lemma spec_run_steps steps : spec I P (run_steps E steps).
Proof.
  induction steps as [|step steps IH]; cbn [run_steps];
    repeat first [apply spec_run_step | apply IH
                 | spec_step; try (apply HP; exact Logic.I)].
Qed.

Lemma parse_sheet_ingesting sheet : ingesting (parse_sheet E sheet).
Proof.
  intros a Ha. unfold parse_sheet.
  destruct (frames E sheet) as [|cells services]; [exact Ha|].
  cbn [bill_status]. destruct (cells !! 3%nat) as [v|]; [|exact Ha].
  right. now exists v.
Qed.

Lemma spec_process_sheet p page idx total sheet :
  spec I P (process_sheet E p page idx total sheet).
Proof.
  unfold process_sheet.
  eapply spec_bind.
  { eapply spec_modify; [eassumption | apply parse_sheet_ingesting |].
    intros a Ha. unfold parse_sheet. now destruct (frames E sheet). }
  intros _.
  repeat first [apply spec_search_work_order | apply spec_run_steps
               | apply Hsave | spec_step; try (apply HP; exact Logic.I)].
Qed.

Lemma spec_sheet_loop p page total sheets idx :
  spec I P (sheet_loop E p page total sheets idx).
Proof.
  revert idx. induction sheets as [|sheet sheets IH]; intros idx;
    cbn [sheet_loop];
    repeat first [apply spec_process_sheet | apply IH
                 | spec_step; try (apply HP; exact Logic.I)].
Qed.

Lemma spec_run_body p : spec I P (run_body E p).
Proof.
  unfold run_body, enable_controls.
  repeat first
    [ apply spec_perform_login | apply spec_sheet_loop
    | eapply spec_modify;
      [eassumption | intros ? ?; now left | intros ? ?; reflexivity]
    | spec_step; try (apply HP; exact Logic.I) ].
Qed.

Lemma spec_run_automation p : spec I P (run_automation E p).
Proof.
  unfold run_automation, close_browser, enable_controls.
  eapply spec_try_finally; [|go].
  eapply spec_try_except; [apply spec_run_body | intros e; go].
Qed.

End Whole_run.

Lemma spec_update_excel_file_any `{FloatText} (E : env) (I : world -> Prop) :
  stable E I -> spec I (fun _ => True) update_excel_file.
Proof.
  intros HI w Hw. unfold update_excel_file.
  destruct (negb (truthy_attr (working_excel_path (auto w)))).
  { exists []. simpl. rewrite app_nil_r. repeat split; auto; discriminate. }
  destruct (book (excel w)) as [wb|].
  2: { exists [Status Failed_to_update_excel]. simpl.
       repeat split; auto; try discriminate. now apply (stable_log _ _ HI). }
  destruct (writable (excel w)).
  2: { exists [Status Failed_to_update_excel]. simpl.
       repeat split; auto; try discriminate. now apply (stable_log _ _ HI). }
  exists [Excel_saved (target_sheet (auto w) wb) (status_cell (auto w));
          Status Excel_updated]. simpl.
  rewrite <- app_assoc.
  repeat split; auto; try discriminate.
  now apply (stable_log _ _ HI), (stable_log _ _ HI), (stable_excel _ _ HI).
Qed.

(** Whatever the interactive thread does, the worker launched by
    [on_start] never sleeps in [wait_if_paused]: its own [paused] attribute
    is [False] from beginning to end. *)
Lemma worker_never_waits `{FloatText} (E : env) (p : params) (x : excel_file) :
  fst (run_automation E p (start_world x)) <> Blocked
  /\ paused (auto (snd (run_automation E p (start_world x)))) = false.
Proof.
  destruct (spec_run_automation E _ (fun _ => True) (stable_any E)
              (fun _ _ => Logic.I)
              (spec_update_excel_file_any E _ (stable_any E))
              p (start_world x) Logic.I)
    as (_ & _ & _ & _ & Hp).
  destruct (Hp eq_refl). auto.
Qed.

(** ** Pause *)

(** [on_pause] never reaches the worker: it flips the session flag, and
    [check_pause] reads the [paused] attribute of the worker's own object,
    which nothing writes. *)
Lemma on_pause_leaves_worker (w : world) :
  auto (ui_step w On_pause) = auto w
  /\ session_paused (ui_step w On_pause) = negb (session_paused w).
Proof. split; reflexivity. Qed.

(** C9 fails on the code.  Two service lines; Pause is pressed once, just
    before the read that heads the second iteration of the service-line loop
    (read 17: the first line alone ends at 17 reads, pause not yet pressed).
    The session flag is set and stays set, yet the worker goes straight on
    with row 9 and finishes the stage.  The same holds at every other read
    of the whole run: the log is the log of the run nobody paused. *)
Theorem pause_is_never_seen :
  let E := Demo.one_sheet (Demo.pause_at 17) Demo.login_ok Demo.job_ok
             Demo.two_lines in
  let w := tick (tick (tick (Demo.at_sheet1 Demo.two_lines))) in
  let first := snd (@service_loop Demo.whole_float_text E 2
                      [Demo.line "IS1" 2 10] 0 0 w) in
  let r := @service_loop Demo.whole_float_text E 2 Demo.two_lines 0 0 w in
  (ticks first = 17%nat /\ session_paused first = false)
  /\ fst r = Done tt
  /\ session_paused (snd r) = true
  /\ paused (auto (snd r)) = false
  /\ line_results (log (snd r)) = [(8%nat, true); (9%nat, true)]
  /\ Forall (fun k =>
       let quiet_run :=
         Demo.run (Demo.one_sheet Demo.quiet Demo.login_ok Demo.job_ok
                     Demo.two_lines) Demo.all_steps in
       let paused_run :=
         Demo.run (Demo.one_sheet (Demo.pause_at k) Demo.login_ok Demo.job_ok
                     Demo.two_lines) Demo.all_steps in
       fst paused_run = Done tt
       /\ session_paused (snd paused_run) = true
       /\ log (snd paused_run) = log (snd quiet_run))
     (seq 0 44).
Proof.
  intros E w first r.
  split; [vm_compute; auto|].
  split; [vm_compute; reflexivity|].
  split; [vm_compute; reflexivity|].
  split; [vm_compute; reflexivity|].
  split; [vm_compute; reflexivity|].
  cbn [seq]. repeat (constructor; [vm_compute; auto|]). constructor.
Qed.

(** ** The write-back *)

Section Checkpoint.
Context `{FloatText}.

Lemma created_not_blank : ~ blank (str "CREATED").
Proof. intros Hb. specialize (Hb 67%N ltac:(left)). discriminate. Qed.

Lemma status_cell_set (a : automation) s :
  bill_status a = Some s -> s <> [] -> status_cell a = s.
Proof. intros Hs Hne. unfold status_cell. rewrite Hs. now destruct s. Qed.

Lemma status_cell_default (a : automation) :
  absent (bill_status a) -> status_cell a = str "CREATED".
Proof. intros [Hs | Hs]; unfold status_cell; now rewrite Hs. Qed.

Lemma status_cell_not_blank (a : automation) :
  ingested (bill_status a) -> ~ blank (status_cell a).
Proof.
  intros [Hs | [v Hs]]; unfold status_cell; rewrite Hs.
  - apply created_not_blank.
  - unfold header_field. destruct (isna v); [apply created_not_blank|].
    destruct (strip (py_str v)) as [|c s] eqn:Hv; [apply created_not_blank|].
    cbn [truthy_attr default from_option id]. rewrite <- Hv.
    apply strip_not_blank. now rewrite Hv.
Qed.

Lemma stable_ingested (E : env) :
  stable E (fun w => ingested (bill_status (auto w))).
Proof.
  split; [auto | auto | |].
  - intros f w Hf Hw. now apply Hf.
  - intros w Hw. destruct (yield_same E w) as [Ha _].
    change (tick _) with (snd (yield E w)). now rewrite Ha.
Qed.

Lemma spec_update_excel_file_status (E : env) :
  spec (fun w => ingested (bill_status (auto w))) saved_status_not_blank
       update_excel_file.
Proof.
  intros w Hw. unfold update_excel_file.
  destruct (negb (truthy_attr (working_excel_path (auto w)))).
  { exists []. simpl. rewrite app_nil_r. repeat split; auto; discriminate. }
  destruct (book (excel w)) as [wb|].
  2: { exists [Status Failed_to_update_excel]. simpl.
       repeat split; auto; try discriminate. repeat constructor. }
  destruct (writable (excel w)).
  2: { exists [Status Failed_to_update_excel]. simpl.
       repeat split; auto; try discriminate. repeat constructor. }
  exists [Excel_saved (target_sheet (auto w) wb) (status_cell (auto w));
          Status Excel_updated]. simpl.
  rewrite <- app_assoc.
  repeat split; auto; try discriminate.
  constructor; [now apply status_cell_not_blank | repeat constructor].
Qed.

(** C10.  A checkpoint that can open and save the working copy returns
    [True] and leaves in B5 of the sheet it saved the bill status of the job
    when that attribute is set and not empty, and the text [CREATED]
    otherwise; with the bill status as sheet ingestion leaves it, what it
    writes is never blank.  In a run launched by [on_start] every save of
    the file wrote a B5 that is not blank. *)
Theorem checkpoint_writes_status :
  (forall (w : world) (wb : workbook),
     truthy_attr (working_excel_path (auto w)) = true ->
     book (excel w) = Some wb -> writable (excel w) = true ->
     fst (update_excel_file w) = Done true
     /\ (exists wb',
           book (excel (snd (update_excel_file w))) = Some wb'
           /\ cells wb' !! (target_sheet (auto w) wb, str "B5")
              = Some (status_cell (auto w)))
     /\ (forall s, bill_status (auto w) = Some s -> s <> [] ->
           status_cell (auto w) = s)
     /\ (absent (bill_status (auto w)) -> status_cell (auto w) = str "CREATED")
     /\ (ingested (bill_status (auto w)) -> ~ blank (status_cell (auto w))))
  /\ (forall (E : env) (p : params) (x : excel_file) title status,
        Excel_saved title status ∈ log (snd (run_automation E p (start_world x))) ->
        ~ blank status).
Proof.
  split.
  - intros w wb Hpath Hbook Hwr. unfold update_excel_file.
    rewrite Hpath, Hbook, Hwr. cbn [negb fst snd].
    split; [reflexivity|]. split.
    { eexists. split; [reflexivity|]. cbn [write_header cells].
      assert (forall v c, write_cell (target_sheet (auto w) wb) (str "B6") v c
                          !! (target_sheet (auto w) wb, str "B5")
                          = c !! (target_sheet (auto w) wb, str "B5")) as ->.
      { intros v c. unfold write_cell. destruct (truthy_attr v); [|reflexivity].
        apply lookup_insert_ne. intros [= Heq]. }
      apply lookup_insert_eq. }
    split; [apply status_cell_set|].
    split; [apply status_cell_default | apply status_cell_not_blank].
  - intros E p x title status Hin.
    destruct (spec_run_automation E _ saved_status_not_blank (stable_ingested E)
                (fun e He => ltac:(now destruct e))
                (spec_update_excel_file_status E) p (start_world x))
      as (evs & Hl & Hev & _); [now left|].
    rewrite Hl in Hin. cbn [start_world log app] in Hin.
    rewrite Forall_forall in Hev. exact (Hev _ Hin).
Qed.

End Checkpoint.

Lemma checkpoint_writes_status_witness :
  let w := Demo.at_sheet1 Demo.two_lines in
  fst (update_excel_file w) = Done true
  /\ status_cell (auto w) = str "CREATED".
Proof.
  intros w.
  destruct (proj1 (@checkpoint_writes_status Demo.whole_float_text) w
              {| sheetnames := [str "Sheet1"; str "Sheet2"];
                 active := str "Sheet1"; cells := ∅ |}
              eq_refl eq_refl eq_refl) as (Hr & _ & _ & Hd & _).
  split; [exact Hr | apply Hd; now left].
Defined.

(** ** Price synchronisation *)

Section Prices.
Context `{FloatText} (E : env).

Lemma completed_writes_app l1 l2 :
  completed_writes (l1 ++ l2) = completed_writes l1 ++ completed_writes l2.
Proof. apply omap_app. Qed.

Lemma no_write_nil evs : Forall no_write evs -> completed_writes evs = [].
Proof.
  induction 1 as [|e evs He _ IH]; [reflexivity|].
  unfold completed_writes in *. cbn [omap].
  destruct e as [| | | | | | | | | | | | |c| |]; try exact IH.
  destruct c; try exact IH. destruct res; [contradiction | exact IH].
Qed.

Lemma written_once_nil (processed : gset pystr) (r : result (gset pystr)) :
  (forall processed', r = Done processed' -> processed' = processed) ->
  written_once processed [] r.
Proof.
  intros Hr. split; [constructor|]. split; [intros c Hc; inversion Hc|].
  intros P' HP c. rewrite (Hr _ HP). split; [auto | intros [? | Hc]; [auto | inversion Hc]].
Qed.

Lemma written_once_seq (processed : gset pystr) (evs1 : list event)
    (processed1 : gset pystr) (evs2 : list event) (r : result (gset pystr)) :
  written_once processed evs1 (Done processed1) ->
  written_once processed1 evs2 r ->
  written_once processed (evs1 ++ evs2) r.
Proof.
  intros (N1 & D1 & R1) (N2 & D2 & R2).
  specialize (R1 _ eq_refl). unfold written_once. rewrite completed_writes_app.
  split; [|split].
  - apply NoDup_app. split; [exact N1|]. split; [|exact N2].
    intros c Hc1 Hc2. apply (D2 c Hc2). apply R1. now right.
  - intros c Hc Hp. apply elem_of_app in Hc as [Hc | Hc].
    + now apply (D1 c).
    + apply (D2 c Hc). apply R1. now left.
  - intros P' HP c. rewrite (R2 P' HP c), R1, elem_of_app. tauto.
Qed.

(** A step that writes no price, in front of a loop. *)
Lemma written_once_after {A} (m : M A) (k : A -> M (gset pystr))
    (processed : gset pystr) (w : world) :
  spec (fun _ => True) no_write m ->
  (forall a w1, exists evs,
      log (snd (k a w1)) = log w1 ++ evs
      /\ written_once processed evs (fst (k a w1))) ->
  exists evs,
    log (snd (bind m k w)) = log w ++ evs
    /\ written_once processed evs (fst (bind m k w)).
Proof.
  intros Hm Hk. destruct (Hm w Logic.I) as (evs0 & Hl0 & Hq & _).
  pose proof (no_write_nil _ Hq) as Hnil. unfold bind.
  destruct (m w) as [[a | e |] w1]; simpl in *.
  - destruct (Hk a w1) as (evs & Hl & N & D & R).
    exists (evs0 ++ evs). split; [now rewrite Hl, Hl0, app_assoc|].
    unfold written_once. rewrite completed_writes_app, Hnil. auto.
  - exists evs0. split; [exact Hl0|]. unfold written_once. rewrite Hnil.
    split; [constructor|]. split; [intros c Hc; inversion Hc | discriminate].
  - exists evs0. split; [exact Hl0|]. unfold written_once. rewrite Hnil.
    split; [constructor|]. split; [intros c Hc; inversion Hc | discriminate].
Qed.

Lemma price_element_once (ps : prices_script) (m : gmap pystr pyval)
    (processed : gset pystr) (el : pystr * pystr) (w : world) :
  exists evs,
    log (snd (price_element E ps m processed el w)) = log w ++ evs
    /\ written_once processed evs (fst (price_element E ps m processed el w)).
Proof.
  destruct el as [code input]. unfold price_element.
  apply written_once_after; [now apply spec_check_pause, stable_any|].
  intros _ w1.
  destruct (bool_decide (code = []) || bool_decide (code ∈ processed)) eqn:Hskip.
  { exists []. simpl. rewrite app_nil_r. split; [reflexivity|].
    apply written_once_nil. now intros P' [= <-]. }
  apply orb_false_iff in Hskip as [_ Hin]. apply bool_decide_eq_false in Hin.
  assert (Hcase : forall script res,
    exists evs,
      log (snd ((call (Set_value code input script res) ;;;
                 match res with
                 | Returned _ => ret ({[code]} ∪ processed)
                 | Threw => emit (Price_error code) ;;; ret processed
                 end) w1)) = log w1 ++ evs
      /\ written_once processed evs
           (fst ((call (Set_value code input script res) ;;;
                  match res with
                  | Returned _ => ret ({[code]} ∪ processed)
                  | Threw => emit (Price_error code) ;;; ret processed
                  end) w1))).
  { intros script [b|].
    - exists [Browser (Set_value code input script (Returned b))].
      split; [reflexivity|]. unfold written_once.
      change (completed_writes [Browser (Set_value code input script (Returned b))])
        with [code].
      split; [|split].
      + apply NoDup_singleton.
      + intros c Hc. apply list_elem_of_singleton in Hc as ->. exact Hin.
      + intros P' [= <-] c. rewrite elem_of_union, elem_of_singleton,
          list_elem_of_singleton. tauto.
    - exists [Browser (Set_value code input script Threw); Price_error code].
      split; [cbn; now rewrite <- app_assoc|].
      unfold written_once.
      change (completed_writes
                [Browser (Set_value code input script Threw); Price_error code])
        with (@nil pystr).
      apply (written_once_nil processed). now intros P' [= <-]. }
  destruct (m !! code) as [[| |z|q|s]|]; apply Hcase.
Qed.

Lemma price_elements_once (ps : prices_script) (m : gmap pystr pyval)
    (els : list (pystr * pystr)) (processed : gset pystr) (w : world) :
  exists evs,
    log (snd (price_elements E ps m processed els w)) = log w ++ evs
    /\ written_once processed evs (fst (price_elements E ps m processed els w)).
Proof.
  revert processed w. induction els as [|el els IH]; intros processed w.
  { exists []. simpl. rewrite app_nil_r. split; [reflexivity|].
    apply written_once_nil. now intros P' [= <-]. }
  cbn [price_elements]. unfold bind.
  destruct (price_element_once ps m processed el w) as (evs1 & Hl1 & Ho1).
  destruct (price_element E ps m processed el w) as [[P1 | e |] w1];
    simpl in *; [|now exists evs1..].
  destruct (IH P1 w1) as (evs2 & Hl2 & Ho2).
  exists (evs1 ++ evs2). split; [now rewrite Hl2, Hl1, app_assoc|].
  now apply written_once_seq with P1.
Qed.

Lemma written_once_bind (m : M (gset pystr)) (k : gset pystr -> M (gset pystr))
    (processed : gset pystr) (w : world) :
  (exists evs, log (snd (m w)) = log w ++ evs
               /\ written_once processed evs (fst (m w))) ->
  (forall (processed1 : gset pystr) (w1 : world), exists evs,
      log (snd (k processed1 w1)) = log w1 ++ evs
      /\ written_once processed1 evs (fst (k processed1 w1))) ->
  exists evs,
    log (snd (bind m k w)) = log w ++ evs
    /\ written_once processed evs (fst (bind m k w)).
Proof.
  intros (evs1 & Hl1 & Ho1) Hk. unfold bind.
  destruct (m w) as [[P1 | e |] w1]; simpl in *; [|now exists evs1..].
  destruct (Hk P1 w1) as (evs2 & Hl2 & Ho2).
  exists (evs1 ++ evs2). split; [now rewrite Hl2, Hl1, app_assoc|].
  now apply written_once_seq with P1.
Qed.

Lemma written_once_ret (processed : gset pystr) (w : world) :
  exists evs,
    log (snd (ret processed w)) = log w ++ evs
    /\ written_once processed evs (fst (ret processed w)).
Proof.
  exists []. simpl. rewrite app_nil_r. split; [reflexivity|].
  apply written_once_nil. now intros P' [= <-].
Qed.

Lemma written_once_raise (processed : gset pystr) msg (w : world) :
  exists evs,
    log (snd (@raise (gset pystr) msg w)) = log w ++ evs
    /\ written_once processed evs (fst (@raise (gset pystr) msg w)).
Proof.
  exists []. simpl. rewrite app_nil_r. split; [reflexivity|].
  apply written_once_nil. discriminate.
Qed.

(** One step that writes no price. *)
Ltac once_step :=
  apply written_once_after;
  [ first [ now apply spec_check_pause, stable_any
          | apply spec_get
          | apply spec_must
          | eapply spec_call; [apply (stable_any E) | exact Logic.I] ]
  | intros ? ? ].

Lemma price_pages_once (ps : prices_script) (m : gmap pystr pyval) (s : site)
    (page_number : nat) (processed : gset pystr) (w : world) :
  exists evs,
    log (snd (price_pages E ps m s page_number processed w)) = log w ++ evs
    /\ written_once processed evs
         (fst (price_pages E ps m s page_number processed w)).
Proof.
  revert page_number processed w.
  induction s as [rows next | rows rest IH]; intros page_number processed w;
    cbn [price_pages rows_of]; do 2 once_step;
    (destruct rows as [rows|]; [|apply written_once_raise]);
    (destruct (service_elements rows) as [|el els]; [apply written_once_ret|]);
    (apply written_once_bind; [apply price_elements_once|]);
    intros processed1 w2.
  - destruct next; [apply written_once_ret|].
    do 2 once_step. apply written_once_ret.
  - do 2 once_step. apply IH.
Qed.

Lemma enter_services_prices_once (w : world) :
  exists evs,
    log (snd (enter_services_prices E w)) = log w ++ evs
    /\ written_once ∅ evs (fst (enter_services_prices E w)).
Proof.
  unfold enter_services_prices, job. do 5 once_step.
  match goal with |- context [match ?x with _ => _ end] => destruct x end;
    [apply price_pages_once | apply written_once_raise].
Qed.

(** A row whose item code is already in the processed set is passed over:
    nothing is logged, the set stays as it is. *)
Lemma processed_code_skipped (ps : prices_script) (m : gmap pystr pyval)
    (processed : gset pystr) (code input : pystr) (w : world) :
  code ∈ processed -> paused (auto w) = false ->
  fst (price_element E ps m processed (code, input) w) = Done processed
  /\ log (snd (price_element E ps m processed (code, input) w)) = log w.
Proof.
  intros Hin Hp. unfold price_element.
  rewrite (bind_done _ _ _ _ _ (check_pause_not_paused E w Hp)).
  rewrite (bool_decide_eq_true_2 _ Hin), orb_true_r. simpl.
  split; [reflexivity | apply yield_same].
Qed.

(** C8.  Within one call of [enter_services_prices] no item code has its
    price field written twice: the codes of the set-value calls that
    returned are pairwise distinct, over all result pages.  Each of them
    enters the processed set, and a row whose code is in that set, from
    this page or an earlier one, is passed over without any call. *)
Theorem item_code_written_once :
  (forall w : world,
     exists evs,
       log (snd (enter_services_prices E w)) = log w ++ evs
       /\ NoDup (completed_writes evs)
       /\ (forall processed', fst (enter_services_prices E w) = Done processed' ->
             forall c, c ∈ processed' <-> c ∈ completed_writes evs))
  /\ (forall (ps : prices_script) (m : gmap pystr pyval) (s : site)
             (page_number : nat) (processed : gset pystr) (w : world),
        exists evs,
          log (snd (price_pages E ps m s page_number processed w)) = log w ++ evs
          /\ NoDup (completed_writes evs)
          /\ (forall c, c ∈ completed_writes evs -> c ∉ processed))
  /\ (forall (ps : prices_script) (m : gmap pystr pyval)
             (processed : gset pystr) (code input : pystr) (w : world),
        code ∈ processed -> paused (auto w) = false ->
        fst (price_element E ps m processed (code, input) w) = Done processed
        /\ log (snd (price_element E ps m processed (code, input) w)) = log w).
Proof.
  split; [|split].
  - intros w. destruct (enter_services_prices_once w) as (evs & Hl & N & _ & R).
    exists evs. split; [exact Hl|]. split; [exact N|].
    intros P' HP c. rewrite (R P' HP c).
    split; [intros [Hc | Hc]; [now apply not_elem_of_empty in Hc | exact Hc]
           | now right].
  - intros ps m s n processed w.
    destruct (price_pages_once ps m s n processed w) as (evs & Hl & N & D & _).
    exists evs. auto.
  - apply processed_code_skipped.
Qed.

End Prices.

Section Price_rows.
Context `{FloatText} (E : env).







End Price_rows.

Lemma item_code_written_once_witness :
  let E := Demo.one_sheet Demo.quiet Demo.login_ok Demo.job_ok Demo.two_lines in
  let w := Demo.at_sheet1 Demo.two_lines in
  let processed : gset pystr := {[str "IS1"]} in
  fst (@price_element Demo.whole_float_text E Demo.prices_two_pages ∅ processed
         (str "IS1", str "in3") w) = Done processed
  /\ log (snd (@price_element Demo.whole_float_text E Demo.prices_two_pages ∅
                 processed (str "IS1", str "in3") w)) = log w.
Proof.
  intros E w processed.
  apply (proj2 (proj2 (@item_code_written_once Demo.whole_float_text E))).
  - apply elem_of_singleton. reflexivity.
  - reflexivity.
Defined.


(** * Further properties of the code *)

(** ** The dispatch list of run_automation (lines 2413-2418) *)

Lemma filter_sublist (f : pystr -> bool) (l : list pystr) :
  List.filter f l `sublist_of` l.
Proof.
  induction l as [|x l IH]; simpl; [constructor|].
  destruct (f x); now constructor.
Qed.

Lemma canonical_NoDup : NoDup canonical.
Proof. refine (bool_decide_unpack (NoDup canonical) _). vm_compute. exact Logic.I. Qed.

Lemma elem_of_ordered (start : pystr) (selected : list pystr) (s : pystr) :
  s ∈ ordered start selected
  <-> s ∈ selected
      /\ s ∈ drop (default 0%nat (index start canonical)) canonical.
Proof.
  unfold ordered. rewrite !list_elem_of_In, filter_In, bool_decide_eq_true.
  rewrite !list_elem_of_In. tauto.
Qed.

(** X1.  Whatever the start step and the selection are, the steps
    dispatched for a sheet are taken from the canonical sequence in its
    order, none of them twice, and each of them is selected. *)
Theorem dispatch_follows_canonical_order (start : pystr) (selected : list pystr) :
  ordered start selected `sublist_of` canonical
  /\ NoDup (ordered start selected)
  /\ (forall s, s ∈ ordered start selected -> s ∈ selected).
Proof.
  assert (Hsub : ordered start selected `sublist_of` canonical).
  { unfold ordered. etransitivity; [apply filter_sublist | apply sublist_drop]. }
  split; [exact Hsub|]. split.
  - eapply sublist_NoDup; [apply canonical_NoDup | exact Hsub].
  - intros s Hs. now apply elem_of_ordered in Hs.
Qed.

(** X2.  The dispatch list only depends on which steps are selected: the
    order in which they were ticked, and a step listed twice, change
    nothing. *)
Theorem dispatch_ignores_selection_order (start : pystr)
    (selected1 selected2 : list pystr) :
  (forall s, s ∈ selected1 <-> s ∈ selected2) ->
  ordered start selected1 = ordered start selected2.
Proof.
  intros Hsame. unfold ordered. apply filter_ext. intros s.
  apply bool_decide_ext, Hsame.
Qed.

Lemma dispatch_ignores_selection_order_witness :
  ordered (str "route_to_comp")
    [str "put_prices"; str "add_services"; str "put_prices"; str "route_to_comp"]
  = ordered (str "route_to_comp")
      [str "add_services"; str "route_to_comp"; str "put_prices"].
Proof.
  apply dispatch_ignores_selection_order. intros s.
  rewrite !elem_of_cons, !elem_of_nil. tauto.
Defined.

(** X3.  A start step of the canonical sequence cuts the pipeline: a step
    is dispatched exactly when it is selected and does not come before the
    start step.  A selected step that comes before it is never run. *)
Theorem steps_before_start_are_not_run (start : pystr) (selected : list pystr)
    (k : nat) (s : pystr) :
  index start canonical = Some k ->
  (s ∈ ordered start selected
   <-> s ∈ selected /\ exists i, (k <= i)%nat /\ canonical !! i = Some s).
Proof.
  intros Hk. rewrite elem_of_ordered, Hk. cbn [default from_option id].
  rewrite (list_elem_of_lookup (drop k canonical)). setoid_rewrite lookup_drop.
  split; intros [Hsel [i Hi]]; (split; [exact Hsel|]).
  - exists (k + i)%nat. split; [lia | exact Hi].
  - destruct Hi as [Hle Hi]. exists (i - k)%nat.
    now replace (k + (i - k))%nat with i by lia.
Qed.

Lemma steps_before_start_are_not_run_witness :
  index (str "create_bill") canonical = Some 2%nat
  /\ (str "add_services" ∉ ordered (str "create_bill") canonical)
  /\ (str "put_prices" ∈ ordered (str "create_bill") canonical).
Proof.
  split; [reflexivity|].
  pose proof (steps_before_start_are_not_run (str "create_bill") canonical 2)
    as Hcut.
  split.
  - intros Hin. apply (Hcut (str "add_services") eq_refl) in Hin.
    destruct Hin as (_ & i & Hle & Hi).
    do 4 (destruct i as [|i]; [first [lia | discriminate Hi]|]).
    discriminate Hi.
  - apply (Hcut (str "put_prices") eq_refl).
    split; [vm_compute; repeat constructor|].
    exists 3%nat. split; [lia | reflexivity].
Defined.

Lemma index_None (x : pystr) (l : list pystr) : index x l = None <-> x ∉ l.
Proof.
  induction l as [|y l IH]; simpl.
  - split; [intros _; apply not_elem_of_nil | reflexivity].
  - rewrite not_elem_of_cons. destruct (bool_decide_reflect (y = x)) as [->|Hne].
    + split; [discriminate | intros [[] _]; reflexivity].
    + destruct (index x l); simpl.
      * split; [discriminate|]. intros [_ Hn]. now apply IH in Hn.
      * split; [|reflexivity]. intros _. split; [congruence | now apply IH].
Qed.

(** X4.  A start step that is not one of the four (the [ValueError] of line
    2416) starts the pipeline at its first step: every selected step is
    dispatched. *)
Theorem unknown_start_runs_every_selected_step (start : pystr)
    (selected : list pystr) :
  start ∉ canonical ->
  ordered start selected = ordered (str "add_services") selected
  /\ (forall s, s ∈ canonical -> s ∈ selected -> s ∈ ordered start selected).
Proof.
  intros Hn. apply index_None in Hn. unfold ordered. rewrite Hn.
  split; [reflexivity|]. intros s Hc Hs.
  apply list_elem_of_In, filter_In. rewrite bool_decide_eq_true.
  split; [now apply list_elem_of_In | exact Hs].
Qed.

Lemma unknown_start_runs_every_selected_step_witness :
  ordered (str "bill") [str "put_prices"; str "create_bill"]
  = ordered (str "add_services") [str "put_prices"; str "create_bill"].
Proof.
  apply (unknown_start_runs_every_selected_step (str "bill")).
  intros Hin. vm_compute in Hin.
  repeat (apply elem_of_cons in Hin as [Hin | Hin]; [discriminate Hin|]).
  now apply elem_of_nil in Hin.
Defined.

(** ** The write-back (update_excel_file, lines 418-461) *)

Lemma truthy_attr_default (v : option pystr) :
  truthy_attr v = true -> Some (default [] v) = v.
Proof. destruct v as [[|c s]|]; simpl; (discriminate || reflexivity). Qed.

Lemma lookup_write_cell (t a : pystr) (v : option pystr)
    (c : gmap (pystr * pystr) pystr) (k : pystr * pystr) :
  write_cell t a v c !! k
  = if bool_decide (k = (t, a)) && truthy_attr v then v else c !! k.
Proof.
  unfold write_cell. destruct (truthy_attr v) eqn:Hv.
  - destruct (bool_decide_reflect (k = (t, a))) as [->|Hne]; simpl.
    + rewrite lookup_insert_eq. now apply truthy_attr_default.
    + apply lookup_insert_ne. congruence.
  - now rewrite andb_false_r.
Qed.

(** What a cell holds after the header has been written. *)
Lemma lookup_write_header (a : automation) (wb : workbook) (k : pystr * pystr) :
  cells (write_header a wb) !! k
  = let t := target_sheet a wb in
    if bool_decide (k = (t, str "B6")) && truthy_attr (reviewed_by a)
    then reviewed_by a
    else if bool_decide (k = (t, str "B5")) then Some (status_cell a)
    else if bool_decide (k = (t, str "B4")) && truthy_attr (bill_batch a)
    then bill_batch a
    else if bool_decide (k = (t, str "B3")) && truthy_attr (wo_description a)
    then wo_description a
    else if bool_decide (k = (t, str "B2")) && truthy_attr (wo_number a)
    then wo_number a
    else cells wb !! k.
Proof.
  unfold write_header. cbn [cells]. cbv zeta.
  rewrite lookup_write_cell.
  destruct (bool_decide (k = (target_sheet a wb, str "B6"))
            && truthy_attr (reviewed_by a)); [reflexivity|].
  destruct (bool_decide_reflect (k = (target_sheet a wb, str "B5"))) as [->|Hne].
  { apply lookup_insert_eq. }
  rewrite lookup_insert_ne by congruence.
  now rewrite !lookup_write_cell.
Qed.

(** X5.  The write-back never raises and never touches the attributes of
    the worker; when it returns [False] the file is as it was; and when the
    working copy can be opened, its sheets and its active sheet stay the
    same and no cell changes other than B2 to B6 of the sheet in hand. *)
Theorem checkpoint_touches_only_the_header (w : world) :
  (exists b, fst (update_excel_file w) = Done b
             /\ (b = false -> excel (snd (update_excel_file w)) = excel w))
  /\ auto (snd (update_excel_file w)) = auto w
  /\ (forall wb, book (excel w) = Some wb ->
        exists wb',
          book (excel (snd (update_excel_file w))) = Some wb'
          /\ sheetnames wb' = sheetnames wb /\ active wb' = active wb
          /\ forall t a,
               t <> target_sheet (auto w) wb \/ a ∉ header_addresses ->
               cells wb' !! (t, a) = cells wb !! (t, a)).
Proof.
  unfold update_excel_file.
  destruct (negb (truthy_attr (working_excel_path (auto w)))).
  { split; [exists false; auto|]. split; [reflexivity|]. intros wb Hb.
    exists wb. auto. }
  destruct (book (excel w)) as [wb|] eqn:Hb.
  2: { split; [exists false; auto|]. split; [reflexivity|]. discriminate. }
  destruct (writable (excel w)).
  2: { split; [exists false; auto|]. split; [reflexivity|].
       intros wb0 [= <-]. exists wb. cbn [add_log excel]. auto. }
  split; [exists true; split; [reflexivity | discriminate]|].
  split; [reflexivity|]. intros wb0 [= <-].
  exists (write_header (auto w) wb). split; [reflexivity|].
  split; [reflexivity|]. split; [reflexivity|].
  intros t a Hta. rewrite lookup_write_header. cbv zeta.
  assert (forall addr, addr ∈ header_addresses ->
            bool_decide ((t, a) = (target_sheet (auto w) wb, addr)) = false)
    as Hno.
  { intros addr Haddr. apply bool_decide_eq_false. intros [= -> ->].
    destruct Hta as [Ht | Ha]; [now apply Ht | now apply Ha]. }
  unfold header_addresses in Hno.
  rewrite !Hno by (rewrite !elem_of_cons; tauto). reflexivity.
Qed.

Lemma checkpoint_touches_only_the_header_witness :
  let w := Demo.at_sheet1 Demo.two_lines in
  exists wb',
    book (excel (snd (update_excel_file w))) = Some wb'
    /\ cells wb' !! (str "Sheet2", str "B5") = None
    /\ cells wb' !! (str "Sheet1", str "B7") = None.
Proof.
  intros w.
  destruct (proj2 (proj2 (checkpoint_touches_only_the_header w))
              {| sheetnames := [str "Sheet1"; str "Sheet2"];
                 active := str "Sheet1"; cells := ∅ |} eq_refl)
    as (wb' & Hb & _ & _ & Hc).
  exists wb'. split; [exact Hb|]. split.
  - rewrite Hc; [reflexivity|]. left. vm_compute. discriminate.
  - rewrite Hc; [reflexivity|]. right. unfold header_addresses.
    rewrite !not_elem_of_cons. vm_compute.
    repeat split; try discriminate. apply not_elem_of_nil.
Defined.

(** X6.  A write-back that can open and save the working copy puts every
    header attribute that is set into its cell (B2 the WO number, B3 the
    description, B4 the bill batch, B6 the reviewer) and leaves the cell of
    an attribute that is [None] or empty as it was: it never erases a
    cell. *)
Theorem checkpoint_writes_set_attributes (w : world) (wb : workbook) :
  truthy_attr (working_excel_path (auto w)) = true ->
  book (excel w) = Some wb -> writable (excel w) = true ->
  exists wb',
    book (excel (snd (update_excel_file w))) = Some wb'
    /\ forall addr attr,
         (addr, attr) ∈ [(str "B2", wo_number (auto w));
                         (str "B3", wo_description (auto w));
                         (str "B4", bill_batch (auto w));
                         (str "B6", reviewed_by (auto w))] ->
         cells wb' !! (target_sheet (auto w) wb, addr)
         = if truthy_attr attr then attr
           else cells wb !! (target_sheet (auto w) wb, addr).
Proof.
  intros Hpath Hbook Hwr. unfold update_excel_file.
  rewrite Hpath, Hbook, Hwr. cbn [negb snd].
  exists (write_header (auto w) wb). split; [reflexivity|].
  intros addr attr Hin. rewrite lookup_write_header. cbv zeta.
  assert (forall x y : pystr,
            x <> y ->
            bool_decide ((target_sheet (auto w) wb, x)
                         = (target_sheet (auto w) wb, y)) = false) as Hne.
  { intros x y Hxy. apply bool_decide_eq_false. congruence. }
  assert (forall x : pystr,
            bool_decide ((target_sheet (auto w) wb, x)
                         = (target_sheet (auto w) wb, x)) = true) as Heq.
  { intros x. now apply bool_decide_eq_true. }
  rewrite !elem_of_cons, elem_of_nil in Hin.
  destruct Hin as [[= -> ->] | [[= -> ->] | [[= -> ->] | [[= -> ->] | []]]]];
    rewrite ?Heq, ?Hne by discriminate; cbn [andb];
    repeat match goal with
           | |- context [truthy_attr ?v] => destruct (truthy_attr v)
           end; reflexivity.
Qed.

Lemma checkpoint_writes_set_attributes_witness :
  let w := Demo.at_sheet1 Demo.two_lines in
  exists wb',
    book (excel (snd (update_excel_file w))) = Some wb'
    /\ cells wb' !! (str "Sheet1", str "B2") = Some (str "1001")
    /\ cells wb' !! (str "Sheet1", str "B3") = None.
Proof.
  intros w.
  destruct (checkpoint_writes_set_attributes w
              {| sheetnames := [str "Sheet1"; str "Sheet2"];
                 active := str "Sheet1"; cells := ∅ |}
              eq_refl eq_refl eq_refl) as (wb' & Hb & Hc).
  exists wb'. split; [exact Hb|]. split.
  - apply (Hc (str "B2") (Some (str "1001"))). left.
  - apply (Hc (str "B3") None). right. left.
Defined.

Lemma write_header_twice (a : automation) (wb : workbook) :
  write_header a (write_header a wb) = write_header a wb.
Proof.
  assert (Ht : target_sheet a (write_header a wb) = target_sheet a wb)
    by reflexivity.
  assert (Hc : cells (write_header a (write_header a wb))
               = cells (write_header a wb)).
  { apply map_eq. intros k. rewrite (lookup_write_header a (write_header a wb)).
    rewrite Ht. cbv zeta. rewrite (lookup_write_header a wb). cbv zeta.
    repeat match goal with
           | |- context [if ?b then _ else _] => destruct b
           end; reflexivity. }
  unfold write_header at 1. unfold write_header in Hc at 1.
  cbn [cells] in Hc. rewrite Hc. reflexivity.
Qed.

(** X7.  Writing back twice with the same attributes leaves the file as
    the first write-back left it (the create_bill step and the end of the
    sheet both write back). *)
Theorem checkpoint_twice_is_once (w : world) :
  excel (snd (update_excel_file (snd (update_excel_file w))))
  = excel (snd (update_excel_file w)).
Proof.
  unfold update_excel_file at 2 3.
  destruct (negb (truthy_attr (working_excel_path (auto w)))) eqn:Hp.
  { cbn [snd]. unfold update_excel_file. now rewrite Hp. }
  destruct (book (excel w)) as [wb|] eqn:Hb.
  2: { cbn [snd]. unfold update_excel_file. cbn [add_log auto excel].
       now rewrite Hp, Hb. }
  destruct (writable (excel w)) eqn:Hw.
  2: { cbn [snd]. unfold update_excel_file. cbn [add_log auto excel].
       now rewrite Hp, Hb, Hw. }
  cbn [snd]. unfold update_excel_file.
  cbn [add_log set_excel auto excel book writable]. rewrite Hp.
  cbn [snd add_log set_excel excel]. now rewrite write_header_twice.
Qed.

(** ** The price map of enter_services_prices (lines 478-484) *)

Lemma build_price_map_app (rows1 rows2 : list service_row)
    (m : gmap pystr pyval) :
  build_price_map (rows1 ++ rows2) m
  = build_price_map rows1 m ≫= build_price_map rows2.
Proof.
  revert m. induction rows1 as [|r rows1 IH]; intros m; [reflexivity|].
  cbn [app build_price_map].
  destruct (Service_Item r) as [item|]; [|reflexivity].
  destruct (Total_Price r) as [total|]; [|reflexivity]. apply IH.
Qed.

(** Rows of other items leave the entry of an item code alone. *)
Lemma build_price_map_other (rows : list service_row) (code : pystr)
    (m m' : gmap pystr pyval) :
  (forall r, r ∈ rows -> Service_Item r <> Some (VStr code)) ->
  build_price_map rows m = Some m' -> m' !! code = m !! code.
Proof.
  revert m. induction rows as [|r rows IH]; intros m Hno Hb.
  - injection Hb as <-. reflexivity.
  - cbn [build_price_map] in Hb.
    assert (Hr : Service_Item r <> Some (VStr code)) by (apply Hno; left).
    assert (Hrows : forall r', r' ∈ rows -> Service_Item r' <> Some (VStr code))
      by (intros r' Hr'; apply Hno; now right).
    destruct (Service_Item r) as [item|]; [|discriminate].
    destruct (Total_Price r) as [total|]; [|discriminate].
    rewrite (IH _ Hrows Hb).
    destruct item as [| | |q|[|c s]]; try reflexivity;
      destruct total; try reflexivity;
      apply lookup_insert_ne; congruence.
Qed.

Lemma build_price_map_last (rows1 rows2 : list service_row)
    (r : service_row) (code : pystr) (total : pyval)
    (m m' : gmap pystr pyval) :
  Service_Item r = Some (VStr code) -> code <> [] ->
  Total_Price r = Some total -> total <> VNone ->
  (forall r', r' ∈ rows2 -> Service_Item r' <> Some (VStr code)) ->
  build_price_map (rows1 ++ r :: rows2) m = Some m' ->
  m' !! code = Some total.
Proof.
  intros Hitem Hcode Htotal Hnone Hlater Hb.
  rewrite build_price_map_app in Hb.
  destruct (build_price_map rows1 m) as [m1|]; [|discriminate].
  cbn [mbind option_bind] in Hb. cbn [build_price_map] in Hb.
  rewrite Hitem, Htotal in Hb.
  rewrite (build_price_map_other _ _ _ _ Hlater Hb).
  destruct code as [|c s]; [congruence|].
  destruct total; try congruence; apply lookup_insert_eq.
Qed.

(** X8.  When an item code stands in several rows of the sheet, the price
    synchronised is the Total Price of the last of them: a later row
    replaces the entry of an earlier one. *)
Theorem last_row_sets_the_price (rows1 rows2 : list service_row)
    (r : service_row) (code : pystr) (total : pyval)
    (m m' : gmap pystr pyval) :
  Service_Item r = Some (VStr code) -> code <> [] ->
  Total_Price r = Some total -> total <> VNone ->
  (forall r', r' ∈ rows2 -> Service_Item r' <> Some (VStr code)) ->
  build_price_map (rows1 ++ r :: rows2) m = Some m' ->
  m' !! code = Some total.
Proof. apply build_price_map_last. Qed.

Lemma last_row_sets_the_price_witness :
  exists m,
    build_price_map [Demo.line "IS1" 2 10; Demo.line "IS2" 1 7;
                     Demo.line "IS1" 3 15] ∅ = Some m
    /\ m !! str "IS1" = Some (VInt 15).
Proof.
  eexists. split; [reflexivity|].
  apply (last_row_sets_the_price
           [Demo.line "IS1" 2 10; Demo.line "IS2" 1 7] []
           (Demo.line "IS1" 3 15) (str "IS1") (VInt 15) ∅);
    try reflexivity; try discriminate.
  intros r' Hr'. now apply elem_of_nil in Hr'.
Defined.



(** ** The retry loops of add_single_service (lines 1230, 1361, 1472, 1593) *)

Lemma first_success_from (ok : nat -> bool) (budget i j : nat) :
  first_success ok budget i = Some j -> (i <= j)%nat.
Proof.
  revert i. induction budget as [|budget IH]; intros i; simpl; [discriminate|].
  destruct (ok i); [intros [= <-]; lia|].
  intros Hj. apply IH in Hj. lia.
Qed.

(** X10.  A retry loop makes its attempts in order, stops at the first one
    that succeeds and makes no attempt after it; when none of the attempts
    of its budget succeeds it has made them all and raises its error. *)
Theorem retry_stops_at_first_success (E : env) (c : nat -> browser_call)
    (ok : nat -> bool) (msg : string) (budget i : nat) (w : world) :
  paused (auto w) = false ->
  let r := attempts E budget i (fun k => call (c k) ;;; ret (ok k)) msg w in
  match first_success ok budget i with
  | Some j =>
      fst r = Done tt
      /\ log (snd r) = log w ++ map (fun k => Browser (c k)) (seq i (S j - i))
  | None =>
      fst r = Raised (Exception (str msg))
      /\ log (snd r) = log w ++ map (fun k => Browser (c k)) (seq i budget)
  end.
Proof.
  revert i w. induction budget as [|budget IH]; intros i w Hp; cbv zeta.
  { simpl. now rewrite app_nil_r. }
  cbn [attempts first_success].
  rewrite (bind_done _ _ _ _ _ (check_pause_not_paused E w Hp)).
  destruct (yield_same E w) as [Ha Hl].
  revert Ha Hl. generalize (snd (yield E w)). intros w1 Ha Hl.
  rewrite (bind_done _ _ w1 (ok i) (add_log (Browser (c i)) w1) eq_refl).
  destruct (ok i).
  - replace (S i - i)%nat with 1%nat by lia. cbn. now rewrite Hl.
  - assert (Hp2 : paused (auto (add_log (Browser (c i)) w1)) = false)
      by (cbn; congruence).
    specialize (IH (S i) _ Hp2). cbv zeta in IH.
    destruct (first_success ok budget (S i)) as [j|] eqn:Hj.
    + destruct IH as [-> ->]. split; [reflexivity|].
      apply first_success_from in Hj.
      replace (S j - i)%nat with (S (S j - S i)) by lia.
      cbn [seq map add_log log]. now rewrite Hl, <- app_assoc.
    + destruct IH as [-> ->]. split; [reflexivity|].
      cbn [seq map add_log log]. now rewrite Hl, <- app_assoc.
Qed.

Lemma retry_stops_at_first_success_witness :
  let E := Demo.one_sheet Demo.quiet Demo.login_ok Demo.job_ok Demo.two_lines in
  let w := Demo.at_sheet1 Demo.two_lines in
  let r := attempts E 5 0
             (fun k => call (Select_result 8 k) ;;; ret (2 <=? k)%nat)
             "Failed to select service checkbox" w in
  fst r = Done tt
  /\ log (snd r)
     = [Browser (Select_result 8 0); Browser (Select_result 8 1);
        Browser (Select_result 8 2)].
Proof.
  intros E w.
  exact (retry_stops_at_first_success E (Select_result 8)
           (fun k => (2 <=? k)%nat) "Failed to select service checkbox"
           5 0 w eq_refl).
Defined.

(** ** The quantity of a service line (lines 1564-1621) *)

(** X11.  A line whose quantity converts to the float 1 is added with the
    quantity the page proposes: from the first call to the last,
    [add_single_service] makes no input into the quantity field. *)
Theorem default_quantity_is_not_typed `{FloatText} (E : env)
    (service : service_dict) (row : nat) (q : Q) (w : world) (evs : list event) :
  py_float (d_quantity service) = Some (Some q) -> (q == 1)%Q ->
  log (snd (add_single_service E service row w)) = log w ++ evs ->
  Forall not_a_quantity_input evs.
Proof.
  intros Hq H1 Hl.
  assert (Hs : spec (fun _ => True) not_a_quantity_input
                 (add_single_service E service row)).
  { pose proof (stable_any E) as HI.
    unfold add_single_service, add_single_service_body.
    rewrite Hq, (proj2 (Qeq_bool_iff q 1) H1).
    repeat first [apply (spec_check_timeout E _ HI) | spec_step]. }
  destruct (Hs w Logic.I) as (evs' & Hl' & Hev & _).
  rewrite Hl in Hl'. apply app_inv_head in Hl'. now subst.
Qed.

Lemma default_quantity_is_not_typed_witness :
  let E := Demo.one_sheet Demo.quiet Demo.login_ok Demo.job_ok Demo.two_lines in
  let w := Demo.at_sheet1 Demo.two_lines in
  Forall not_a_quantity_input
    (log (snd (@add_single_service Demo.whole_float_text E
                 (to_dict (Demo.line "IS2" 1 7)) 9 w))).
Proof.
  intros E w.
  apply (@default_quantity_is_not_typed Demo.whole_float_text E
           (to_dict (Demo.line "IS2" 1 7)) 9 1%Q w); reflexivity.
Defined.

(** ** Creating the bill (create_customer_bill, lines 1888-1996) *)

Lemma bind_must {B} (ok : bool) (msg : string) (k : unit -> M B) (w : world) :
  bind (must ok msg) k w
  = if ok then k tt w else (Raised (Exception (str msg)), w).
Proof. now destruct ok. Qed.

Lemma bind_ret {A B} (a : A) (k : A -> M B) (w : world) :
  bind (ret a) k w = k a w.
Proof. reflexivity. Qed.

Lemma bind_raise {A B} (msg : pystr) (k : A -> M B) (w : world) :
  bind (raise msg) k w = (Raised (Exception msg), w).
Proof. reflexivity. Qed.

Lemma bind_modify {B} (f : automation -> automation) (k : unit -> M B)
    (w : world) :
  bind (modify f) k w = k tt (set_auto f w).
Proof. reflexivity. Qed.

(** A run that ended in [w1] with the events [l] logged did not log [e]
    when [e] is not among them. *)
Lemma not_logged {A} (e : event) (w w1 : world) (r : result A)
    (l evs : list event) :
  log w1 = log w ++ l -> e ∉ l -> log (snd (r, w1)) = log w ++ evs -> e ∉ evs.
Proof.
  intros Hw1 Hl Hevs. cbn [snd] in Hevs. rewrite Hw1 in Hevs.
  apply app_inv_head in Hevs. now subst l.
Qed.

(** [e] is none of the events listed. *)
Ltac not_in :=
  let H := fresh in
  intros H; repeat (apply elem_of_cons in H as [H | H]; [discriminate H|]);
  now apply elem_of_nil in H.

(** The run stopped after logging [l], which does not hold the event. *)
Ltac stopped_after Hin l :=
  let Hl := fresh in
  intros Hl; exfalso; cbv [raise] in Hl;
  refine (not_logged _ _ _ _ l _ _ _ Hl Hin);
  [cbn [log add_log set_auto]; rewrite <- ?app_assoc; reflexivity | not_in].

(** X12.  The bill description is only filled in after the batch number
    has been read from the form: when [create_customer_bill] has typed a
    bill name, the [bill_batch] attribute holds the stripped text of the
    batch field (its input value, or the value read through JavaScript),
    and the name typed is the one computed from the attributes the method
    was entered with. *)
Theorem bill_is_named_after_its_batch_is_read (E : env) (w : world)
    (evs : list event) (name : pystr) :
  log (snd (create_customer_bill E w)) = log w ++ evs ->
  Browser (Fill_bill_name name) ∈ evs ->
  let b := bill (jobs E (default [] (current_sheet (auto w)))) in
  (exists v, (v = batch_input_value b \/ v = batch_js_value b) /\ v <> []
             /\ bill_batch (auto (snd (create_customer_bill E w)))
                = Some (strip v))
  /\ name = bill_name (wo_description (auto w))
              (excel_original_description (auto w))
              (default (str "None") (wo_number (auto w)))
              (fst (today E)) (snd (today E)).
Proof.
  intros Hl Hin b. revert Hl.
  unfold create_customer_bill, job, call.
  rewrite bind_emit, bind_get. cbn [add_log auto]. fold b.
  rewrite bind_must. destruct (bill_page_ready b).
  2: stopped_after Hin [Enter M_create_customer_bill].
  rewrite bind_emit, bind_must.
  destruct (action_input_visible b || action_dropdown_visible b).
  2: stopped_after Hin [Enter M_create_customer_bill; Browser Open_action_menu].
  destruct (first_success (create_option_visible b) 5 0) as [k|].
  2: stopped_after Hin [Enter M_create_customer_bill; Browser Open_action_menu].
  rewrite bind_emit.
  set (pre := [Enter M_create_customer_bill; Browser Open_action_menu;
               Browser (Click_create_bill k)]).
  match goal with
  | |- context [bind (if batch_field_visible b then ?x else ?y) _] =>
      set (step := if batch_field_visible b then x else y)
  end.
  assert (Hstep : (exists v, (v = batch_input_value b \/ v = batch_js_value b)
                             /\ v <> []
                             /\ step = modify (set_bill_batch (strip v)))
                  \/ exists msg, step = raise msg).
  { subst step. destruct (batch_field_visible b); [|right; now eexists].
    destruct (bool_decide_reflect (batch_input_value b = [])) as [Hv|Hv];
      cbn [negb andb].
    - destruct (bool_decide_reflect (batch_js_value b = [])) as [Hj|Hj];
        cbn [negb]; [right; now eexists|].
      left. exists (batch_js_value b). auto.
    - destruct (negb (bool_decide (strip (batch_input_value b) = []))).
      + left. exists (batch_input_value b). auto.
      + destruct (bool_decide_reflect (batch_js_value b = [])) as [Hj|Hj];
          cbn [negb]; [right; now eexists|].
        left. exists (batch_js_value b). auto. }
  clearbody step. destruct Hstep as [(v & Hv & Hv0 & ->) | [msg ->]].
  2: { rewrite bind_raise. stopped_after Hin pre. }
  rewrite bind_modify, !bind_get.
  cbn [set_auto auto set_bill_batch wo_description
       excel_original_description wo_number].
  destruct (name_field_visible b).
  2: stopped_after Hin pre.
  rewrite !bind_emit.
  assert (exists r, must (bill_ok_clicked b)
                      "Could not find or click OK button with any method"
                    = fun w0 => (r, w0)) as [r ->].
  { destruct (bill_ok_clicked b); eexists; reflexivity. }
  cbn [snd log add_log set_auto auto bill_batch set_bill_batch].
  rewrite <- !app_assoc. intros Hl. apply app_inv_head in Hl. subst evs.
  split; [now exists v|].
  revert Hin. unfold pre. cbn [app].
  rewrite !elem_of_cons, elem_of_nil.
  intros [Hin|[Hin|[Hin|[Hin|[Hin|[]]]]]]; try discriminate Hin.
  now injection Hin as ->.
Qed.

Lemma bill_is_named_after_its_batch_is_read_witness :
  let E := Demo.one_sheet Demo.quiet Demo.login_ok Demo.job_ok Demo.two_lines in
  let w := Demo.at_sheet1 Demo.two_lines in
  bill_batch (auto (snd (create_customer_bill E w))) = Some (str "7001")
  /\ Browser (Fill_bill_name (str "WO-1001-1001-MJAN25"))
     ∈ log (snd (create_customer_bill E w)).
Proof.
  intros E w.
  assert (Hin : Browser (Fill_bill_name (str "WO-1001-1001-MJAN25"))
                ∈ log (snd (create_customer_bill E w))).
  { vm_compute. do 3 right. left. }
  split; [|exact Hin].
  destruct (bill_is_named_after_its_batch_is_read E w _ _ eq_refl Hin)
    as [(v & Hv & _ & Hb) _].
  rewrite Hb. destruct Hv as [-> | ->]; [reflexivity|].
  exfalso. vm_compute in Hb. discriminate Hb.
Defined.

(** [create_customer_bill] changes nothing but the log and the batch
    attribute. *)
Lemma create_customer_bill_keeps (E : env) (w : world) :
  let w1 := snd (create_customer_bill E w) in
  excel w1 = excel w
  /\ (auto w1 = auto w \/ exists v, auto w1 = set_bill_batch v (auto w)).
Proof.
  cbv zeta. unfold create_customer_bill, job, call.
  rewrite bind_emit, bind_get. cbn [add_log auto].
  set (b := bill (jobs E (default [] (current_sheet (auto w))))).
  rewrite bind_must. destruct (bill_page_ready b); [|cbn; auto].
  rewrite bind_emit, bind_must.
  destruct (action_input_visible b || action_dropdown_visible b); [|cbn; auto].
  destruct (first_success (create_option_visible b) 5 0) as [k|]; [|cbn; auto].
  rewrite bind_emit.
  match goal with
  | |- context [bind (if batch_field_visible b then ?x else ?y) _] =>
      set (step := if batch_field_visible b then x else y)
  end.
  assert (Hstep : (exists v, step = modify (set_bill_batch v))
                  \/ exists msg, step = raise msg).
  { subst step.
    repeat match goal with
           | |- context [if ?c then _ else _] => destruct c
           end; eauto. }
  clearbody step. destruct Hstep as [[v ->] | [msg ->]];
    [|rewrite bind_raise; cbn; auto].
  rewrite bind_modify, !bind_get.
  destruct (name_field_visible b); [|cbn; eauto].
  rewrite !bind_emit.
  destruct (bill_ok_clicked b); cbn; eauto.
Qed.

(** X13.  The batch number of a bill reaches the Excel file as soon as
    the bill is created: when [create_customer_bill] has returned with a
    batch number that is not empty and the working copy can be opened and
    saved, the create_bill step of the pipeline ends normally with that
    number in B4 of the sheet, before any later step runs. *)
Theorem created_bill_batch_is_saved_at_once `{FloatText} (E : env) (w : world)
    (wb : workbook) (batch : pystr) :
  fst (create_customer_bill E w) = Done tt ->
  bill_batch (auto (snd (create_customer_bill E w))) = Some batch ->
  batch <> [] ->
  truthy_attr (working_excel_path (auto w)) = true ->
  book (excel w) = Some wb -> writable (excel w) = true ->
  let w' := snd (run_step E (str "create_bill") w) in
  fst (run_step E (str "create_bill") w) = Done tt
  /\ exists wb',
       book (excel w') = Some wb'
       /\ cells wb' !! (target_sheet (auto w) wb, str "B4") = Some batch.
Proof.
  intros Hdone Hbatch Hne Hpath Hbook Hwr. cbv zeta.
  change (run_step E (str "create_bill") w)
    with (bind (create_customer_bill E)
            (fun _ => try_except save_bill_info (fun _ => ret tt)) w).
  destruct (create_customer_bill_keeps E w) as [Hx Ha]. cbv zeta in Hx, Ha.
  unfold bind at 1 2.
  destruct (create_customer_bill E w) as [[[]|e|] w1]; try discriminate Hdone.
  cbn [snd] in Hbatch, Hx, Ha.
  assert (Hsheet : current_sheet (auto w1) = current_sheet (auto w))
    by (destruct Ha as [-> | [v ->]]; reflexivity).
  assert (Hpath1 : working_excel_path (auto w1) = working_excel_path (auto w))
    by (destruct Ha as [-> | [v ->]]; reflexivity).
  clear Ha.
  unfold try_except, save_bill_info. rewrite bind_get, Hbatch.
  destruct batch as [|c s]; [congruence|]. cbn [truthy_attr negb].
  rewrite !bind_get.
  match goal with
  | |- context [bind (if ?c then modify ?f else ret tt)] =>
      assert (exists w2, (if c then modify f else ret tt) w1 = (Done tt, w2)
                /\ excel w2 = excel w1
                /\ current_sheet (auto w2) = current_sheet (auto w1)
                /\ working_excel_path (auto w2) = working_excel_path (auto w1)
                /\ bill_batch (auto w2) = bill_batch (auto w1))
        as (w2 & Hw2 & Hx2 & Hs2 & Hp2 & Hb2)
        by (destruct c; eexists; (split; [reflexivity|]); cbn; auto)
  end.
  rewrite (bind_done _ _ _ _ _ Hw2).
  unfold update_excel_file, bind.
  rewrite Hp2, Hpath1, Hpath, Hx2, Hx, Hbook, Hwr. cbn [negb fst snd].
  split; [reflexivity|]. eexists. split; [reflexivity|].
  rewrite lookup_write_header. cbv zeta.
  assert (Ht : target_sheet (auto w2) wb = target_sheet (auto w) wb)
    by (unfold target_sheet; now rewrite Hs2, Hsheet).
  rewrite Ht, Hb2, Hbatch.
  rewrite (bool_decide_eq_false_2 (_ = (_, str "B6"))) by (intros [=]).
  rewrite (bool_decide_eq_false_2 (_ = (_, str "B5"))) by (intros [=]).
  rewrite (bool_decide_eq_true_2 (_ = (_, str "B4"))) by reflexivity.
  reflexivity.
Qed.


Lemma created_bill_batch_is_saved_at_once_witness :
  let E := Demo.one_sheet Demo.quiet Demo.login_ok Demo.job_ok Demo.two_lines in
  let w := Demo.at_sheet1 Demo.two_lines in
  exists wb',
    book (excel (snd (@run_step Demo.whole_float_text E (str "create_bill") w)))
    = Some wb'
    /\ cells wb' !! (str "Sheet1", str "B4") = Some (str "7001").
Proof.
  intros E w.
  assert (Hne : str "7001" <> []) by discriminate.
  destruct (@created_bill_batch_is_saved_at_once Demo.whole_float_text E w
              {| sheetnames := [str "Sheet1"; str "Sheet2"];
                 active := str "Sheet1"; cells := ∅ |} (str "7001")
              eq_refl eq_refl Hne eq_refl eq_refl eq_refl)
    as [_ (wb' & Hb & Hc)].
  exists wb'. split; [exact Hb | exact Hc].
Defined.

(** X14.  A batch field that holds nothing but white space does not stop
    the bill.  The JavaScript fallback of line 1945 only asks for a text
    that is not empty and strips it afterwards, so the attribute becomes
    the empty text; the bill is named and confirmed all the same, and
    [save_bill_info] then returns without writing: the step ends normally
    with a bill created and the Excel file as it was. *)
Theorem blank_batch_is_not_recorded `{FloatText} (E : env) (w : world) (k : nat) :
  let b := bill (jobs E (default [] (current_sheet (auto w)))) in
  bill_page_ready b = true ->
  action_input_visible b || action_dropdown_visible b = true ->
  first_success (create_option_visible b) 5 0 = Some k ->
  batch_field_visible b = true ->
  blank (batch_input_value b) ->
  batch_js_value b <> [] -> blank (batch_js_value b) ->
  name_field_visible b = true -> bill_ok_clicked b = true ->
  let r := run_step E (str "create_bill") w in
  fst r = Done tt
  /\ Browser Confirm_bill ∈ log (snd r)
  /\ bill_batch (auto (snd r)) = Some []
  /\ excel (snd r) = excel w.
Proof.
  intros b Hready Hmenu Hk Hfield Hin Hjs0 Hjs Hname Hok. cbv zeta.
  change (run_step E (str "create_bill") w)
    with (bind (create_customer_bill E)
            (fun _ => try_except save_bill_info (fun _ => ret tt)) w).
  unfold create_customer_bill, job, call.
  rewrite !(bind_done (bind _ _) _ w tt
             (add_log (Browser Confirm_bill)
                (add_log (Browser
                   (Fill_bill_name
                      (bill_name (wo_description (auto w))
                         (excel_original_description (auto w))
                         (default (str "None") (wo_number (auto w)))
                         (fst (today E)) (snd (today E)))))
                   (set_auto (set_bill_batch [])
                      (add_log (Browser (Click_create_bill k))
                         (add_log (Browser Open_action_menu)
                            (add_log (Enter M_create_customer_bill) w))))))).
  - cbn. split; [reflexivity|]. split; [|auto].
    apply elem_of_app. right. left.
  - rewrite bind_emit, bind_get. cbn [add_log auto]. fold b.
    rewrite bind_must, Hready, bind_emit, bind_must, Hmenu, Hk, bind_emit.
    rewrite Hfield.
    rewrite (bool_decide_eq_true_2 (strip (batch_input_value b) = []))
      by (now apply strip_nil_iff).
    rewrite andb_false_r, (bool_decide_eq_false_2 _ Hjs0). cbn [negb].
    rewrite (proj2 (strip_nil_iff _) Hjs).
    rewrite bind_modify, !bind_get, Hname, !bind_emit, Hok. reflexivity.
Qed.


Lemma blank_batch_is_not_recorded_witness :
  let E := Demo.one_sheet Demo.quiet Demo.login_ok Cases.job_blank_batch
             Demo.two_lines in
  let r := @run_step Demo.whole_float_text E (str "create_bill")
             (Demo.at_sheet1 Demo.two_lines) in
  fst r = Done tt
  /\ Browser Confirm_bill ∈ log (snd r)
  /\ bill_batch (auto (snd r)) = Some []
  /\ excel (snd r) = Demo.book_two_sheets.
Proof.
  intros E.
  assert (Hblank : blank (str "  ")).
  { intros c Hc.
    repeat (apply elem_of_cons in Hc as [-> | Hc]; [reflexivity|]).
    now apply elem_of_nil in Hc. }
  assert (Hne : str "  " <> []) by discriminate.
  exact (@blank_batch_is_not_recorded Demo.whole_float_text E
           (Demo.at_sheet1 Demo.two_lines) 0
           eq_refl eq_refl eq_refl eq_refl Hblank Hne Hblank eq_refl eq_refl).
Defined.

(** ** Stop requests and the routing of the work order *)

(** Nothing the interactive thread does clears a stop request. *)
Lemma ui_keeps_stop (l : list ui_action) (w : world) :
  stop_event w = true -> stop_event (foldl ui_step w l) = true.
Proof.
  revert w. induction l as [|a l IH]; intros w Hw; [exact Hw|].
  simpl. apply IH. now destruct a.
Qed.

Lemma yield_keeps_stop (E : env) (w : world) :
  stop_event w = true -> stop_event (snd (yield E w)) = true.
Proof. intros Hw. unfold yield. cbn. now apply ui_keeps_stop. Qed.

Lemma ui_sets_stop (l : list ui_action) (w : world) :
  On_stop ∈ l -> stop_event (foldl ui_step w l) = true.
Proof.
  revert w. induction l as [|a l IH]; intros w Hin.
  - now apply elem_of_nil in Hin.
  - apply elem_of_cons in Hin as [<- | Hin]; simpl.
    + now apply ui_keeps_stop.
    + now apply IH.
Qed.

(** A stop request pressed before a read of the flag is seen by it. *)
Lemma yield_sees_stop (E : env) (w : world) :
  stop_event w = true \/ On_stop ∈ ui_schedule E (ticks w) ->
  stop_event (snd (yield E w)) = true.
Proof.
  intros [Hw | Hin]; [now apply yield_keeps_stop|].
  unfold yield. cbn. now apply ui_sets_stop.
Qed.

Section Routing.
Context `{FloatText} (E : env).



(** The log only grows. *)
Lemma log_grows {A} (P : event -> Prop) (m : M A) (w : world) :
  spec (fun _ => True) P m ->
  exists evs, log (snd (m w)) = log w ++ evs /\ Forall P evs.
Proof.
  intros Hm. destruct (Hm w Logic.I) as (evs & Hl & Hev & _). now exists evs.
Qed.




End Routing.



(** ** Stop requests and the sheets *)

Section Stop_and_sheets.
Context `{FloatText} (E : env).

Lemma yield_excel (w : world) : excel (snd (yield E w)) = excel w.
Proof.
  unfold yield. cbn [snd tick excel]. generalize (ui_schedule E (ticks w)).
  intros l. revert w. induction l as [|a l IH]; intros w; [reflexivity|].
  simpl. rewrite IH. now destruct a.
Qed.

(** X17.  A stop request that is there when the worker makes its early
    check ends the run before anything is opened: no browser page, no
    login, no sheet; the run only reports that it stopped, releases what
    it holds, and leaves the Excel file as it was. *)
Theorem stop_before_browser_opens_nothing (p : params) (w : world) :
  truthy_attr (excel_path p) = true ->
  stop_event w = true \/ On_stop ∈ ui_schedule E (ticks w) ->
  fst (run_automation E p w) = Done tt
  /\ log (snd (run_automation E p w))
     = log w ++ [Progress 0 1; Status Initializing;
                 Status Stopped_before_browser; Controls_enabled;
                 Browser Close_browser; Controls_enabled]
  /\ excel (snd (run_automation E p w)) = excel w.
Proof.
  intros Hpath Hstop.
  set (w1 := set_auto (fun _ => new_automation p)
               (add_log (Status Initializing) (add_log (Progress 0 1) w))).
  assert (Hs : stop_event (snd (yield E w1)) = true)
    by (apply yield_sees_stop; exact Hstop).
  assert (Hbody : run_body E p w
                  = (Done tt, add_log Controls_enabled
                                (add_log (Status Stopped_before_browser)
                                   (snd (yield E w1))))).
  { unfold run_body. rewrite !bind_emit, Hpath. cbn [negb].
    rewrite bind_modify, bind_stop_is_set. fold w1. rewrite Hs.
    unfold enable_controls. now rewrite bind_emit. }
  unfold run_automation, try_finally, try_except. rewrite Hbody.
  unfold close_browser, call, enable_controls. rewrite bind_emit.
  cbn [fst snd emit log add_log excel].
  destruct (yield_same E w1) as [_ Hl]. rewrite Hl.
  split; [reflexivity|]. split.
  - subst w1. cbn [log set_auto add_log]. now rewrite <- !app_assoc.
  - now rewrite yield_excel.
Qed.

Lemma bind_assoc {A B C} (m : M A) (k : A -> M B) (h : B -> M C) (w : world) :
  bind (bind m k) h w = bind m (fun a => bind (k a) h) w.
Proof. unfold bind. now destruct (m w) as [[a | e |] w1]. Qed.

Lemma parse_sheet_keeps (sheet : pystr) (a : automation) :
  working_excel_path (parse_sheet E sheet a) = working_excel_path a
  /\ current_sheet (parse_sheet E sheet a) = Some sheet
  /\ paused (parse_sheet E sheet a) = paused a.
Proof. unfold parse_sheet. now destruct (frames E sheet). Qed.

(** X18.  A stop request seen at the head of the step loop of a sheet
    ends the steps, not the write-back: the work order has been looked up,
    no step is entered, and the sheet is still written back (B5 receives
    its status, [CREATED] when the sheet gave none) and reported as
    processed. *)
Theorem stop_inside_sheet_still_writes_back (p : params) (idx total : nat)
    (sheet wo : pystr) (w : world) (wb : workbook) :
  let a := parse_sheet E sheet (auto w) in
  wo_number a = Some wo -> wo <> [] ->
  search_wo_ok (jobs E sheet) = true ->
  ordered (start_at p) (selected_steps p) <> [] ->
  stop_event w = true \/ On_stop ∈ ui_schedule E (ticks w) ->
  truthy_attr (working_excel_path (auto w)) = true ->
  book (excel w) = Some wb -> writable (excel w) = true ->
  fst (process_sheet E p true idx total sheet w) = Done tt
  /\ log (snd (process_sheet E p true idx total sheet w))
     = log w ++ [Status (Processing_sheet idx total sheet);
                 Browser (Search_work_order wo);
                 Status Stop_exiting_sheet;
                 Excel_saved (target_sheet a wb) (status_cell a);
                 Status Excel_updated;
                 Sheet_processed sheet; Progress idx total].
Proof.
  intros a Hwo Hne Hsearch Hsteps Hstop Hpath Hbook Hwr.
  destruct (parse_sheet_keeps sheet (auto w)) as (Hp & Hc & _). fold a in Hp, Hc.
  unfold process_sheet. rewrite bind_modify, bind_emit, bind_get.
  cbn [add_log set_auto auto]. fold a. rewrite Hwo.
  destruct wo as [|c s]; [congruence|]. cbn [truthy_attr negb].
  set (w1 := add_log (Status (Processing_sheet idx total sheet))
               (set_auto (parse_sheet E sheet) w)).
  unfold search_work_order, job, call.
  rewrite ?bind_assoc, bind_get. cbn [auto add_log set_auto]. fold a.
  rewrite (Hc : current_sheet (auto w1) = Some sheet).
  cbn [default from_option id]. rewrite ?bind_assoc, bind_emit.
  rewrite ?bind_assoc, bind_must, Hsearch.
  destruct (ordered (start_at p) (selected_steps p)) as [|step steps];
    [congruence|].
  cbn [run_steps]. rewrite ?bind_assoc, bind_stop_is_set.
  set (w2 := add_log (Browser (Search_work_order (c :: s))) w1).
  assert (Hs : stop_event (snd (yield E w2)) = true)
    by (apply yield_sees_stop; exact Hstop).
  rewrite Hs, bind_emit.
  destruct (yield_same E w2) as [Ha Hl].
  pose proof (yield_excel w2) as Hx.
  revert Ha Hl Hx. generalize (snd (yield E w2)). intros w3 Ha Hl Hx.
  unfold update_excel_file, bind. cbn [auto add_log excel].
  rewrite Ha, Hx. subst w2 w1. cbn [auto add_log set_auto excel]. fold a.
  rewrite Hp, Hpath, Hbook, Hwr. cbn [negb fst snd emit log add_log set_excel].
  split; [reflexivity|]. rewrite Hl. cbn [log add_log set_auto].
  now rewrite <- !app_assoc.
Qed.

(** X19.  A sheet whose cell B2 is empty, or holds only white space, is
    passed over: the run reports the missing WO number and the progress,
    makes no browser call for it and does not write the file. *)
Theorem sheet_without_wo_number_is_skipped (p : params) (page : bool)
    (idx total : nat) (sheet : pystr) (w : world) (v : pyval)
    (cells : list pyval) (services : option (list service_row)) :
  frames E sheet = Frame (v :: cells) services ->
  isna v = true \/ blank (py_str v) ->
  fst (process_sheet E p page idx total sheet w) = Done tt
  /\ log (snd (process_sheet E p page idx total sheet w))
     = log w ++ [Status (Processing_sheet idx total sheet);
                 Missing_wo sheet; Progress idx total]
  /\ excel (snd (process_sheet E p page idx total sheet w)) = excel w.
Proof.
  intros Hframe Hv.
  assert (Hwo : truthy_attr (wo_number (parse_sheet E sheet (auto w))) = false).
  { unfold parse_sheet. rewrite Hframe. cbn [wo_number lookup list_lookup].
    unfold header_field. destruct Hv as [-> | Hv]; [reflexivity|].
    destruct (isna v); [reflexivity|].
    now rewrite (proj2 (strip_nil_iff _) Hv). }
  unfold process_sheet. rewrite bind_modify, bind_emit, bind_get.
  cbn [add_log set_auto auto]. rewrite Hwo. cbn [negb].
  rewrite bind_emit. cbn. now rewrite <- !app_assoc.
Qed.

(** X20.  The header attributes are not reset from one sheet to the
    next.  A sheet that cannot be read, or that is too short to have a cell
    B2, is therefore processed under the WO number left by the sheet
    before it: that work order is looked up again. *)
Theorem unreadable_sheet_is_processed_under_previous_wo (p : params)
    (idx total : nat) (sheet wo : pystr) (w : world) :
  frames E sheet = Read_error
  \/ (exists services, frames E sheet = Frame [] services) ->
  wo_number (auto w) = Some wo -> wo <> [] ->
  exists evs,
    log (snd (process_sheet E p true idx total sheet w))
    = log w ++ Status (Processing_sheet idx total sheet)
               :: Browser (Search_work_order wo) :: evs.
Proof.
  intros Hframe Hwo Hne.
  assert (Hkept : wo_number (parse_sheet E sheet (auto w)) = Some wo).
  { unfold parse_sheet. destruct Hframe as [-> | [services ->]]; exact Hwo. }
  unfold process_sheet. rewrite bind_modify, bind_emit, bind_get.
  cbn [add_log set_auto auto]. rewrite Hkept.
  destruct wo as [|c s]; [congruence|]. cbn [truthy_attr negb].
  unfold search_work_order, job, call.
  rewrite ?bind_assoc, bind_get, ?bind_assoc, bind_emit.
  cbn [default from_option id].
  match goal with
  | |- context [snd (?m ?w1)] =>
      destruct (log_grows (fun _ => True) m w1) as (evs & -> & _)
  end.
  { pose proof (stable_any E) as HI.
    repeat first
      [ apply (spec_run_steps E _ _ HI (fun _ _ => Logic.I)
                 (spec_update_excel_file_any E _ HI))
      | apply (spec_update_excel_file_any E _ HI)
      | spec_step ]. }
  exists evs. cbn [log add_log set_auto]. now rewrite <- !app_assoc.
Qed.

End Stop_and_sheets.

Lemma stop_before_browser_opens_nothing_witness :
  let E := Demo.one_sheet Demo.quiet Demo.login_ok Demo.job_ok Demo.two_lines in
  let w := ui_step (start_world Demo.book_two_sheets) On_stop in
  let r := @run_automation Demo.whole_float_text E Demo.all_steps w in
  fst r = Done tt
  /\ log (snd r)
     = [Progress 0 1; Status Initializing; Status Stopped_before_browser;
        Controls_enabled; Browser Close_browser; Controls_enabled]
  /\ excel (snd r) = Demo.book_two_sheets.
Proof.
  intros E w.
  exact (@stop_before_browser_opens_nothing Demo.whole_float_text E
           Demo.all_steps w eq_refl (or_introl eq_refl)).
Defined.

Lemma stop_inside_sheet_still_writes_back_witness :
  let E := Demo.one_sheet Demo.quiet Demo.login_ok Demo.job_ok Demo.two_lines in
  let w := ui_step (Demo.at_sheet1 Demo.two_lines) On_stop in
  let r := @process_sheet Demo.whole_float_text E Demo.all_steps true 1 1
             (str "Sheet1") w in
  fst r = Done tt
  /\ log (snd r)
     = [Status (Processing_sheet 1 1 (str "Sheet1"));
        Browser (Search_work_order (str "1001")); Status Stop_exiting_sheet;
        Excel_saved (str "Sheet1") (str "CREATED"); Status Excel_updated;
        Sheet_processed (str "Sheet1"); Progress 1 1].
Proof.
  intros E w.
  assert (Hwo : str "1001" <> []) by discriminate.
  assert (Hsteps : ordered (start_at Demo.all_steps)
                     (selected_steps Demo.all_steps) <> []) by discriminate.
  exact (@stop_inside_sheet_still_writes_back Demo.whole_float_text E
           Demo.all_steps 1 1 (str "Sheet1") (str "1001") w
           {| sheetnames := [str "Sheet1"; str "Sheet2"];
              active := str "Sheet1"; cells := ∅ |}
           eq_refl Hwo eq_refl Hsteps (or_introl eq_refl)
           eq_refl eq_refl eq_refl).
Defined.

Lemma sheet_without_wo_number_is_skipped_witness :
  let r := @process_sheet Demo.whole_float_text Cases.sheet_without_wo
             Demo.all_steps true 1 1 (str "Sheet1")
             (Demo.at_sheet1 Demo.two_lines) in
  fst r = Done tt
  /\ log (snd r)
     = [Status (Processing_sheet 1 1 (str "Sheet1"));
        Missing_wo (str "Sheet1"); Progress 1 1]
  /\ excel (snd r) = Demo.book_two_sheets.
Proof.
  exact (@sheet_without_wo_number_is_skipped Demo.whole_float_text
           Cases.sheet_without_wo Demo.all_steps true 1 1 (str "Sheet1")
           (Demo.at_sheet1 Demo.two_lines) VNaN [VNaN; VNaN; VNaN; VNaN]
           (Some Demo.two_lines) eq_refl (or_introl eq_refl)).
Defined.

Lemma unreadable_sheet_is_processed_under_previous_wo_witness :
  exists evs,
    log (snd (@process_sheet Demo.whole_float_text Cases.second_sheet_unreadable
                Demo.all_steps true 2 2 (str "Sheet2")
                (Demo.at_sheet1 Demo.two_lines)))
    = Status (Processing_sheet 2 2 (str "Sheet2"))
      :: Browser (Search_work_order (str "1001")) :: evs.
Proof.
  assert (Hwo : str "1001" <> []) by discriminate.
  exact (@unreadable_sheet_is_processed_under_previous_wo
           Demo.whole_float_text Cases.second_sheet_unreadable Demo.all_steps
           2 2 (str "Sheet2") (str "1001") (Demo.at_sheet1 Demo.two_lines)
           (or_introl eq_refl) eq_refl Hwo).
Defined.

(** ** A run without a browser (lines 2313-2323, 2450-2452) *)

Section No_browser.
Context `{FloatText} (E : env).

Lemma spec_update_excel_file_events (I : world -> Prop) (P : event -> Prop) :
  stable E I ->
  P (Status Failed_to_update_excel) -> P (Status Excel_updated) ->
  (forall title status, P (Excel_saved title status)) ->
  spec I P update_excel_file.
Proof.
  intros HI Hfail Hok Hsaved w Hw. unfold update_excel_file.
  destruct (negb (truthy_attr (working_excel_path (auto w)))).
  { exists []. simpl. rewrite app_nil_r. repeat split; auto; discriminate. }
  destruct (book (excel w)) as [wb|].
  2: { exists [Status Failed_to_update_excel]. simpl.
       repeat split; auto; try discriminate. now apply (stable_log _ _ HI). }
  destruct (writable (excel w)).
  2: { exists [Status Failed_to_update_excel]. simpl.
       repeat split; auto; try discriminate. now apply (stable_log _ _ HI). }
  exists [Excel_saved (target_sheet (auto w) wb) (status_cell (auto w));
          Status Excel_updated]. simpl.
  rewrite <- app_assoc.
  repeat split; auto; try discriminate.
  now apply (stable_log _ _ HI), (stable_log _ _ HI), (stable_excel _ _ HI).
Qed.

Lemma spec_process_sheet_offline (p : params) (idx total : nat) (sheet : pystr) :
  spec (fun _ => True) offline (process_sheet E p false idx total sheet).
Proof.
  pose proof (stable_any E) as HI. unfold process_sheet.
  eapply spec_bind.
  { eapply spec_modify; [eassumption | apply parse_sheet_ingesting |].
    intros a Ha. unfold parse_sheet. now destruct (frames E sheet). }
  intros _.
  repeat first
    [ apply spec_update_excel_file_events; [assumption | intros; exact Logic.I..]
    | spec_step ].
Qed.

Lemma spec_sheet_loop_offline (p : params) (total : nat) (sheets : list pystr)
    (idx : nat) :
  spec (fun _ => True) offline (sheet_loop E p false total sheets idx).
Proof.
  pose proof (stable_any E) as HI.
  revert idx. induction sheets as [|sheet sheets IH]; intros idx;
    cbn [sheet_loop];
    repeat first [apply spec_process_sheet_offline | apply IH | spec_step].
Qed.

(** X21.  When the browser cannot be started the run makes no call to
    the page and enters no pipeline method: all it may still do is read the
    sheets, write the file and report. *)
Theorem without_browser_nothing_is_automated (p : params) (w : world)
    (evs : list event) :
  browser_starts E = false ->
  log (snd (run_automation E p w)) = log w ++ evs ->
  Forall offline evs.
Proof.
  intros Hb Hl.
  assert (Hs : spec (fun _ => True) offline (run_automation E p)).
  { pose proof (stable_any E) as HI.
    unfold run_automation, close_browser, enable_controls.
    eapply spec_try_finally; [|repeat spec_step].
    eapply spec_try_except; [|intros e; repeat spec_step].
    unfold run_body, enable_controls. rewrite Hb.
    repeat first
      [ apply spec_sheet_loop_offline
      | eapply spec_modify;
        [eassumption | intros ? ?; now left | intros ? ?; reflexivity]
      | spec_step ]. }
  destruct (Hs w Logic.I) as (evs' & Hl' & Hev & _).
  rewrite Hl in Hl'. apply app_inv_head in Hl'. now subst.
Qed.

Lemma checkpoints_app (l1 l2 : list event) :
  checkpoints (l1 ++ l2) = checkpoints l1 ++ checkpoints l2.
Proof. apply omap_app. Qed.

Lemma sheet_loop_offline_marks (p : params) (names : list pystr)
    (total : nat) (sheets : list pystr) (idx : nat) (w : world) :
  no_stop E -> truthy_attr (excel_path p) = true ->
  (forall sheet, sheet ∈ sheets ->
     sheet ∈ names
     /\ exists v cells services,
          frames E sheet = Frame (v :: cells) services
          /\ truthy_attr (header_field v) = true) ->
  writable_book p names w ->
  exists w',
    sheet_loop E p false total sheets idx w = (Done tt, w')
    /\ writable_book p names w'
    /\ checkpoints (log w') = checkpoints (log w) ++ sheets.
Proof.
  intros Hns Hpath. revert idx w.
  induction sheets as [|sheet sheets IH]; intros idx w Hsheets Hw.
  { exists w. rewrite app_nil_r. auto. }
  cbn [sheet_loop]. rewrite bind_stop_is_set.
  destruct Hw as (Hstop & Hp & Hwr & wb & Hb & Hn).
  pose proof (stable_yield _ _ (stable_no_stop E Hns) w Hstop) as Hstop1.
  change (stop_event (snd (yield E w)) = false) in Hstop1.
  destruct (yield_same E w) as [Ha Hl]. pose proof (yield_excel E w) as Hx.
  revert Hstop1 Ha Hl Hx. generalize (snd (yield E w)).
  intros w1 Hstop1 Ha Hl Hx. rewrite Hstop1.
  destruct (Hsheets sheet) as (Hin & v & cells & services & Hframe & Hv);
    [left|].
  assert (Hwo : wo_number (parse_sheet E sheet (auto w1)) = header_field v).
  { unfold parse_sheet. now rewrite Hframe. }
  destruct (parse_sheet_keeps E sheet (auto w1)) as (Hp1 & Hc1 & _).
  set (a := parse_sheet E sheet (auto w1)) in *.
  assert (Ht : target_sheet a wb = sheet).
  { unfold target_sheet. rewrite Hc1, Hn. now rewrite bool_decide_eq_true_2. }
  unfold process_sheet. rewrite ?bind_assoc, bind_modify, ?bind_assoc, bind_emit.
  rewrite ?bind_assoc, bind_get. cbn [add_log set_auto auto]. fold a.
  rewrite Hwo, Hv. cbn [negb]. rewrite ?bind_assoc.
  set (w2 := add_log (Status (Processing_sheet idx total sheet))
               (set_auto (parse_sheet E sheet) w1)).
  assert (Hup : update_excel_file w2
                = (Done true,
                   add_log (Status Excel_updated)
                     (add_log (Excel_saved sheet (status_cell a))
                        (set_excel {| book := Some (write_header a wb);
                                      writable := true |} w2)))).
  { unfold update_excel_file.
    change (auto w2) with a. change (excel w2) with (excel w1).
    now rewrite Hp1, Ha, Hp, Hpath, Hx, Hb, Hwr, Ht. }
  rewrite (bind_done _ _ _ _ _ Hup), ?bind_assoc, bind_emit, ?bind_assoc, bind_emit.
  match goal with
  | |- context [sheet_loop E p false total sheets (S idx) ?w3] =>
      destruct (IH (S idx) w3) as (w' & Hrun & Hw' & Hck)
  end.
  { intros sheet' Hs'. apply Hsheets. now right. }
  { subst w2. unfold writable_book.
    cbn [add_log set_excel set_auto stop_event auto excel book writable].
    fold a. rewrite Hp1, Ha. repeat split; auto.
    now exists (write_header a wb). }
  exists w'. split; [exact Hrun|]. split; [exact Hw'|].
  rewrite Hck. subst w2. cbn [log add_log set_excel set_auto].
  rewrite !checkpoints_app, Hl. cbn. now rewrite !app_nil_r, <- app_assoc.
Qed.

(** X22.  A browser that cannot be started does not end the run.  With
    nobody stopping it, a working copy that opens and saves, and sheets
    that carry a WO number, the run goes through every sheet, writes each of
    them back in turn (so that B5 receives a status although nothing was
    done in Maximo) and reports that the automation is complete. *)
Theorem without_browser_sheets_are_still_marked (p : params) (x : excel_file)
    (wb : workbook) :
  browser_starts E = false -> excel_readable E = true -> no_stop E ->
  truthy_attr (excel_path p) = true ->
  book x = Some wb -> writable x = true ->
  (forall sheet, sheet ∈ sheet_names E ->
     sheet ∈ sheetnames wb
     /\ exists v cells services,
          frames E sheet = Frame (v :: cells) services
          /\ truthy_attr (header_field v) = true) ->
  fst (run_automation E p (start_world x)) = Done tt
  /\ checkpoints (log (snd (run_automation E p (start_world x))))
     = sheet_names E
  /\ Status Automation_complete
     ∈ log (snd (run_automation E p (start_world x))).
Proof.
  intros Hb Hr Hns Hpath Hbook Hwr Hsheets.
  set (w0 := set_auto (fun _ => new_automation p)
               (add_log (Status Initializing)
                  (add_log (Progress 0 1) (start_world x)))).
  pose proof (stable_yield _ _ (stable_no_stop E Hns) w0 eq_refl) as Hstop1.
  change (stop_event (snd (yield E w0)) = false) in Hstop1.
  destruct (yield_same E w0) as [Ha Hl]. pose proof (yield_excel E w0) as Hx.
  destruct (sheet_loop_offline_marks p (sheetnames wb)
              (length (sheet_names E)) (sheet_names E) 1
              (add_log (Status Failed_to_start_browser) (snd (yield E w0)))
              Hns Hpath Hsheets) as (w' & Hrun & _ & Hck).
  { unfold writable_book. cbn [add_log stop_event auto excel].
    rewrite Ha, Hx. repeat split; auto. now exists wb. }
  assert (Hbody : run_body E p (start_world x)
                  = (Done tt, add_log (Status Automation_complete) w')).
  { unfold run_body. rewrite !bind_emit, Hpath. cbn [negb].
    rewrite bind_modify, bind_stop_is_set. fold w0. rewrite Hstop1, Hb.
    cbv zeta. rewrite bind_emit, Hr. cbn [negb].
    now rewrite (bind_done _ _ _ _ _ Hrun). }
  unfold run_automation, try_finally, try_except. rewrite Hbody.
  unfold close_browser, call, enable_controls. rewrite bind_emit.
  cbn [fst snd emit log add_log]. split; [reflexivity|].
  rewrite !checkpoints_app, Hck. cbn [add_log log]. rewrite Hl. subst w0.
  cbn. rewrite !app_nil_r. split; [reflexivity|].
  rewrite !elem_of_app, !elem_of_cons. auto.
Qed.
End No_browser.

Lemma without_browser_nothing_is_automated_witness :
  Forall offline
    (log (snd (@run_automation Demo.whole_float_text Cases.no_browser
                 Demo.all_steps (start_world Demo.book_two_sheets)))).
Proof.
  exact (@without_browser_nothing_is_automated Demo.whole_float_text
           Cases.no_browser Demo.all_steps (start_world Demo.book_two_sheets)
           _ eq_refl eq_refl).
Defined.

Lemma without_browser_sheets_are_still_marked_witness :
  let r := @run_automation Demo.whole_float_text Cases.no_browser
             Demo.all_steps (start_world Demo.book_two_sheets) in
  fst r = Done tt
  /\ checkpoints (log (snd r)) = [str "Sheet1"; str "Sheet2"]
  /\ Status Automation_complete ∈ log (snd r).
Proof.
  assert (Hns : no_stop Cases.no_browser).
  { intros n Hin. now apply elem_of_nil in Hin. }
  apply (@without_browser_sheets_are_still_marked Demo.whole_float_text
           Cases.no_browser Demo.all_steps Demo.book_two_sheets
           {| sheetnames := [str "Sheet1"; str "Sheet2"];
              active := str "Sheet1"; cells := ∅ |}
           eq_refl eq_refl Hns eq_refl eq_refl eq_refl).
  intros sheet Hin. split; [exact Hin|].
  apply elem_of_cons in Hin as [-> | Hin].
  { eexists _, _, _. split; reflexivity. }
  apply elem_of_cons in Hin as [-> | Hin].
  { eexists _, _, _. split; reflexivity. }
  now apply elem_of_nil in Hin.
Defined.

(** ** Login (perform_login, lines 775-898) *)

Lemma logins_app (l1 l2 : list event) :
  logins (l1 ++ l2) = logins l1 ++ logins l2.
Proof. apply omap_app. Qed.

Lemma login_attempts_log (E : env) (budget attempt : nat) (w : world) :
  exists k evs,
    (k <= budget)%nat
    /\ log (snd (login_attempts E budget attempt w)) = log w ++ evs
    /\ logins evs = seq attempt k
    /\ forall j, (attempt <= j)%nat -> (S j < attempt + k)%nat ->
         verify_login_success E j = false.
Proof.
  revert attempt w. induction budget as [|budget IH]; intros attempt w.
  { exists 0%nat, []. cbn. rewrite app_nil_r. repeat split; auto. lia. }
  cbn [login_attempts]. unfold call. rewrite bind_emit, bind_must.
  assert (Hone : forall (r : result unit) (w1 : world) (evs : list event),
            log w1 = log w ++ Browser (Submit_credentials attempt) :: evs ->
            logins evs = [] ->
            exists k evs0,
              (k <= S budget)%nat
              /\ log (snd (r, w1)) = log w ++ evs0
              /\ logins evs0 = seq attempt k
              /\ forall j, (attempt <= j)%nat -> (S j < attempt + k)%nat ->
                   verify_login_success E j = false).
  { intros r w1 evs Hl Hn. exists 1%nat, (Browser (Submit_credentials attempt) :: evs).
    cbn [snd].
    change (Browser (Submit_credentials attempt) :: evs)
      with ([Browser (Submit_credentials attempt)] ++ evs).
    rewrite logins_app, Hn. repeat split; auto; lia. }
  destruct (credentials_ok (login E) attempt).
  2: { apply (Hone _ _ []); [cbn; rewrite <- ?app_assoc; reflexivity | reflexivity]. }
  destruct (verify_login_success E attempt) eqn:Hv.
  { apply (Hone _ _ [Status Login_successful]);
      [cbn; rewrite <- ?app_assoc; reflexivity | reflexivity]. }
  rewrite bind_get.
  match goal with
  | |- context [if ?c then raise ?m else ret tt] => destruct c
  end.
  { rewrite bind_raise.
    apply (Hone _ _ []); [cbn; rewrite <- ?app_assoc; reflexivity | reflexivity]. }
  rewrite bind_ret.
  assert (exists retry w2,
            logins retry = []
            /\ log w2 = log w ++ Browser (Submit_credentials attempt) :: retry
            /\ forall k : unit -> M unit,
                 bind (if (attempt <? 2)%nat then emit Login_retry else ret tt) k
                   (add_log (Browser (Submit_credentials attempt)) w)
                 = k tt w2) as (retry & w2 & Hn & Hl2 & ->).
  { destruct (attempt <? 2)%nat.
    - exists [Login_retry], (add_log Login_retry
                               (add_log (Browser (Submit_credentials attempt)) w)).
      split; [reflexivity|]. split; [cbn; rewrite <- ?app_assoc; reflexivity|].
      intros k. apply bind_emit.
    - exists [], (add_log (Browser (Submit_credentials attempt)) w).
      split; [reflexivity|]. split; [reflexivity|]. intros k. apply bind_ret. }
  destruct (IH (S attempt) w2) as (k & evs & Hk & Hl & Hlog & Hfail).
  exists (S k), (Browser (Submit_credentials attempt) :: retry ++ evs).
  split; [lia|]. split.
  { rewrite Hl, Hl2, <- app_assoc. reflexivity. }
  split.
  { change (Browser (Submit_credentials attempt) :: retry ++ evs)
      with ([Browser (Submit_credentials attempt)] ++ retry ++ evs).
    rewrite !logins_app, Hn, Hlog. reflexivity. }
  intros j Hj Hjk. destruct (decide (j = attempt)) as [-> | Hne]; [exact Hv|].
  apply Hfail; lia.
Qed.

Lemma first_success_hit (ok : nat -> bool) (budget i j : nat) :
  first_success ok budget i = Some j -> ok j = true /\ (j < i + budget)%nat.
Proof.
  revert i. induction budget as [|budget IH]; intros i; simpl; [discriminate|].
  destruct (ok i) eqn:Hi.
  - intros [= <-]. split; [exact Hi | lia].
  - intros Hj. apply IH in Hj as [Hj Hlt]. split; [exact Hj | lia].
Qed.

(** X23.  [perform_login] submits the credentials at most three times, in
    attempts numbered from 0 without a gap; an attempt is only followed by
    another one when its verification failed; and nothing is submitted
    unless the login page loaded and one of the three probes found the
    login form. *)
Theorem login_is_submitted_at_most_three_times (E : env) (w : world)
    (evs : list event) :
  log (snd (perform_login E w)) = log w ++ evs ->
  exists k,
    (k <= 3)%nat /\ logins evs = seq 0 k
    /\ (forall j, (S j < k)%nat -> verify_login_success E j = false)
    /\ ((0 < k)%nat ->
        login_page_loads (login E) = true
        /\ exists j, (j < 3)%nat /\ form_present (login E) j = Some true).
Proof.
  unfold perform_login. rewrite bind_must.
  assert (Hnone : forall (r : result unit),
            log (snd (r, w)) = log w ++ evs ->
            exists k, (k <= 3)%nat /\ logins evs = seq 0 k
              /\ (forall j, (S j < k)%nat -> verify_login_success E j = false)
              /\ ((0 < k)%nat ->
                  login_page_loads (login E) = true
                  /\ exists j, (j < 3)%nat
                               /\ form_present (login E) j = Some true)).
  { intros r Hl. cbn [snd] in Hl. rewrite <- (app_nil_r (log w)) in Hl at 1.
    apply app_inv_head in Hl. subst evs. exists 0%nat.
    repeat split; auto; lia. }
  destruct (login_page_loads (login E)); [|apply Hnone].
  destruct (first_success _ 3 0) as [j|] eqn:Hform; [|apply Hnone].
  apply first_success_hit in Hform as [Hform Hj].
  apply bool_decide_eq_true in Hform.
  destruct (login_attempts_log E 3 0 w) as (k & evs' & Hk & Hl & Hlog & Hfail).
  rewrite Hl. intros Heq. apply app_inv_head in Heq. subst evs'.
  exists k. split; [exact Hk|]. split; [exact Hlog|]. split.
  - intros j' Hj'. apply Hfail; lia.
  - intros _. split; [reflexivity|]. exists j. split; [lia | exact Hform].
Qed.

Lemma login_is_submitted_at_most_three_times_witness :
  let E := Demo.one_sheet Demo.quiet Demo.login_stuck Demo.job_ok
             Demo.two_lines in
  exists k,
    (k <= 3)%nat
    /\ logins (log (snd (perform_login E (start_world Demo.book_two_sheets))))
       = seq 0 k
    /\ (forall j, (S j < k)%nat -> verify_login_success E j = false)
    /\ ((0 < k)%nat ->
        login_page_loads (login E) = true
        /\ exists j, (j < 3)%nat /\ form_present (login E) j = Some true).
Proof.
  intros E.
  exact (login_is_submitted_at_most_three_times E
           (start_world Demo.book_two_sheets) _ eq_refl).
Defined.

(** ** The pages of a bill (enter_services_prices, lines 486-577) *)

Section Pages.
Context `{FloatText} (E : env).






End Pages.


(** ** The end of a run (lines 2457-2467) *)

Section Run_end.
Context `{FloatText} (E : env).


(** *** What a sheet may log *)

Lemma spec_update_excel_file_sheet (I : world -> Prop) :
  stable E I -> spec I sheet_event update_excel_file.
Proof.
  intros HI.
  apply (spec_update_excel_file_events E); [exact HI | exact Logic.I..|].
  intros; exact Logic.I.
Qed.

Section Sheet_events.
Context (I : world -> Prop) (HI : stable E I).

Ltac go := repeat first [apply spec_update_excel_file_sheet; assumption | spec_step].

Lemma sheet_price_elements ps m els processed :
  spec I sheet_event (price_elements E ps m processed els).
Proof.
  revert processed. induction els as [|el els IH]; intros processed;
    cbn [price_elements]; [go|].
  eapply spec_bind; [unfold price_element; go | intros ?; apply IH].
Qed.

Lemma sheet_price_pages ps m s page_number processed :
  spec I sheet_event (price_pages E ps m s page_number processed).
Proof.
  revert page_number processed.
  induction s as [rows next | rows rest IH]; intros page_number processed;
    cbn [price_pages rows_of];
    repeat first [apply sheet_price_elements | apply IH | spec_step].
Qed.

Lemma sheet_process_customer_bill : spec I sheet_event (process_customer_bill E).
Proof.
  unfold process_customer_bill, enter_services_prices, save_bill_changes.
  repeat first [apply sheet_price_pages | spec_step].
Qed.

Lemma sheet_service_loop total rows idx n :
  spec I sheet_event (service_loop E total rows idx n).
Proof.
  revert idx n. induction rows as [|service rows IH]; intros idx n;
    cbn [service_loop];
    repeat first [apply IH | apply (spec_check_timeout E _ HI)
                 | unfold add_single_service, add_single_service_body; spec_step
                 | spec_step].
Qed.

Lemma sheet_add_services_to_wo : spec I sheet_event (add_services_to_wo E).
Proof.
  unfold add_services_to_wo, route_wo_to_comp.
  repeat first [apply sheet_service_loop | spec_step].
Qed.

Lemma sheet_save_bill_info : spec I sheet_event save_bill_info.
Proof.
  unfold save_bill_info.
  repeat first
    [ apply spec_update_excel_file_sheet; assumption
    | eapply spec_modify;
      [eassumption | intros ? Hing; exact Hing | intros ? ?; assumption]
    | spec_step ].
Qed.

Lemma sheet_create_customer_bill : spec I sheet_event (create_customer_bill E).
Proof.
  unfold create_customer_bill.
  repeat first
    [ eapply spec_modify;
      [eassumption | intros ? Hing; exact Hing | intros ? ?; assumption]
    | spec_step ].
Qed.

Lemma sheet_run_step step : spec I sheet_event (run_step E step).
Proof.
  unfold run_step, route_wo_to_comp, save_bill_changes.
  repeat first
    [ apply sheet_add_services_to_wo | apply sheet_create_customer_bill
    | apply sheet_save_bill_info | apply sheet_process_customer_bill
    | spec_step ].
Qed.

Lemma sheet_run_steps steps : spec I sheet_event (run_steps E steps).
Proof.
  induction steps as [|step steps IH]; cbn [run_steps];
    repeat first [apply sheet_run_step | apply IH | spec_step].
Qed.

Lemma sheet_process_sheet p page idx total sheet :
  spec I sheet_event (process_sheet E p page idx total sheet).
Proof.
  unfold process_sheet, search_work_order.
  eapply spec_bind.
  { eapply spec_modify; [eassumption | apply parse_sheet_ingesting |].
    intros a Ha. unfold parse_sheet. now destruct (frames E sheet). }
  intros _.
  repeat first [apply sheet_run_steps
               | apply spec_update_excel_file_sheet; assumption | spec_step].
Qed.

End Sheet_events.

(** *** Runs that end with a given tail *)

Lemma ends_with_spec {A} (P : event -> Prop) (tail : list event) (m : M A) :
  spec (fun _ => True) P m -> ends_with P tail m.
Proof.
  intros Hm w. destruct (Hm w Logic.I) as (evs & Hl & Hev & _).
  exists evs. auto.
Qed.

Lemma ends_with_bind {A B} (P : event -> Prop) (tail : list event)
    (m : M A) (k : A -> M B) :
  spec (fun _ => True) P m -> (forall a, ends_with P tail (k a)) ->
  ends_with P tail (bind m k).
Proof.
  intros Hm Hk w. destruct (Hm w Logic.I) as (evs & Hl & Hev & _).
  unfold bind. destruct (m w) as [[a | e |] w1]; cbn [snd] in Hl;
    try (exists evs; auto; fail).
  destruct (Hk a w1) as (evs1 & Hl1 & Hcase).
  exists (evs ++ evs1). split; [now rewrite Hl1, Hl, app_assoc|].
  destruct Hcase as [Hev1 | (evs' & -> & Hev' & Hdone)].
  - left. now apply Forall_app.
  - right. exists (evs ++ evs'). split; [now rewrite app_assoc|].
    split; [now apply Forall_app | exact Hdone].
Qed.

(** The loop over the sheets logs what the sheets log; when it is left
    because of a stop request, that is the last thing it logs, and it
    returns. *)
Lemma sheet_loop_ends (p : params) (page : bool) (total : nat)
    (sheets : list pystr) (idx : nat) :
  ends_with sheet_event [Status Stopped_between_sheets]
    (sheet_loop E p page total sheets idx).
Proof.
  pose proof (stable_any E) as HI.
  revert idx. induction sheets as [|sheet sheets IH]; intros idx;
    cbn [sheet_loop].
  { apply ends_with_spec. repeat spec_step. }
  intros w. rewrite bind_stop_is_set.
  destruct (yield_same E w) as [_ Hl]. revert Hl.
  generalize (snd (yield E w)). intros w1 Hl.
  destruct (stop_event w1).
  { exists [Status Stopped_between_sheets]. cbn. rewrite Hl.
    split; [reflexivity|]. right. exists []. repeat split; auto.
    now exists tt. }
  destruct (ends_with_bind sheet_event [Status Stopped_between_sheets]
              (process_sheet E p page idx total sheet)
              (fun _ => sheet_loop E p page total sheets (S idx))
              (sheet_process_sheet _ HI p page idx total sheet)
              (fun _ => IH (S idx)) w1) as (evs & Hl1 & Hcase).
  exists evs. split; [now rewrite Hl1, Hl | exact Hcase].
Qed.

Lemma sheet_event_not_a_stop (e : event) :
  sheet_event e -> not_a_stop_between_sheets e.
Proof. destruct e as [[]| | | | | | | | | | | | | | |]; simpl; tauto. Qed.

Lemma sheet_loop_then_complete (p : params) (page : bool) (total : nat)
    (sheets : list pystr) (idx : nat) :
  ends_with not_a_stop_between_sheets
    [Status Stopped_between_sheets; Status Automation_complete]
    (sheet_loop E p page total sheets idx ;;;
     emit (Status Automation_complete)).
Proof.
  intros w. destruct (sheet_loop_ends p page total sheets idx w)
    as (evs & Hl & Hcase).
  unfold bind.
  destruct (sheet_loop E p page total sheets idx w) as [[[] | e |] w1];
    cbn [fst snd] in *.
  - exists (evs ++ [Status Automation_complete]). cbn.
    split; [now rewrite Hl, app_assoc|].
    destruct Hcase as [Hev | (evs' & -> & Hev' & _)].
    + left. apply Forall_app. split; [|repeat constructor].
      eapply Forall_impl; [exact Hev | apply sheet_event_not_a_stop].
    + right. exists evs'. split; [now rewrite <- app_assoc|].
      split; [|now exists tt].
      eapply Forall_impl; [exact Hev' | apply sheet_event_not_a_stop].
  - exists evs. split; [exact Hl|].
    destruct Hcase as [Hev | (evs' & _ & _ & a & Ha)]; [|discriminate Ha].
    left. eapply Forall_impl; [exact Hev | apply sheet_event_not_a_stop].
  - exists evs. split; [exact Hl|].
    destruct Hcase as [Hev | (evs' & _ & _ & a & Ha)]; [|discriminate Ha].
    left. eapply Forall_impl; [exact Hev | apply sheet_event_not_a_stop].
Qed.

Lemma login_attempts_no_stop_line (budget attempt : nat) :
  spec (fun _ => True) not_a_stop_between_sheets
    (login_attempts E budget attempt).
Proof.
  pose proof (stable_any E) as HI.
  revert attempt. induction budget as [|budget IH]; intros attempt;
    cbn [login_attempts]; repeat first [apply IH | spec_step].
Qed.

Lemma run_body_ends (p : params) :
  ends_with not_a_stop_between_sheets
    [Status Stopped_between_sheets; Status Automation_complete]
    (run_body E p).
Proof.
  pose proof (stable_any E) as HI.
  unfold run_body, enable_controls, perform_login.
  repeat first
    [ apply sheet_loop_then_complete
    | eapply ends_with_bind;
      [ solve [ repeat first
                  [ apply login_attempts_no_stop_line
                  | eapply spec_modify;
                    [eassumption | intros ? ?; now left
                    | intros ? ?; reflexivity]
                  | spec_step ] ]
      | intros ? ]
    | match goal with
      | |- ends_with _ _ (if ?b then _ else _) => destruct b
      end
    | apply ends_with_spec; solve [repeat spec_step] ].
Qed.

(** X26.  A run that was stopped between two sheets is reported as
    complete: right after the line that reports the stop the run sets the
    status [Automation complete], then it releases the browser and the
    controls; the sheets that were left out are reported nowhere. *)
Theorem stopped_run_still_reports_completion (p : params) (w : world)
    (evs : list event) :
  log (snd (run_automation E p w)) = log w ++ evs ->
  Status Stopped_between_sheets ∈ evs ->
  fst (run_automation E p w) = Done tt
  /\ exists evs',
       evs = evs' ++ [Status Stopped_between_sheets;
                      Status Automation_complete;
                      Browser Close_browser; Controls_enabled].
Proof.
  intros Hl Hin.
  assert (Hno : forall l, Forall not_a_stop_between_sheets l ->
                  Status Stopped_between_sheets ∉ l).
  { intros l Hf Hl'. rewrite Forall_forall in Hf. exact (Hf _ Hl'). }
  destruct (run_body_ends p w) as (evs0 & Hl0 & Hcase).
  revert Hl. unfold run_automation, try_finally, try_except,
    close_browser, call, enable_controls.
  destruct (run_body E p w) as [[[] | e |] w1]; cbn [fst snd] in *.
  - rewrite bind_emit. cbn [emit fst snd log add_log]. rewrite Hl0.
    rewrite <- !app_assoc. intros Hl. apply app_inv_head in Hl. subst evs.
    split; [reflexivity|].
    destruct Hcase as [Hev | (evs' & -> & _ & _)].
    + exfalso. revert Hin. apply Hno, Forall_app.
      split; [exact Hev | repeat constructor].
    + exists evs'. now rewrite <- app_assoc.
  - cbn [emit]. rewrite bind_emit. cbn [emit fst snd log add_log]. rewrite Hl0.
    rewrite <- !app_assoc. intros Hl. apply app_inv_head in Hl. subst evs.
    exfalso. revert Hin. apply Hno, Forall_app. split; [|repeat constructor].
    destruct Hcase as [Hev | (evs' & _ & _ & a & Ha)]; [exact Hev|].
    discriminate Ha.
  - rewrite Hl0. intros Hl. apply app_inv_head in Hl. subst evs.
    exfalso. revert Hin. apply Hno.
    destruct Hcase as [Hev | (evs' & _ & _ & a & Ha)]; [exact Hev|].
    discriminate Ha.
Qed.

End Run_end.

Lemma status_logged (s : status) (l : list event) :
  s ∈ statuses l -> Status s ∈ l.
Proof.
  unfold statuses. rewrite list_elem_of_omap. intros (e & He & Hs).
  destruct e; try discriminate Hs. now injection Hs as ->.
Qed.


Lemma stopped_run_still_reports_completion_witness :
  let r := @run_automation Demo.whole_float_text Cases.stop_between_sheets
             Demo.all_steps (start_world Demo.book_two_sheets) in
  sheets_started (log (snd r)) = [str "Sheet1"]
  /\ fst r = Done tt
  /\ exists evs',
       log (snd r)
       = evs' ++ [Status Stopped_between_sheets; Status Automation_complete;
                  Browser Close_browser; Controls_enabled].
Proof.
  intros r. split; [vm_compute; reflexivity|].
  apply (@stopped_run_still_reports_completion Demo.whole_float_text
           Cases.stop_between_sheets Demo.all_steps
           (start_world Demo.book_two_sheets) (log (snd r)) eq_refl).
  apply status_logged. vm_compute. do 5 right. left.
Defined.

(** ** The put_prices step (lines 2442-2447, 1023-1034) *)

Section Put_prices.
Context `{FloatText} (E : env).

Lemma saves_app (l1 l2 : list event) : saves (l1 ++ l2) = saves l1 ++ saves l2.
Proof. apply omap_app. Qed.

Lemma saves_none (evs : list event) :
  Forall not_a_bill_save evs -> saves evs = [].
Proof.
  induction 1 as [|e evs He _ IH]; [reflexivity|].
  change (e :: evs) with ([e] ++ evs). rewrite saves_app, IH, app_nil_r.
  destruct e as [| | | | | | | | | | | | |c| |]; try reflexivity.
  now destruct c.
Qed.

Lemma spec_enter_services_prices_quiet :
  spec (fun _ => True) not_a_bill_save (enter_services_prices E).
Proof.
  pose proof (stable_any E) as HI.
  assert (Hels : forall ps m els processed,
            spec (fun _ => True) not_a_bill_save
              (price_elements E ps m processed els)).
  { intros ps m els. induction els as [|el els IH]; intros processed;
      cbn [price_elements]; [repeat spec_step|].
    eapply spec_bind; [unfold price_element; repeat spec_step|].
    intros ?; apply IH. }
  assert (Hpages : forall ps m s n processed,
            spec (fun _ => True) not_a_bill_save
              (price_pages E ps m s n processed)).
  { intros ps m s. induction s as [rows next | rows rest IH];
      intros n processed; cbn [price_pages rows_of];
      repeat first [apply Hels | apply IH | spec_step]. }
  unfold enter_services_prices. repeat first [apply Hpages | spec_step].
Qed.

(** One call of [save_bill_changes] by a worker that is not paused. *)
Lemma save_bill_changes_run (site : save_site) (w : world) :
  paused (auto w) = false ->
  exists r w1,
    save_bill_changes E site w = (r, w1)
    /\ log w1 = log w ++ [Browser (Save_bill site)]
    /\ paused (auto w1) = false
    /\ (r = Done tt
        <-> save_clicked (prices (jobs E (default [] (current_sheet (auto w)))))
              site = true)
    /\ r <> Blocked.
Proof.
  intros Hp. unfold save_bill_changes, job, call.
  rewrite (bind_done _ _ _ _ _ (check_pause_not_paused E w Hp)).
  destruct (yield_same E w) as [Ha Hl].
  revert Ha Hl. generalize (snd (yield E w)). intros w1 Ha Hl.
  rewrite bind_get, bind_emit, Ha.
  destruct (save_clicked _ site); eexists _, _; (split; [reflexivity|]);
    cbn; rewrite Hl, Ha; repeat split; auto; discriminate.
Qed.

(** X27.  The put_prices step clicks the save button of the bill twice:
    once at the end of [process_customer_bill], whose failure ends the step
    with an error, and once more in [run_automation], whose failure is
    swallowed.  The step ends normally exactly when
    [process_customer_bill] does, and it has then made both clicks, in
    that order. *)
Theorem put_prices_saves_twice (w : world) (evs : list event) :
  paused (auto w) = false ->
  log (snd (run_step E (str "put_prices") w)) = log w ++ evs ->
  (fst (run_step E (str "put_prices") w) = Done tt
   <-> fst (process_customer_bill E w) = Done tt)
  /\ (fst (run_step E (str "put_prices") w) = Done tt ->
      saves evs = [Save_in_process_customer_bill; Save_in_run_automation]).
Proof.
  intros Hp.
  change (run_step E (str "put_prices") w)
    with (bind (process_customer_bill E)
            (fun _ => try_except (save_bill_changes E Save_in_run_automation)
                        (fun _ => ret tt)) w).
  assert (Hpcb : exists r w1 evs1,
            process_customer_bill E w = (r, w1)
            /\ log w1 = log w ++ evs1
            /\ (r = Done tt ->
                paused (auto w1) = false
                /\ saves evs1 = [Save_in_process_customer_bill])).
  { unfold process_customer_bill. rewrite bind_emit.
    set (w0 := add_log (Enter M_process_customer_bill) w).
    assert (Hp0 : paused (auto w0) = false) by exact Hp.
    rewrite (bind_done _ _ _ _ _ (check_pause_not_paused E w0 Hp0)).
    destruct (yield_same E w0) as [Ha Hl].
    revert Ha Hl. generalize (snd (yield E w0)). intros w1 Ha Hl.
    destruct (spec_enter_services_prices_quiet w1 Logic.I)
      as (evs1 & Hl1 & Hev1 & _ & Hq).
    destruct Hq as [Hp2 _]; [congruence|].
    unfold bind at 1.
    destruct (enter_services_prices E w1) as [[pr | e |] w2];
      cbn [snd] in Hl1, Hp2.
    - destruct (save_bill_changes_run Save_in_process_customer_bill w2 Hp2)
        as (r & w3 & -> & Hl3 & Hp3 & _ & _).
      exists r, w3, (Enter M_process_customer_bill :: evs1
                     ++ [Browser (Save_bill Save_in_process_customer_bill)]).
      split; [reflexivity|]. split.
      { rewrite Hl3, Hl1, Hl. subst w0. cbn. now rewrite <- !app_assoc. }
      intros _. split; [exact Hp3|].
      change (Enter M_process_customer_bill :: evs1
              ++ [Browser (Save_bill Save_in_process_customer_bill)])
        with ([Enter M_process_customer_bill] ++ evs1
              ++ [Browser (Save_bill Save_in_process_customer_bill)]).
      now rewrite !saves_app, (saves_none evs1 Hev1).
    - eexists _, _, (Enter M_process_customer_bill :: evs1).
      split; [reflexivity|]. split; [|discriminate].
      rewrite Hl1, Hl. subst w0. cbn. now rewrite <- !app_assoc.
    - eexists _, _, (Enter M_process_customer_bill :: evs1).
      split; [reflexivity|]. split; [|discriminate].
      rewrite Hl1, Hl. subst w0. cbn. now rewrite <- !app_assoc. }
  destruct Hpcb as (r & w1 & evs1 & Hrun & Hl1 & Hdone).
  unfold bind. rewrite Hrun. cbn [fst].
  destruct r as [[] | e |]; cbn [snd].
  2,3: intros _; split; [reflexivity | discriminate].
  destruct (Hdone eq_refl) as [Hp1 Hs1].
  destruct (save_bill_changes_run Save_in_run_automation w1 Hp1)
    as (r2 & w2 & Hrun2 & Hl2 & _ & _ & Hb2).
  assert (Hres : exists w3,
            try_except (save_bill_changes E Save_in_run_automation)
              (fun _ => ret tt) w1 = (Done tt, w3) /\ log w3 = log w2).
  { unfold try_except. rewrite Hrun2.
    destruct r2 as [[] | e |]; [eexists; split; reflexivity
                               | eexists; split; reflexivity | now exfalso]. }
  destruct Hres as (w3 & -> & Hl3). cbn [fst snd].
  rewrite Hl3, Hl2, Hl1, <- app_assoc. intros Hl.
  apply app_inv_head in Hl. subst evs.
  split; [tauto|]. intros _. now rewrite saves_app, Hs1.
Qed.

End Put_prices.

Lemma put_prices_saves_twice_witness :
  let E := Demo.one_sheet Demo.quiet Demo.login_ok Cases.job_second_save_fails
             Demo.two_lines in
  let r := @run_step Demo.whole_float_text E (str "put_prices")
             (Demo.at_sheet1 Demo.two_lines) in
  fst r = Done tt
  /\ saves (log (snd r))
     = [Save_in_process_customer_bill; Save_in_run_automation].
Proof.
  intros E r.
  destruct (@put_prices_saves_twice Demo.whole_float_text E
              (Demo.at_sheet1 Demo.two_lines) (log (snd r)) eq_refl eq_refl)
    as [Hiff Hs].
  assert (Hdone : fst r = Done tt) by (apply Hiff; vm_compute; reflexivity).
  split; [exact Hdone | exact (Hs Hdone)].
Defined.

(** ** A line that is not started (add_single_service, lines 1163-1183) *)

Section Refused_line.
Context `{FloatText} (E : env).

(** X28.  A line that is started when a stop request is there is refused
    before the page is touched: whatever its item and its quantity are,
    [add_single_service] returns [False] and has made no browser call. *)
Theorem line_started_after_stop_is_refused (service : service_dict)
    (row : nat) (w : world) :
  stop_event w = true \/ On_stop ∈ ui_schedule E (ticks w) ->
  fst (add_single_service E service row w) = Done false
  /\ log (snd (add_single_service E service row w))
     = log w ++ [Returned_add_single_service row false].
Proof.
  intros Hstop.
  assert (Hbody : exists e w1,
            add_single_service_body E service row w = (Raised e, w1)
            /\ log w1 = log w).
  { unfold add_single_service_body. cbv zeta.
    destruct (item_is_empty (d_item service)).
    - rewrite bind_raise. eexists _, _. split; reflexivity.
    - rewrite bind_ret, bind_stop_is_set, (yield_sees_stop E w Hstop).
      rewrite bind_raise. eexists _, _. split; [reflexivity|].
      now destruct (yield_same E w). }
  destruct Hbody as (e & w1 & Hrun & Hl).
  unfold add_single_service, bind, try_except. rewrite Hrun.
  cbn. now rewrite Hl.
Qed.

End Refused_line.

Lemma line_started_after_stop_is_refused_witness :
  let E := Demo.one_sheet Demo.quiet Demo.login_ok Demo.job_ok Demo.two_lines in
  let w := ui_step (Demo.at_sheet1 Demo.two_lines) On_stop in
  let r := @add_single_service Demo.whole_float_text E
             (to_dict (Demo.line "IS1" 2 10)) 8 w in
  fst r = Done false /\ log (snd r) = [Returned_add_single_service 8 false].
Proof.
  intros E w.
  exact (@line_started_after_stop_is_refused Demo.whole_float_text E
           (to_dict (Demo.line "IS1" 2 10)) 8 w (or_introl eq_refl)).
Defined.
